(** * Ultraminimal to-do list: a shallow embedding of the Convex back end

    The development follows the layers of the repository:
    - [convex/helpers/validation.ts]   pure validators and sanitizers;
    - [convex/db/tasks.ts], [convex/db/messages.ts]   the data-access layer;
    - [convex/endpoints/tasks.ts], [convex/endpoints/assistant.ts]   the
      endpoint layer (authentication, rate limit, validation, ownership,
      delegation).

    The managed store, the authentication component and the rate limiter are
    external to the repository; a small model of what the code relies on is
    given first. *)

From Stdlib Require Import ZArith NArith QArith Qround Ascii DecimalString Lia
  Bool.
From stdpp Require Import base option list sorting strings.

Local Open Scope string_scope.
Local Open Scope list_scope.
Local Open Scope nat_scope.
Local Open Scope Z_scope.

(** ** JavaScript strings

    A JavaScript string is a sequence of 16-bit code units; [length], [trim]
    and [slice] all work on code units.  User-supplied text (titles,
    descriptions, message contents) is therefore a [list N].  Messages of
    thrown errors and user ids are only ever compared, and are kept as Rocq
    strings. *)

Abbreviation jsstring := (list N).

(** A string literal of the source, as code units. *)
Fixpoint js (s : string) : jsstring :=
  match s with
  | EmptyString => []
  | String a s' => N_of_ascii a :: js s'
  end.

(** [WhiteSpace] and [LineTerminator] of ECMAScript: the code units removed by
    [String.prototype.trim]. *)
Definition isWhiteSpace (c : N) : bool :=
  ((c =? 9) || (c =? 10) || (c =? 11) || (c =? 12) || (c =? 13) || (c =? 32)
   || (c =? 160) || (c =? 5760) || ((8192 <=? c) && (c <=? 8202))
   || (c =? 8232) || (c =? 8233) || (c =? 8239) || (c =? 8287)
   || (c =? 12288) || (c =? 65279))%N.

Fixpoint trimStart (s : jsstring) : jsstring :=
  match s with
  | [] => []
  | c :: s' => if isWhiteSpace c then trimStart s' else s
  end.

Definition trimEnd (s : jsstring) : jsstring := rev (trimStart (rev s)).

Definition trim (s : jsstring) : jsstring := trimEnd (trimStart s).

(** [s.length] *)
Definition jslength (s : jsstring) : Z := Z.of_nat (List.length s).

(** [s.slice(0, n)] for [0 <= n]. *)
Definition slice0 (n : Z) (s : jsstring) : jsstring := take (Z.to_nat n) s.

(** ** convex/helpers/validation.ts *)

Definition isValidTaskTitle (title : jsstring) : bool :=
  (0 <? jslength (trim title)) && (jslength title <=? 200).

Definition isValidTaskDescription (description : option jsstring) : bool :=
  match description with
  | None => true
  | Some d => jslength d <=? 5000
  end.

Definition isValidThreadTitle (title : option jsstring) : bool :=
  match title with
  | None => true
  | Some t => jslength t <=? 200
  end.

Definition isValidMessageContent (content : jsstring) : bool :=
  (0 <? jslength (trim content)) && (jslength content <=? 10000).

Definition sanitizeTaskTitle (title : jsstring) : jsstring :=
  slice0 200 (trim title).

Definition sanitizeTaskDescription (description : option jsstring)
  : option jsstring :=
  match description with
  | None => None
  | Some d => Some (slice0 5000 (trim d))
  end.

Record TaskInput := {
  in_title : jsstring;
  in_description : option jsstring
}.

Record Validation := {
  valid : bool;
  error : option string;
  sanitized : option TaskInput
}.

Definition validateAndSanitizeTask (args : TaskInput) : Validation :=
  if negb (isValidTaskTitle (in_title args)) then
    {| valid := false;
       error := Some "Task title must be between 1 and 200 characters";
       sanitized := None |}
  else if negb (isValidTaskDescription (in_description args)) then
    {| valid := false;
       error := Some "Task description must be less than 5000 characters";
       sanitized := None |}
  else
    {| valid := true;
       error := None;
       sanitized :=
         Some {| in_title := sanitizeTaskTitle (in_title args);
                 in_description :=
                   sanitizeTaskDescription (in_description args) |} |}.

(** ** The managed store

    A table is the sequence of the slots ever allocated in it, in the order of
    allocation: a document id is the position of its slot, so ids are unique,
    never reused, and ordered as the documents were created (the store's
    [_creationTime]).  A deleted document leaves an empty slot. *)

Definition Id := nat.

Abbreviation Table A := (list (option A)).

(** A document as the store returns it: the stored fields with the system
    field [_id]. *)
Record Doc (A : Type) := mkDoc { _id : Id; fields : A }.
Arguments mkDoc {A} _ _.
Arguments _id {A} _.
Arguments fields {A} _.

Inductive Outcome (A : Type) :=
| Return (a : A)
| Throw (msg : string).
Arguments Return {A} a.
Arguments Throw {A} msg.

Module Store.
Section Table.
Context {A : Type}.

(** [ctx.db.get(id)]: the document, or [null]. *)
Definition get (tbl : Table A) (id : Id) : option (Doc A) :=
  match tbl !! id with
  | Some (Some row) => Some (mkDoc id row)
  | _ => None
  end.

(** [ctx.db.insert(table, row)]: the new document's id and the table. *)
Definition insert (tbl : Table A) (row : A) : Id * Table A :=
  (List.length tbl, tbl ++ [Some row]).

(** [ctx.db.patch(id, partial)]: a shallow merge, given as the function the
    partial document induces on the stored fields; the store throws when
    the document does not exist. *)
Definition patch (tbl : Table A) (id : Id) (f : A -> A)
  : Outcome unit * Table A :=
  match get tbl id with
  | Some d => (Return tt, <[id := Some (f (fields d))]> tbl)
  | None => (Throw "Update on nonexistent document ID", tbl)
  end.

(** [ctx.db.delete(id)]; the store throws when the document does not
    exist. *)
Definition delete (tbl : Table A) (id : Id) : Outcome unit * Table A :=
  match get tbl id with
  | Some _ => (Return tt, <[id := None]> tbl)
  | None => (Throw "Delete on nonexistent document ID", tbl)
  end.

(** The live documents from slot [i] on, oldest first. *)
Fixpoint scan (i : Id) (tbl : Table A) : list (Doc A) :=
  match tbl with
  | [] => []
  | Some row :: tbl' => mkDoc i row :: scan (S i) tbl'
  | None :: tbl' => scan (S i) tbl'
  end.

Inductive Order := asc | desc.

(** [ctx.db.query(table).withIndex(ix, q => q.eq(...)).order(o).collect()]:
    the documents whose indexed fields equal the given values, by creation
    time in the given direction. *)
Definition collect (tbl : Table A) (index_eq : A -> bool) (o : Order)
  : list (Doc A) :=
  let hits := List.filter (fun d => index_eq (fields d)) (scan 0%nat tbl) in
  match o with
  | asc => hits
  | desc => rev hits
  end.
End Table.
End Store.

(** ** convex/schema.ts *)

Inductive TaskStatus := active | completed | deleted.

Module Task.
Record t := mk {
  userId : string;
  title : jsstring;
  description : option jsstring;
  status : TaskStatus;
  completedAt : option Z;
  createdAt : Z;
  updatedAt : Z
}.
End Task.

Inductive ThreadStatus := thread_active | archived.

Module Thread.
Record t := mk {
  userId : string;
  title : option jsstring;
  status : ThreadStatus;
  createdAt : Z;
  updatedAt : Z
}.
End Thread.

Inductive Role := user | assistant.

Module Message.
Record t := mk {
  threadId : Id;
  userId : string;
  role : Role;
  content : jsstring;
  createdAt : Z
}.
End Message.

Record DB := mkDB {
  tasks : Table Task.t;
  threads : Table Thread.t;
  messages : Table Message.t
}.

Definition TaskStatus_eqb (a b : TaskStatus) : bool :=
  match a, b with
  | active, active | completed, completed | deleted, deleted => true
  | _, _ => false
  end.

(** ** Handlers

    A handler runs against the store and either returns or throws; the store
    it leaves behind is kept in both cases.  [mutation] is the platform's
    transaction: the writes of a handler that throws are discarded. *)

Definition Handler (A : Type) := DB -> Outcome A * DB.

Definition ret {A} (a : A) : Handler A := fun db => (Return a, db).

Definition throw {A} (msg : string) : Handler A := fun db => (Throw msg, db).

Definition bind {A B} (m : Handler A) (k : A -> Handler B) : Handler B :=
  fun db =>
    match m db with
    | (Return a, db') => k a db'
    | (Throw msg, db') => (Throw msg, db')
    end.

Notation "'let*' x := m 'in' k" := (bind m (fun x => k))
  (at level 10, x name, m at level 100, k at level 200).
Notation "m ;;; k" := (bind m (fun _ => k))
  (at level 100, k at level 200, right associativity).

(** A read of the store inside a handler. *)
Definition read {A} (f : DB -> A) : Handler A := fun db => (Return (f db), db).

Definition mutation {A} (h : Handler A) : Handler A :=
  fun db =>
    match h db with
    | (Return a, db') => (Return a, db')
    | (Throw msg, _) => (Throw msg, db)
    end.

(** A query handler only reads. *)
Definition Query (A : Type) := DB -> Outcome A.

(** ** The request context

    What a handler obtains from outside the repository's code: the
    authenticated user ([authComponent.getAuthUser]), the rate limiter's
    verdict for a limit name and key ([rateLimiter.limit]) and the clock
    ([Date.now], constant during one function run).  [getAuthUser] is what
    the call returns, a user or none; the verdict of the limiter is taken
    as given, the tokens it counts being state of that component and not of
    the three tables of the schema. *)

Record User := { user_id : string }.

Record RateLimitStatus := { ok : bool; retryAfter : Z }.

Record Ctx := {
  getAuthUser : option User;
  limit : string -> string -> RateLimitStatus;
  Date_now : Z
}.

(** ** [ctx.db] on the three tables of the schema *)

Record TableRef (A : Type) := {
  table : DB -> Table A;
  set_table : Table A -> DB -> DB
}.
Arguments table {A} _ _.
Arguments set_table {A} _ _ _.

Definition tasks_table : TableRef Task.t :=
  {| table := tasks;
     set_table := fun t db => mkDB t (threads db) (messages db) |}.

Definition threads_table : TableRef Thread.t :=
  {| table := threads;
     set_table := fun t db => mkDB (tasks db) t (messages db) |}.

Definition messages_table : TableRef Message.t :=
  {| table := messages;
     set_table := fun t db => mkDB (tasks db) (threads db) t |}.

Definition db_insert {A} (T : TableRef A) (row : A) : Handler Id :=
  fun db =>
    let '(id, tbl) := Store.insert (table T db) row in
    (Return id, set_table T tbl db).

Definition db_patch {A} (T : TableRef A) (id : Id) (f : A -> A)
  : Handler unit :=
  fun db =>
    let '(r, tbl) := Store.patch (table T db) id f in
    (r, set_table T tbl db).

Definition db_delete {A} (T : TableRef A) (id : Id) : Handler unit :=
  fun db =>
    let '(r, tbl) := Store.delete (table T db) id in
    (r, set_table T tbl db).

(** ** convex/db/tasks.ts *)

Module Tasks.

(** The document [createTask] inserts. *)
Definition new_task (now : Z) (userId : string) (title : jsstring)
    (description : option jsstring) : Task.t :=
  {| Task.userId := userId;
     Task.title := title;
     Task.description := description;
     Task.status := active;
     Task.completedAt := None;
     Task.createdAt := now;
     Task.updatedAt := now |}.

Definition createTask (ctx : Ctx) (userId : string) (title : jsstring)
    (description : option jsstring) : Handler Id :=
  let now := Date_now ctx in
  db_insert tasks_table (new_task now userId title description).

Definition getTaskById (db : DB) (id : Id) : option (Doc Task.t) :=
  Store.get (tasks db) id.

Definition getTasksByUser (db : DB) (userId : string)
  : list (Doc Task.t) :=
  Store.collect (tasks db)
    (fun t => String.eqb (Task.userId t) userId) Store.desc.

Definition getTasksByUserAndStatus (db : DB) (userId : string)
    (status : TaskStatus) : list (Doc Task.t) :=
  Store.collect (tasks db)
    (fun t => String.eqb (Task.userId t) userId
              && TaskStatus_eqb (Task.status t) status)
    Store.desc.

Definition getActiveTasksByUser (db : DB) (userId : string) :=
  getTasksByUserAndStatus db userId active.

Definition getCompletedTasksByUser (db : DB) (userId : string) :=
  getTasksByUserAndStatus db userId completed.

(** The partial documents handed to [ctx.db.patch], as the change each
    makes to the stored fields. *)
Definition complete_patch (now : Z) (t : Task.t) : Task.t :=
  {| Task.userId := Task.userId t;
     Task.title := Task.title t;
     Task.description := Task.description t;
     Task.status := completed;
     Task.completedAt := Some now;
     Task.createdAt := Task.createdAt t;
     Task.updatedAt := now |}.

Definition completeTask (ctx : Ctx) (id : Id) : Handler unit :=
  db_patch tasks_table id (complete_patch (Date_now ctx)).

Definition reactivate_patch (now : Z) (t : Task.t) : Task.t :=
  {| Task.userId := Task.userId t;
     Task.title := Task.title t;
     Task.description := Task.description t;
     Task.status := active;
     Task.completedAt := None;
     Task.createdAt := Task.createdAt t;
     Task.updatedAt := now |}.

Definition reactivateTask (ctx : Ctx) (id : Id) : Handler unit :=
  db_patch tasks_table id (reactivate_patch (Date_now ctx)).

(** [args] holds the keys [title] and [description] only when given. *)
Definition update_patch (title description : option jsstring) (now : Z)
    (t : Task.t) : Task.t :=
  {| Task.userId := Task.userId t;
     Task.title := default (Task.title t) title;
     Task.description :=
       match description with
       | Some d => Some d
       | None => Task.description t
       end;
     Task.status := Task.status t;
     Task.completedAt := Task.completedAt t;
     Task.createdAt := Task.createdAt t;
     Task.updatedAt := now |}.

Definition updateTask (ctx : Ctx) (id : Id) (title : option jsstring)
    (description : option jsstring) : Handler unit :=
  db_patch tasks_table id (update_patch title description (Date_now ctx)).

Definition softDelete_patch (now : Z) (t : Task.t) : Task.t :=
  {| Task.userId := Task.userId t;
     Task.title := Task.title t;
     Task.description := Task.description t;
     Task.status := deleted;
     Task.completedAt := Task.completedAt t;
     Task.createdAt := Task.createdAt t;
     Task.updatedAt := now |}.

Definition softDeleteTask (ctx : Ctx) (id : Id) : Handler unit :=
  db_patch tasks_table id (softDelete_patch (Date_now ctx)).

Definition hardDeleteTask (id : Id) : Handler unit :=
  db_delete tasks_table id.

(** [limit] is the optional third argument (default 10); [take(n)] keeps the
    first [n] documents of the ordered range. *)
Definition getRecentTasks (db : DB) (userId : string) (limit : option nat)
  : list (Doc Task.t) :=
  take (default 10%nat limit)
    (Store.collect (tasks db)
       (fun t => String.eqb (Task.userId t) userId) Store.desc).

Definition countTasksByStatus (db : DB) (userId : string)
    (status : TaskStatus) : nat :=
  let tasks := getTasksByUserAndStatus db userId status in
  List.length tasks.

End Tasks.

(** ** convex/db/messages.ts *)

Module Messages.

Definition createMessage (ctx : Ctx) (threadId : Id) (userId : string)
    (role : Role) (content : jsstring) : Handler Id :=
  db_insert messages_table
    {| Message.threadId := threadId;
       Message.userId := userId;
       Message.role := role;
       Message.content := content;
       Message.createdAt := Date_now ctx |}.

Definition getMessageById (db : DB) (id : Id) : option (Doc Message.t) :=
  Store.get (messages db) id.

Definition getMessagesByThread (db : DB) (threadId : Id)
  : list (Doc Message.t) :=
  Store.collect (messages db)
    (fun m => Nat.eqb (Message.threadId m) threadId) Store.asc.

Definition deleteMessage (id : Id) : Handler unit :=
  db_delete messages_table id.

(** The [for ... of] loop over the collected documents. *)
Fixpoint deleteEach (msgs : list (Doc Message.t)) : Handler unit :=
  match msgs with
  | [] => ret tt
  | message :: rest =>
      db_delete messages_table (_id message) ;;; deleteEach rest
  end.

Definition deleteMessagesByThread (threadId : Id) : Handler unit :=
  let* msgs := read (fun db =>
    Store.collect (messages db)
      (fun m => Nat.eqb (Message.threadId m) threadId) Store.asc) in
  deleteEach msgs.

(** [limit] is the optional third argument (default 50). *)
Definition getRecentMessagesByThread (db : DB) (threadId : Id)
    (limit : option nat) : list (Doc Message.t) :=
  take (default 50%nat limit)
    (Store.collect (messages db)
       (fun m => Nat.eqb (Message.threadId m) threadId) Store.desc).

End Messages.

(** ** convex/db/threads.ts *)

Module Threads.

(** Modelled from the spec: [getThreadById] of convex/db/threads.ts, which
    is not among the sources.  The data-access layer exposes per entity a
    get that is a single scoped read of the managed store; it is taken to
    be [ctx.db.get(id)], as [getTaskById] and [getMessageById] are. *)
Definition getThreadById (db : DB) (id : Id) : option (Doc Thread.t) :=
  Store.get (threads db) id.

(** Modelled from the spec: [deleteThread] of convex/db/threads.ts, which
    is not among the sources.  Deleting a thread is terminal and removes
    the row; it is taken to be [ctx.db.delete(id)], as [hardDeleteTask]
    and [deleteMessage] are. *)
Definition deleteThread (id : Id) : Handler unit :=
  db_delete threads_table id.

End Threads.

(** ** The checks every endpoint starts with *)

(** [Math.ceil(ms / 1000)] on an integral number of milliseconds. *)
Definition ceil_seconds (ms : Z) : Z := - ((- ms) / 1000).

(** The template literal of the rate-limit failure; the number is printed in
    decimal. *)
Definition rateLimitMessage (retryAfter : Z) : string :=
  "Rate limit exceeded. Please try again in "
  ++ NilZero.string_of_int (Z.to_int (ceil_seconds retryAfter))
  ++ " seconds.".

(** [const user = await authComponent.getAuthUser(ctx);
     if (!user) throw new Error("Not authenticated");] *)
Definition authenticate (ctx : Ctx) : Handler User :=
  match getAuthUser ctx with
  | None => throw "Not authenticated"
  | Some u => ret u
  end.

(** [const status = await rateLimiter.limit(ctx, name, { key: user._id });
     if (!status.ok) throw new Error(`Rate limit exceeded. ...`);] *)
Definition rateLimit (ctx : Ctx) (name : string) (u : User) : Handler unit :=
  let status := limit ctx name (user_id u) in
  if negb (ok status) then throw (rateLimitMessage (retryAfter status))
  else ret tt.

Definition isDefined {A} (o : option A) : bool :=
  match o with
  | Some _ => true
  | None => false
  end.

(** ** convex/endpoints/tasks.ts *)

Module Endpoints_tasks.

Definition create_handler (ctx : Ctx) (title : jsstring)
    (description : option jsstring) : Handler Id :=
  let* u := authenticate ctx in
  rateLimit ctx "createTask" u ;;;
  let validation :=
    validateAndSanitizeTask
      {| in_title := title; in_description := description |} in
  if negb (valid validation) then throw (default "" (error validation))
  else
    match sanitized validation with
    | Some clean =>
        Tasks.createTask ctx (user_id u) (in_title clean)
          (in_description clean)
    | None => throw "Validator error: missing required field title"
    end.

Definition create ctx title description :=
  mutation (create_handler ctx title description).

Definition listActive (ctx : Ctx) : Query (list (Doc Task.t)) :=
  fun db =>
    match getAuthUser ctx with
    | None => Throw "Not authenticated"
    | Some u => Return (Tasks.getActiveTasksByUser db (user_id u))
    end.

Definition listCompleted (ctx : Ctx) : Query (list (Doc Task.t)) :=
  fun db =>
    match getAuthUser ctx with
    | None => Throw "Not authenticated"
    | Some u => Return (Tasks.getCompletedTasksByUser db (user_id u))
    end.

Definition get (ctx : Ctx) (id : Id) : Query (Doc Task.t) :=
  fun db =>
    match getAuthUser ctx with
    | None => Throw "Not authenticated"
    | Some u =>
        match Tasks.getTaskById db id with
        | None => Throw "Task not found"
        | Some task =>
            if negb (String.eqb (Task.userId (fields task)) (user_id u))
            then Throw "Not authorized to view this task"
            else Return task
        end
    end.

(** The ownership check shared by the mutating endpoints; [denied] is the
    message each of them throws on a foreign task. *)
Definition authorize (u : User) (id : Id) (denied : string)
  : Handler (Doc Task.t) :=
  let* found := read (fun db => Tasks.getTaskById db id) in
  match found with
  | None => throw "Task not found"
  | Some task =>
      if negb (String.eqb (Task.userId (fields task)) (user_id u))
      then throw denied
      else ret task
  end.

Definition update_handler (ctx : Ctx) (id : Id) (title : option jsstring)
    (description : option jsstring) : Handler unit :=
  let* u := authenticate ctx in
  rateLimit ctx "updateTask" u ;;;
  let* task := authorize u id "Not authorized to update this task" in
  (if isDefined title || isDefined description then
     let validation :=
       validateAndSanitizeTask
         {| in_title := default (Task.title (fields task)) title;
            in_description := description |} in
     if negb (valid validation) then throw (default "" (error validation))
     else ret tt
   else ret tt) ;;;
  Tasks.updateTask ctx id title description.

Definition update ctx id title description :=
  mutation (update_handler ctx id title description).

Definition complete_handler (ctx : Ctx) (id : Id) : Handler unit :=
  let* u := authenticate ctx in
  rateLimit ctx "updateTask" u ;;;
  let* _ := authorize u id "Not authorized to complete this task" in
  Tasks.completeTask ctx id.

Definition complete ctx id := mutation (complete_handler ctx id).

Definition reactivate_handler (ctx : Ctx) (id : Id) : Handler unit :=
  let* u := authenticate ctx in
  rateLimit ctx "updateTask" u ;;;
  let* _ := authorize u id "Not authorized to reactivate this task" in
  Tasks.reactivateTask ctx id.

Definition reactivate ctx id := mutation (reactivate_handler ctx id).

Definition remove_handler (ctx : Ctx) (id : Id) : Handler unit :=
  let* u := authenticate ctx in
  rateLimit ctx "deleteTask" u ;;;
  let* _ := authorize u id "Not authorized to delete this task" in
  Tasks.softDeleteTask ctx id.

Definition remove ctx id := mutation (remove_handler ctx id).

Definition permanentlyDelete_handler (ctx : Ctx) (id : Id)
  : Handler unit :=
  let* u := authenticate ctx in
  rateLimit ctx "deleteTask" u ;;;
  let* _ := authorize u id "Not authorized to permanently delete this task" in
  Tasks.hardDeleteTask id.

Definition permanentlyDelete ctx id :=
  mutation (permanentlyDelete_handler ctx id).

Definition list (ctx : Ctx) : Query (Datatypes.list (Doc Task.t)) :=
  fun db =>
    match getAuthUser ctx with
    | None => Throw "Not authenticated"
    | Some u => Return (Tasks.getTasksByUser db (user_id u))
    end.

End Endpoints_tasks.

(** ** convex/endpoints/assistant.ts *)

Module Endpoints_assistant.

Definition getThread (ctx : Ctx) (id : Id)
  : Query (Doc Thread.t * list (Doc Message.t)) :=
  fun db =>
    match getAuthUser ctx with
    | None => Throw "Not authenticated"
    | Some u =>
        match Threads.getThreadById db id with
        | None => Throw "Thread not found"
        | Some thread =>
            if negb (String.eqb (Thread.userId (fields thread)) (user_id u))
            then Throw "Not authorized to view this thread"
            else Return (thread, Messages.getMessagesByThread db id)
        end
    end.

(** The text of the template literal before and after [${args.content}];
    code unit 34 is the double quote, 10 the line feed. *)
Definition aiResponse_prefix : jsstring :=
  js "I'm your task assistant. I received your message: " ++ [34%N].

Definition aiResponse_suffix : jsstring :=
  [34%N; 46%N; 10%N; 10%N]
  ++ js "In a full implementation, I would:" ++ [10%N]
  ++ js "- Analyze your message for task-related insights" ++ [10%N]
  ++ js "- Provide helpful suggestions for task management" ++ [10%N]
  ++ js "- Help you break down complex tasks" ++ [10%N]
  ++ js "- Offer productivity tips" ++ [10%N; 10%N]
  ++ js "This is a placeholder response. To enable full AI functionality, ensure your AI provider (OpenAI or Anthropic) is properly configured.".

Definition aiResponseContent (content : jsstring) : jsstring :=
  aiResponse_prefix ++ content ++ aiResponse_suffix.

Record Sent := { userMessage : Id; aiMessage : Id }.

Definition sendMessage_handler (ctx : Ctx) (threadId : Id)
    (content : jsstring) : Handler Sent :=
  let* u := authenticate ctx in
  rateLimit ctx "sendMessage" u ;;;
  if negb (isValidMessageContent content) then
    throw "Message content must be between 1 and 10,000 characters"
  else
    let* found := read (fun db => Threads.getThreadById db threadId) in
    match found with
    | None => throw "Thread not found"
    | Some thread =>
        if negb (String.eqb (Thread.userId (fields thread)) (user_id u))
        then throw "Not authorized to send messages in this thread"
        else
          let* userMessage :=
            Messages.createMessage ctx threadId (user_id u) user content in
          let* previousMessages :=
            read (fun db => Messages.getMessagesByThread db threadId) in
          let conversationHistory :=
            map (fun msg => (Message.role (fields msg),
                             Message.content (fields msg)))
                previousMessages in
          let* aiMessage :=
            Messages.createMessage ctx threadId (user_id u) assistant
              (aiResponseContent content) in
          ret {| userMessage := userMessage; aiMessage := aiMessage |}
    end.

Definition sendMessage ctx threadId content :=
  mutation (sendMessage_handler ctx threadId content).

Definition deleteThread_handler (ctx : Ctx) (id : Id) : Handler unit :=
  let* u := authenticate ctx in
  let* found := read (fun db => Threads.getThreadById db id) in
  match found with
  | None => throw "Thread not found"
  | Some thread =>
      if negb (String.eqb (Thread.userId (fields thread)) (user_id u))
      then throw "Not authorized to delete this thread"
      else
        Messages.deleteMessagesByThread id ;;;
        Threads.deleteThread id
  end.

Definition deleteThread ctx id := mutation (deleteThread_handler ctx id).

(** The other thread endpoints hand over to functions of
    convex/db/threads.ts, which is not among the sources: these are
    parameters, over which everything said of the three endpoints holds. *)
Section ThreadsDataAccess.
Context {Created Updated Archived : Type}.
Variable Threads_createThread :
  Ctx -> string -> option jsstring -> Handler Created.
Variable Threads_updateThread : Ctx -> Id -> jsstring -> Handler Updated.
Variable Threads_archiveThread : Ctx -> Id -> Handler Archived.

Definition createThread_handler (ctx : Ctx) (title : option jsstring)
  : Handler Created :=
  let* u := authenticate ctx in
  rateLimit ctx "createThread" u ;;;
  Threads_createThread ctx (user_id u) title.

Definition createThread ctx title :=
  mutation (createThread_handler ctx title).

Definition updateThread_handler (ctx : Ctx) (id : Id) (title : jsstring)
  : Handler Updated :=
  let* u := authenticate ctx in
  let* found := read (fun db => Threads.getThreadById db id) in
  match found with
  | None => throw "Thread not found"
  | Some thread =>
      if negb (String.eqb (Thread.userId (fields thread)) (user_id u))
      then throw "Not authorized to update this thread"
      else Threads_updateThread ctx id title
  end.

Definition updateThread ctx id title :=
  mutation (updateThread_handler ctx id title).

Definition archiveThread_handler (ctx : Ctx) (id : Id) : Handler Archived :=
  let* u := authenticate ctx in
  let* found := read (fun db => Threads.getThreadById db id) in
  match found with
  | None => throw "Thread not found"
  | Some thread =>
      if negb (String.eqb (Thread.userId (fields thread)) (user_id u))
      then throw "Not authorized to archive this thread"
      else Threads_archiveThread ctx id
  end.

Definition archiveThread ctx id := mutation (archiveThread_handler ctx id).

End ThreadsDataAccess.

End Endpoints_assistant.

(** ** The order of the checks, step by step

    The steps the endpoint layer is described by: each either fails the
    request with its message, leaving the store as it was, or lets the
    request go on to [next]. *)

Definition check_authenticated {A} (ctx : Ctx) (db : DB)
    (next : User -> Outcome A * DB) : Outcome A * DB :=
  match getAuthUser ctx with
  | None => (Throw "Not authenticated", db)
  | Some u => next u
  end.

Definition check_rate_limit {A} (ctx : Ctx) (name : string) (u : User)
    (db : DB) (next : Outcome A * DB) : Outcome A * DB :=
  if ok (limit ctx name (user_id u)) then next
  else (Throw (rateLimitMessage (retryAfter (limit ctx name (user_id u)))),
        db).

Definition check_valid {A} (is_valid : bool) (failure : string) (db : DB)
    (next : Outcome A * DB) : Outcome A * DB :=
  if is_valid then next else (Throw failure, db).

Definition check_owns_task {A} (u : User) (id : Id) (denied : string)
    (db : DB) (next : Doc Task.t -> Outcome A * DB) : Outcome A * DB :=
  match Tasks.getTaskById db id with
  | None => (Throw "Task not found", db)
  | Some task =>
      if String.eqb (Task.userId (fields task)) (user_id u) then next task
      else (Throw denied, db)
  end.

Definition check_owns_thread {A} (u : User) (id : Id) (denied : string)
    (db : DB) (next : Doc Thread.t -> Outcome A * DB) : Outcome A * DB :=
  match Threads.getThreadById db id with
  | None => (Throw "Thread not found", db)
  | Some thread =>
      if String.eqb (Thread.userId (fields thread)) (user_id u)
      then next thread
      else (Throw denied, db)
  end.

(** The store with the slot [id] of the tasks table set to [slot]. *)
Definition with_task_slot (db : DB) (id : Id) (slot : option Task.t) : DB :=
  mkDB (<[id := slot]> (tasks db)) (threads db) (messages db).

(** ** convex/db/dashboard.ts *)

(** [Array.prototype.sort] is stable, and with a comparator that orders by a
    key its result is the one stable arrangement of the elements; it is
    given here by insertion.  [before a b] is [compare(a, b) <= 0]. *)
Fixpoint sort_insert {A} (before : A -> A -> bool) (x : A) (l : list A)
  : list A :=
  match l with
  | [] => [x]
  | y :: l' => if before x y then x :: l else y :: sort_insert before x l'
  end.

Fixpoint stable_sort {A} (before : A -> A -> bool) (l : list A) : list A :=
  match l with
  | [] => []
  | x :: l' => sort_insert before x (stable_sort before l')
  end.

(** A JavaScript number: a finite value (every finite double is a
    rational) or one of the three special values. *)
Inductive jsnumber :=
| Finite (q : Q)
| PosInfinity
| NegInfinity
| NaN.

Inductive IntegerOrInfinity :=
| Int (z : Z)
| PlusInf
| MinusInf.

(** Truncation toward zero. *)
Definition Qtrunc (q : Q) : Z :=
  if Qle_bool 0 q then Qfloor q else Qceiling q.

(** [ToIntegerOrInfinity] of ECMAScript. *)
Definition ToIntegerOrInfinity (n : jsnumber) : IntegerOrInfinity :=
  match n with
  | NaN => Int 0
  | PosInfinity => PlusInf
  | NegInfinity => MinusInf
  | Finite q => Int (Qtrunc q)
  end.

(** [a.slice(0, end)]: [end] is brought to an integer or infinity; minus
    infinity gives nothing, a negative [end] counts from the end of the
    array (not below 0), any other is capped at the length. *)
Definition Array_slice0 {A} (end_ : jsnumber) (a : list A) : list A :=
  let len := Z.of_nat (List.length a) in
  let final :=
    match ToIntegerOrInfinity end_ with
    | MinusInf => 0%Z
    | PlusInf => len
    | Int relativeEnd =>
        if (relativeEnd <? 0)%Z then Z.max (len + relativeEnd) 0
        else Z.min relativeEnd len
    end in
  take (Z.to_nat final) a.

(** [ctx.db.query(table).collect()]: every document of the table. *)
Definition collect_all {A} (tbl : Table A) : list (Doc A) :=
  Store.collect tbl (fun _ => true) Store.asc.

(** [userId ? records.filter(r => r.userId === userId) : records]; the
    empty string is falsy. *)
Definition scoped {A} (userId_of : A -> string) (userId : option string)
    (records : list (Doc A)) : list (Doc A) :=
  match userId with
  | Some uid =>
      if String.eqb uid "" then records
      else List.filter (fun r => String.eqb (userId_of (fields r)) uid)
             records
  | None => records
  end.

Module Dashboard.

Record Summary := {
  totalRecords : nat;
  perTable : list (string * nat);
  primaryTableCount : nat
}.

Definition PRIMARY_TABLE : string := "tasks".

(** The loop over [TABLES = ["tasks", "threads", "messages"]], which fills
    [perTable] key by key. *)
Definition loadSummary (db : DB) (userId : option string) : Summary :=
  let perTable :=
    [("tasks",
      List.length (scoped Task.userId userId (collect_all (tasks db))));
     ("threads",
      List.length (scoped Thread.userId userId (collect_all (threads db))));
     ("messages",
      List.length
        (scoped Message.userId userId (collect_all (messages db))))] in
  let totals := map snd perTable in
  let totalRecords := fold_left (fun sum count => (sum + count)%nat) totals
                        0%nat in
  {| totalRecords := totalRecords;
     perTable := perTable;
     primaryTableCount :=
       default 0%nat
         (snd <$> List.find (fun kv => String.eqb (fst kv) PRIMARY_TABLE)
                    perTable) |}.

Record RecentRow := {
  row_id : Id;
  name : jsstring;
  row_status : TaskStatus;
  row_updatedAt : Z
}.

(** The comparator [(a, b) => bTime - aTime] puts [a] first when
    [bTime - aTime <= 0].  Every task carries [title] and [updatedAt], so
    the [??] fallbacks of the source do not apply. *)
Definition loadRecent (db : DB) (userId : option string)
    (limit : option jsnumber) : list RecentRow :=
  let records := collect_all (tasks db) in
  let scopedRecords := scoped Task.userId userId records in
  let sorted :=
    stable_sort
      (fun a b => (Task.updatedAt (fields b) - Task.updatedAt (fields a)
                   <=? 0)%Z)
      scopedRecords in
  map (fun record =>
         {| row_id := _id record;
            name := Task.title (fields record);
            row_status := Task.status (fields record);
            row_updatedAt := Task.updatedAt (fields record) |})
      (Array_slice0 (default (Finite 5) limit) sorted).

End Dashboard.

(** ** convex/endpoints/dashboard.ts *)

Module Endpoints_dashboard.

Definition summary (ctx : Ctx) : Query Dashboard.Summary :=
  fun db =>
    match getAuthUser ctx with
    | None => Throw "Not authenticated"
    | Some u => Return (Dashboard.loadSummary db (Some (user_id u)))
    end.

Definition recent (ctx : Ctx) (limit : option jsnumber)
  : Query (list Dashboard.RecentRow) :=
  fun db =>
    match getAuthUser ctx with
    | None => Throw "Not authenticated"
    | Some u =>
        Return (Dashboard.loadRecent db (Some (user_id u))
                  (Some (default (Finite 10) limit)))
    end.

End Endpoints_dashboard.

(** ** The task endpoints as a transition system

    A call of a mutating task endpoint, and the store it leaves behind
    (unchanged when the call fails). *)

Inductive Call :=
| Create (title : jsstring) (description : option jsstring)
| Update (id : Id) (title description : option jsstring)
| Complete (id : Id)
| Reactivate (id : Id)
| Remove (id : Id)
| PermanentlyDelete (id : Id).

Definition call (ctx : Ctx) (c : Call) (db : DB) : DB :=
  match c with
  | Create title description =>
      snd (Endpoints_tasks.create ctx title description db)
  | Update id title description =>
      snd (Endpoints_tasks.update ctx id title description db)
  | Complete id => snd (Endpoints_tasks.complete ctx id db)
  | Reactivate id => snd (Endpoints_tasks.reactivate ctx id db)
  | Remove id => snd (Endpoints_tasks.remove ctx id db)
  | PermanentlyDelete id => snd (Endpoints_tasks.permanentlyDelete ctx id db)
  end.

(** The stores that calls of the task endpoints build from one without
    tasks. *)
Inductive reachable : DB -> Prop :=
| reach_start threads messages : reachable (mkDB [] threads messages)
| reach_call ctx c db : reachable db -> reachable (call ctx c db).

Definition statusOf (db : DB) (id : Id) : option TaskStatus :=
  (fun d => Task.status (fields d)) <$> Tasks.getTaskById db id.

Definition completedAtOf (db : DB) (id : Id) : option (option Z) :=
  (fun d => Task.completedAt (fields d)) <$> Tasks.getTaskById db id.

(** [status == "completed"] iff [completedAt] is set. *)
Definition completedAt_iff_completed (t : Task.t) : Prop :=
  Task.status t = completed <-> Task.completedAt t <> None.

(** The half of it that every endpoint keeps. *)
Definition completed_has_completedAt (t : Task.t) : Prop :=
  Task.status t = completed -> Task.completedAt t <> None.

Definition all_tasks (P : Task.t -> Prop) (db : DB) : Prop :=
  forall id d, Tasks.getTaskById db id = Some d -> P (fields d).

(** The change a call makes to the fields of the task it patches. *)
Definition patch_of (ctx : Ctx) (c : Call) : Task.t -> Task.t :=
  match c with
  | Update _ title description =>
      Tasks.update_patch title description (Date_now ctx)
  | Complete _ => Tasks.complete_patch (Date_now ctx)
  | Reactivate _ => Tasks.reactivate_patch (Date_now ctx)
  | Remove _ => Tasks.softDelete_patch (Date_now ctx)
  | Create _ _ | PermanentlyDelete _ => fun t => t
  end.

(** A list query answers, and the task [id] is / is not among the
    documents. *)
Definition listed (q : Outcome (list (Doc Task.t))) (id : Id) : Prop :=
  exists l d, q = Return l /\ d ∈ l /\ _id d = id.

Definition unlisted (q : Outcome (list (Doc Task.t))) (id : Id) : Prop :=
  exists l, q = Return l /\ forall d, d ∈ l -> _id d <> id.

(** The id of a document is the position of its slot, that is, its rank of
    creation in its table.  A list of documents is in reverse order of
    creation when the ids decrease along it, in order of creation when they
    increase. *)
Definition newest_first {A} (l : list (Doc A)) : Prop :=
  StronglySorted (fun a b => (_id b < _id a)%nat) l.

Definition oldest_first {A} (l : list (Doc A)) : Prop :=
  StronglySorted (fun a b => (_id a < _id b)%nat) l.

(** The slot a call that went through leaves at its target. *)
Definition slot_after (ctx : Ctx) (c : Call) (t : Task.t) : option Task.t :=
  match c with
  | PermanentlyDelete _ => None
  | _ => Some (patch_of ctx c t)
  end.

(** The order of the dashboard's recent rows: later [updatedAt] first, and
    among equal [updatedAt] the task created first. *)
Definition more_recent (a b : Doc Task.t) : Prop :=
  (Task.updatedAt (fields b) < Task.updatedAt (fields a))%Z \/
  (Task.updatedAt (fields a) = Task.updatedAt (fields b) /\
   (_id a < _id b)%nat).

Definition row_more_recent (a b : Dashboard.RecentRow) : Prop :=
  (Dashboard.row_updatedAt b < Dashboard.row_updatedAt a)%Z \/
  (Dashboard.row_updatedAt a = Dashboard.row_updatedAt b /\
   (Dashboard.row_id a < Dashboard.row_id b)%nat).

(** A sequence of calls, each with its own request context. *)
Fixpoint run_calls (trace : list (Ctx * Call)) (db : DB) : DB :=
  match trace with
  | [] => db
  | (ctx, c) :: rest => run_calls rest (call ctx c db)
  end.

(** The task a call aims at. *)
Definition target (c : Call) : option Id :=
  match c with
  | Create _ _ => None
  | Update id _ _ | Complete id | Reactivate id | Remove id
  | PermanentlyDelete id => Some id
  end.

(** The stored text of a task passes the validators. *)
Definition well_formed_task (t : Task.t) : Prop :=
  isValidTaskTitle (Task.title t) = true /\
  isValidTaskDescription (Task.description t) = true.

(** ** Sample requests and stores, used to exercise the endpoints *)

Definition alice : User := {| user_id := "alice" |}.

Definition bob : User := {| user_id := "bob" |}.

Definition unlimited (name key : string) : RateLimitStatus :=
  {| ok := true; retryAfter := 0 |}.

(** A request of [u] at time [now] that the rate limiter lets through. *)
Definition request (u : option User) (now : Z) : Ctx :=
  {| getAuthUser := u; limit := unlimited; Date_now := now |}.

Definition empty_db : DB := mkDB [] [] [].

Definition bobs_task : Task.t :=
  {| Task.userId := "bob";
     Task.title := js "Pay rent";
     Task.description := None;
     Task.status := active;
     Task.completedAt := None;
     Task.createdAt := 10;
     Task.updatedAt := 10 |}.

Definition db_bob : DB := mkDB [Some bobs_task] [] [].

Definition alices_thread : Thread.t :=
  {| Thread.userId := "alice";
     Thread.title := None;
     Thread.status := thread_active;
     Thread.createdAt := 10;
     Thread.updatedAt := 10 |}.

Definition db_thread : DB := mkDB [] [Some alices_thread] [].

(** alice's thread after she has sent "hi" in it. *)
Definition db_chat : DB :=
  snd (Endpoints_assistant.sendMessage (request (Some alice) 20) 0%nat
         (js "hi") db_thread).

(** The limiter refuses every request, asking to wait [ms] milliseconds. *)
Definition refusing (ms : Z) (name key : string) : RateLimitStatus :=
  {| ok := false; retryAfter := ms |}.

Definition limited_request (u : option User) (ms now : Z) : Ctx :=
  {| getAuthUser := u; limit := refusing ms; Date_now := now |}.

(** Two hundred spaces. *)
Definition blank_title : jsstring := replicate 200 32%N.

(** * Properties *)

(** ** The definitions on small inputs *)

Example trim_removes_both_ends :
  trim (js "  Buy milk " ++ [10%N; 9%N]) = js "Buy milk".
Proof. reflexivity. Qed.

Example trim_keeps_inner_space : trim (js "a  b") = js "a  b".
Proof. reflexivity. Qed.

Example empty_title_is_invalid : isValidTaskTitle [] = false.
Proof. reflexivity. Qed.

Example rateLimitMessage_rounds_up :
  rateLimitMessage 1500 =
  "Rate limit exceeded. Please try again in 2 seconds.".
Proof. reflexivity. Qed.

Example collect_skips_deleted_slots :
  Store.collect [Some 7%nat; None; Some 9%nat] (fun _ => true) Store.desc =
  [mkDoc 2%nat 9%nat; mkDoc 0%nat 7%nat].
Proof. reflexivity. Qed.

Example unauthenticated_create :
  Endpoints_tasks.create (request None 1) (js "Buy milk") None empty_db =
  (Throw "Not authenticated", empty_db).
Proof. reflexivity. Qed.

Example patch_of_missing_task_throws :
  Tasks.completeTask (request (Some alice) 1) 3%nat db_bob =
  (Throw "Update on nonexistent document ID", db_bob).
Proof. reflexivity. Qed.

(** ** Validation helpers *)

Lemma trimStart_keeps_head (s : jsstring) c r :
  trimStart s = c :: r -> isWhiteSpace c = false /\ c ∈ s.
Proof.
  induction s as [|a s IH]; simpl; [discriminate|].
  destruct (isWhiteSpace a) eqn:Ha.
  - intros H. destruct (IH H) as [Hc Hin]. split; [exact Hc|].
    now apply list_elem_of_further.
  - intros H. injection H as -> ->. split; [exact Ha|]. apply list_elem_of_here.
Qed.

Lemma trimStart_nonempty (s : jsstring) c :
  c ∈ s -> isWhiteSpace c = false -> trimStart s <> [].
Proof.
  induction s as [|a s IH]; intros Hin Hc.
  - inversion Hin.
  - simpl. destruct (isWhiteSpace a) eqn:Ha; [|discriminate].
    apply IH; [|exact Hc].
    inversion Hin; subst; [congruence|assumption].
Qed.

Lemma trim_nonempty (s : jsstring) c :
  c ∈ s -> isWhiteSpace c = false -> trim s <> [].
Proof.
  intros Hin Hc. unfold trim, trimEnd.
  destruct (trimStart s) as [|a r] eqn:Hs.
  - now apply (trimStart_nonempty s c) in Hs.
  - apply trimStart_keeps_head in Hs as [Ha _].
    intros Hnil. apply (f_equal (@rev N)) in Hnil.
    rewrite rev_involutive in Hnil. simpl in Hnil.
    apply (trimStart_nonempty (rev r ++ [a]) a); [|exact Ha|exact Hnil].
    apply elem_of_app. right. apply list_elem_of_here.
Qed.

Lemma trimStart_all_whitespace (s : jsstring) :
  forallb isWhiteSpace s = true -> trimStart s = [].
Proof.
  induction s as [|a s IH]; simpl; [reflexivity|].
  destruct (isWhiteSpace a); simpl; [exact IH|discriminate].
Qed.

Lemma jslength_pos_iff (s : jsstring) : (0 <? jslength s) = true <-> s <> [].
Proof.
  unfold jslength. destruct s; simpl; split; intros H; try congruence.
  - discriminate.
  - apply Z.ltb_lt. lia.
Qed.

Lemma isValidTaskTitle_true_iff (title : jsstring) :
  isValidTaskTitle title = true <->
  trim title <> [] /\ jslength title <= 200.
Proof.
  unfold isValidTaskTitle.
  rewrite andb_true_iff, jslength_pos_iff, Z.leb_le. reflexivity.
Qed.

(** A valid input is always handed back sanitized. *)
Lemma validateAndSanitizeTask_valid (args : TaskInput) :
  isValidTaskTitle (in_title args) = true ->
  isValidTaskDescription (in_description args) = true ->
  validateAndSanitizeTask args =
    {| valid := true; error := None;
       sanitized :=
         Some {| in_title := sanitizeTaskTitle (in_title args);
                 in_description :=
                   sanitizeTaskDescription (in_description args) |} |}.
Proof.
  intros Ht Hd. unfold validateAndSanitizeTask. now rewrite Ht, Hd.
Qed.

Lemma validateAndSanitizeTask_bad_title (args : TaskInput) :
  isValidTaskTitle (in_title args) = false ->
  validateAndSanitizeTask args =
    {| valid := false;
       error := Some "Task title must be between 1 and 200 characters";
       sanitized := None |}.
Proof.
  intros Ht. unfold validateAndSanitizeTask. now rewrite Ht.
Qed.

(** ** The store model *)

Section StoreFacts.
Context {A : Type}.
Local Open Scope nat_scope.
Implicit Types (tbl : Table A) (d : Doc A) (id i j : Id) (row : A).

Lemma get_Some tbl id d :
  Store.get tbl id = Some d <->
  _id d = id /\ tbl !! id = Some (Some (fields d)).
Proof.
  unfold Store.get. destruct d as [k r]; simpl.
  destruct (tbl !! id) as [[row|]|]; split.
  all: try (intros [_ H]; congruence); try discriminate.
  - intros H. injection H as -> ->. auto.
  - intros [-> H]. congruence.
Qed.

Lemma get_None tbl id :
  Store.get tbl id = None <->
  tbl !! id = None \/ tbl !! id = Some None.
Proof.
  unfold Store.get. destruct (tbl !! id) as [[row|]|]; split; auto.
  - discriminate.
  - intros [H|H]; discriminate.
Qed.

Lemma get_lt tbl id d : Store.get tbl id = Some d -> (id < length tbl)%nat.
Proof.
  intros H. apply get_Some in H as [_ H]. now apply lookup_lt_Some in H.
Qed.

Lemma get_insert_new tbl row :
  Store.get (tbl ++ [Some row]) (length tbl) = Some (mkDoc (length tbl) row).
Proof.
  apply get_Some. split; [reflexivity|]. simpl.
  rewrite lookup_app_r by lia. now rewrite Nat.sub_diag.
Qed.

Lemma get_insert_old tbl row id :
  (id < length tbl)%nat ->
  Store.get (tbl ++ [Some row]) id = Store.get tbl id.
Proof.
  intros H. unfold Store.get. now rewrite lookup_app_l.
Qed.

Lemma get_update_eq tbl id (x : option A) :
  (id < length tbl)%nat ->
  Store.get (<[id := x]> tbl) id = mkDoc id <$> x.
Proof.
  intros H. unfold Store.get. rewrite list_lookup_insert_eq by exact H.
  now destruct x.
Qed.

Lemma get_update_ne tbl id j (x : option A) :
  id <> j -> Store.get (<[id := x]> tbl) j = Store.get tbl j.
Proof.
  intros H. unfold Store.get. now rewrite list_lookup_insert_ne.
Qed.

Lemma elem_of_scan i tbl d :
  d ∈ Store.scan i tbl <->
  (i <= _id d)%nat /\ tbl !! (_id d - i)%nat = Some (Some (fields d)).
Proof.
  revert i. induction tbl as [|x tbl IH]; intros i.
  - simpl. split; [intros H; inversion H|intros [_ H]; discriminate].
  - destruct d as [k r]. simpl in *.
    assert (Hstep : (S i <= k)%nat /\
              tbl !! (k - S i)%nat = Some (Some r) <->
            (i < k)%nat /\ (x :: tbl) !! (k - i)%nat = Some (Some r)).
    { split; intros [Hk Hl]; (split; [lia|]).
      - replace (k - i)%nat with (S (k - S i)) by lia. exact Hl.
      - replace (k - i)%nat with (S (k - S i)) in Hl by lia. exact Hl. }
    destruct x as [row|].
    + rewrite elem_of_cons, (IH (S i)). simpl. rewrite Hstep. split.
      * intros [H|[Hk Hl]].
        -- injection H as -> ->. split; [lia|]. now rewrite Nat.sub_diag.
        -- split; [lia|exact Hl].
      * intros [Hk Hl]. destruct (decide (k = i)) as [->|Hne].
        -- left. rewrite Nat.sub_diag in Hl. simpl in Hl. congruence.
        -- right. split; [lia|exact Hl].
    + rewrite (IH (S i)). simpl. rewrite Hstep. split.
      * intros [Hk Hl]. split; [lia|exact Hl].
      * intros [Hk Hl]. destruct (decide (k = i)) as [->|Hne].
        -- rewrite Nat.sub_diag in Hl. discriminate.
        -- split; [lia|exact Hl].
Qed.

(** The documents of a query are the live documents that match the index
    range, whatever the direction. *)
Lemma elem_of_collect tbl (p : A -> bool) o d :
  d ∈ Store.collect tbl p o <->
  Store.get tbl (_id d) = Some d /\ p (fields d) = true.
Proof.
  assert (H : d ∈ List.filter (fun d => p (fields d)) (Store.scan 0 tbl) <->
              Store.get tbl (_id d) = Some d /\ p (fields d) = true).
  { rewrite list_elem_of_In, filter_In, <- list_elem_of_In, elem_of_scan.
    rewrite Nat.sub_0_r, get_Some. intuition lia. }
  unfold Store.collect. destruct o; [exact H|].
  now rewrite list_elem_of_In, <- in_rev, <- list_elem_of_In.
Qed.

Lemma scan_app i tbl tbl' :
  Store.scan i (tbl ++ tbl') =
  Store.scan i tbl ++ Store.scan (i + length tbl) tbl'.
Proof.
  revert i. induction tbl as [|x tbl IH]; intros i; simpl.
  - now rewrite Nat.add_0_r.
  - rewrite (IH (S i)).
    replace (S i + length tbl)%nat with (i + S (length tbl))%nat by lia.
    now destruct x.
Qed.

End StoreFacts.

(** ** Running the common checks *)

Arguments Tasks.getTaskById : simpl never.
Arguments Threads.getThreadById : simpl never.
Arguments Store.collect : simpl never.

Lemma authenticate_Some ctx u db :
  getAuthUser ctx = Some u -> authenticate ctx db = (Return u, db).
Proof. intros H. unfold authenticate. now rewrite H. Qed.

Lemma rateLimit_ok ctx name u db :
  ok (limit ctx name (user_id u)) = true ->
  rateLimit ctx name u db = (Return tt, db).
Proof. intros H. unfold rateLimit. now rewrite H. Qed.

Lemma authorize_foreign u id denied task db :
  Tasks.getTaskById db id = Some task ->
  Task.userId (fields task) <> user_id u ->
  Endpoints_tasks.authorize u id denied db = (Throw denied, db).
Proof.
  intros Hget Hne. apply String.eqb_neq in Hne.
  unfold Endpoints_tasks.authorize, bind, read. now rewrite Hget, Hne.
Qed.

Lemma authorize_owner u id denied task db :
  Tasks.getTaskById db id = Some task ->
  Task.userId (fields task) = user_id u ->
  Endpoints_tasks.authorize u id denied db = (Return task, db).
Proof.
  intros Hget Heq. apply String.eqb_eq in Heq.
  unfold Endpoints_tasks.authorize, bind, read. now rewrite Hget, Heq.
Qed.

(** Rewrites the checks a request is known to pass, in the goal. *)
Ltac pass_checks :=
  repeat first
    [ erewrite authenticate_Some by eassumption
    | erewrite rateLimit_ok by eauto
    | erewrite authorize_foreign by eassumption
    | erewrite authorize_owner by eassumption ].

(** C6 (as the code has it).  A title of 201 code units is rejected by
    [isValidTaskTitle], and the create endpoint fails on it with the title
    message; a title of 200 code units is accepted provided it holds a
    character that is not white space, and the create endpoint then stores
    a task (given a valid description). *)
Theorem title_length_boundary ctx u (title : jsstring) description db :
  getAuthUser ctx = Some u ->
  ok (limit ctx "createTask" (user_id u)) = true ->
  (jslength title = 201 ->
     isValidTaskTitle title = false /\
     Endpoints_tasks.create ctx title description db =
       (Throw "Task title must be between 1 and 200 characters", db)) /\
  (jslength title = 200 ->
   (exists c, c ∈ title /\ isWhiteSpace c = false) ->
     isValidTaskTitle title = true /\
     (isValidTaskDescription description = true ->
      exists id db',
        Endpoints_tasks.create ctx title description db = (Return id, db') /\
        Tasks.getTaskById db' id =
          Some (mkDoc id
            {| Task.userId := user_id u;
               Task.title := sanitizeTaskTitle title;
               Task.description := sanitizeTaskDescription description;
               Task.status := active;
               Task.completedAt := None;
               Task.createdAt := Date_now ctx;
               Task.updatedAt := Date_now ctx |}))).
Proof.
  intros Hauth Hrate. split.
  - intros Hlen.
    assert (Hbad : isValidTaskTitle title = false).
    { unfold isValidTaskTitle. rewrite Hlen. apply andb_false_r. }
    split; [exact Hbad|].
    unfold Endpoints_tasks.create, mutation, Endpoints_tasks.create_handler,
      bind.
    pass_checks.
    rewrite validateAndSanitizeTask_bad_title by exact Hbad. reflexivity.
  - intros Hlen [c [Hin Hc]].
    assert (Hgood : isValidTaskTitle title = true).
    { apply isValidTaskTitle_true_iff. split; [|lia].
      now apply (trim_nonempty title c). }
    split; [exact Hgood|]. intros Hdesc.
    unfold Endpoints_tasks.create, mutation, Endpoints_tasks.create_handler,
      bind.
    pass_checks.
    rewrite validateAndSanitizeTask_valid by assumption. simpl.
    eexists _, _. split; [reflexivity|]. apply get_insert_new.
Qed.

Lemma title_length_boundary_witness :
  isValidTaskTitle (replicate 199 32%N ++ js "x") = true.
Proof.
  refine (proj1 (proj2 (title_length_boundary (request (Some alice) 5) alice
            (replicate 199 32%N ++ js "x") None empty_db _ _) _ _)).
  - reflexivity.
  - reflexivity.
  - reflexivity.
  - exists 120%N. split; [|reflexivity].
    apply elem_of_app. right. apply list_elem_of_here.
Defined.

(** C6 fails as stated: a title of 200 spaces has length 200 and is
    rejected, by the validator and by the create endpoint. *)
Lemma blank_title_rejected :
  jslength blank_title = 200 /\
  isValidTaskTitle blank_title = false /\
  Endpoints_tasks.create (request (Some alice) 5) blank_title None empty_db =
    (Throw "Task title must be between 1 and 200 characters", empty_db).
Proof. vm_compute. auto. Qed.

(** ** Ownership *)

(** C4.  An authenticated caller whom the rate limiter lets through, aiming
    any of the five mutating task operations at an existing task of another
    user, gets the "Not authorized" failure of that operation, and the store
    (hence the task) is as before. *)
Theorem foreign_task_not_authorized ctx u id title description task db :
  getAuthUser ctx = Some u ->
  ok (limit ctx "updateTask" (user_id u)) = true ->
  ok (limit ctx "deleteTask" (user_id u)) = true ->
  Tasks.getTaskById db id = Some task ->
  Task.userId (fields task) <> user_id u ->
  Endpoints_tasks.update ctx id title description db =
    (Throw "Not authorized to update this task", db) /\
  Endpoints_tasks.complete ctx id db =
    (Throw "Not authorized to complete this task", db) /\
  Endpoints_tasks.reactivate ctx id db =
    (Throw "Not authorized to reactivate this task", db) /\
  Endpoints_tasks.remove ctx id db =
    (Throw "Not authorized to delete this task", db) /\
  Endpoints_tasks.permanentlyDelete ctx id db =
    (Throw "Not authorized to permanently delete this task", db).
Proof.
  intros Hauth Hupd Hdel Hget Hne.
  unfold Endpoints_tasks.update, Endpoints_tasks.update_handler,
    Endpoints_tasks.complete, Endpoints_tasks.complete_handler,
    Endpoints_tasks.reactivate, Endpoints_tasks.reactivate_handler,
    Endpoints_tasks.remove, Endpoints_tasks.remove_handler,
    Endpoints_tasks.permanentlyDelete,
    Endpoints_tasks.permanentlyDelete_handler, mutation, bind.
  pass_checks. repeat split.
Qed.

Lemma foreign_task_not_authorized_witness :
  Endpoints_tasks.remove (request (Some alice) 20) 0%nat db_bob =
    (Throw "Not authorized to delete this task", db_bob).
Proof.
  refine (proj1 (proj2 (proj2 (proj2
    (foreign_task_not_authorized (request (Some alice) 20) alice 0%nat
       None None (mkDoc 0%nat bobs_task) db_bob _ _ _ _ _))))).
  - reflexivity.
  - reflexivity.
  - reflexivity.
  - reflexivity.
  - simpl. discriminate.
Defined.

(** ** What each task endpoint does for the owner *)

Lemma db_patch_tasks db id task f :
  Tasks.getTaskById db id = Some task ->
  db_patch tasks_table id f db =
    (Return tt,
     mkDB (<[id := Some (f (fields task))]> (tasks db)) (threads db)
          (messages db)).
Proof.
  unfold Tasks.getTaskById, db_patch, Store.patch. simpl.
  intros H. now rewrite H.
Qed.

Lemma db_delete_tasks db id task :
  Tasks.getTaskById db id = Some task ->
  db_delete tasks_table id db =
    (Return tt, mkDB (<[id := None]> (tasks db)) (threads db) (messages db)).
Proof.
  unfold Tasks.getTaskById, db_delete, Store.delete. simpl.
  intros H. now rewrite H.
Qed.

Section Owner.
Variables (ctx : Ctx) (u : User) (db : DB).
Hypothesis Hauth : getAuthUser ctx = Some u.

Lemma create_succeeds title description :
  ok (limit ctx "createTask" (user_id u)) = true ->
  isValidTaskTitle title = true ->
  isValidTaskDescription description = true ->
  Endpoints_tasks.create ctx title description db =
    (Return (length (tasks db)),
     mkDB (tasks db ++
             [Some (Tasks.new_task (Date_now ctx) (user_id u)
                      (sanitizeTaskTitle title)
                      (sanitizeTaskDescription description))])
          (threads db) (messages db)).
Proof.
  intros Hrate Ht Hd.
  unfold Endpoints_tasks.create, mutation, Endpoints_tasks.create_handler,
    bind.
  pass_checks. rewrite validateAndSanitizeTask_valid by assumption.
  reflexivity.
Qed.

Variables (id : Id) (task : Doc Task.t).
Hypothesis Hget : Tasks.getTaskById db id = Some task.
Hypothesis Hown : Task.userId (fields task) = user_id u.

Lemma update_succeeds title description :
  ok (limit ctx "updateTask" (user_id u)) = true ->
  (isDefined title || isDefined description = true ->
   valid (validateAndSanitizeTask
            {| in_title := default (Task.title (fields task)) title;
               in_description := description |}) = true) ->
  Endpoints_tasks.update ctx id title description db =
    (Return tt,
     mkDB (<[id := Some (Tasks.update_patch title description
                           (Date_now ctx) (fields task))]> (tasks db))
          (threads db) (messages db)).
Proof.
  intros Hrate Hvalid.
  unfold Endpoints_tasks.update, mutation, Endpoints_tasks.update_handler,
    bind.
  pass_checks.
  destruct (isDefined title || isDefined description).
  - rewrite Hvalid by reflexivity. simpl. unfold Tasks.updateTask.
    now rewrite (db_patch_tasks db id task).
  - simpl. unfold Tasks.updateTask.
    now rewrite (db_patch_tasks db id task).
Qed.

Lemma complete_succeeds :
  ok (limit ctx "updateTask" (user_id u)) = true ->
  Endpoints_tasks.complete ctx id db =
    (Return tt,
     mkDB (<[id := Some (Tasks.complete_patch (Date_now ctx)
                           (fields task))]> (tasks db))
          (threads db) (messages db)).
Proof.
  intros Hrate.
  unfold Endpoints_tasks.complete, mutation,
    Endpoints_tasks.complete_handler, bind.
  pass_checks. unfold Tasks.completeTask.
  now rewrite (db_patch_tasks db id task).
Qed.

Lemma reactivate_succeeds :
  ok (limit ctx "updateTask" (user_id u)) = true ->
  Endpoints_tasks.reactivate ctx id db =
    (Return tt,
     mkDB (<[id := Some (Tasks.reactivate_patch (Date_now ctx)
                           (fields task))]> (tasks db))
          (threads db) (messages db)).
Proof.
  intros Hrate.
  unfold Endpoints_tasks.reactivate, mutation,
    Endpoints_tasks.reactivate_handler, bind.
  pass_checks. unfold Tasks.reactivateTask.
  now rewrite (db_patch_tasks db id task).
Qed.

Lemma remove_succeeds :
  ok (limit ctx "deleteTask" (user_id u)) = true ->
  Endpoints_tasks.remove ctx id db =
    (Return tt,
     mkDB (<[id := Some (Tasks.softDelete_patch (Date_now ctx)
                           (fields task))]> (tasks db))
          (threads db) (messages db)).
Proof.
  intros Hrate.
  unfold Endpoints_tasks.remove, mutation,
    Endpoints_tasks.remove_handler, bind.
  pass_checks. unfold Tasks.softDeleteTask.
  now rewrite (db_patch_tasks db id task).
Qed.

Lemma permanentlyDelete_succeeds :
  ok (limit ctx "deleteTask" (user_id u)) = true ->
  Endpoints_tasks.permanentlyDelete ctx id db =
    (Return tt,
     mkDB (<[id := None]> (tasks db)) (threads db) (messages db)).
Proof.
  intros Hrate.
  unfold Endpoints_tasks.permanentlyDelete, mutation,
    Endpoints_tasks.permanentlyDelete_handler, bind.
  pass_checks. unfold Tasks.hardDeleteTask.
  now rewrite (db_delete_tasks db id task).
Qed.

End Owner.

Lemma getTaskById_patched db id (x : option Task.t) d :
  Tasks.getTaskById db id = Some d ->
  Tasks.getTaskById
    (mkDB (<[id := x]> (tasks db)) (threads db) (messages db)) id =
  mkDoc id <$> x.
Proof.
  intros H. unfold Tasks.getTaskById in *. simpl.
  apply get_update_eq. now apply get_lt in H.
Qed.

Lemma getTaskById_patched_other db id j (x : option Task.t) :
  id <> j ->
  Tasks.getTaskById
    (mkDB (<[id := x]> (tasks db)) (threads db) (messages db)) j =
  Tasks.getTaskById db j.
Proof. intros H. unfold Tasks.getTaskById. simpl. now apply get_update_ne. Qed.

(** ** The store after a call *)

(** Exposes the checks of a handler for a case analysis. *)
Ltac open_handler :=
  unfold authenticate, rateLimit, Endpoints_tasks.authorize;
  unfold bind, read; cbv zeta.

(** A call leaves the store as it was, or appends one new task, or patches
    one existing task with [patch_of], or empties one slot. *)
Lemma call_cases ctx c db :
  call ctx c db = db \/
  (exists uid title description,
     call ctx c db =
       mkDB (tasks db ++
               [Some (Tasks.new_task (Date_now ctx) uid title description)])
            (threads db) (messages db)) \/
  (exists id task,
     Tasks.getTaskById db id = Some task /\
     (forall title description, c <> Create title description) /\
     c <> PermanentlyDelete id /\
     call ctx c db =
       mkDB (<[id := Some (patch_of ctx c (fields task))]> (tasks db))
            (threads db) (messages db)) \/
  (exists id task,
     Tasks.getTaskById db id = Some task /\
     c = PermanentlyDelete id /\
     call ctx c db =
       mkDB (<[id := None]> (tasks db)) (threads db) (messages db)).
Proof.
  destruct c as [title description|id title description|id|id|id|id];
    unfold call, Endpoints_tasks.create, Endpoints_tasks.update,
      Endpoints_tasks.complete, Endpoints_tasks.reactivate,
      Endpoints_tasks.remove, Endpoints_tasks.permanentlyDelete, mutation.
  - (* create *)
    unfold Endpoints_tasks.create_handler. open_handler.
    destruct (getAuthUser ctx) as [u|]; simpl; [|now left].
    destruct (ok (limit ctx "createTask" (user_id u))); simpl; [|now left].
    unfold validateAndSanitizeTask. simpl.
    destruct (isValidTaskTitle title); simpl; [|now left].
    destruct (isValidTaskDescription description); simpl; [|now left].
    right. left. eexists _, _, _. reflexivity.
  - (* update *)
    unfold Endpoints_tasks.update_handler. open_handler.
    destruct (getAuthUser ctx) as [u|]; simpl; [|now left].
    destruct (ok (limit ctx "updateTask" (user_id u))); simpl; [|now left].
    destruct (Tasks.getTaskById db id) as [task|] eqn:Hg; simpl; [|now left].
    destruct (String.eqb _ _); simpl; [|now left].
    match goal with
    | |- context [match (if ?b then _ else _) db with _ => _ end] =>
        destruct b
    end.
    + match goal with
      | |- context [valid ?v] => destruct (valid v)
      end; simpl; [|now left].
      unfold Tasks.updateTask. rewrite (db_patch_tasks db id task) by exact Hg.
      right. right. left. exists id, task. repeat split; congruence.
    + simpl. unfold Tasks.updateTask.
      rewrite (db_patch_tasks db id task) by exact Hg.
      right. right. left. exists id, task. repeat split; congruence.
  - (* complete *)
    unfold Endpoints_tasks.complete_handler. open_handler.
    destruct (getAuthUser ctx) as [u|]; simpl; [|now left].
    destruct (ok (limit ctx "updateTask" (user_id u))); simpl; [|now left].
    destruct (Tasks.getTaskById db id) as [task|] eqn:Hg; simpl; [|now left].
    destruct (String.eqb _ _); simpl; [|now left].
    unfold Tasks.completeTask. rewrite (db_patch_tasks db id task) by exact Hg.
    right. right. left. exists id, task. repeat split; congruence.
  - (* reactivate *)
    unfold Endpoints_tasks.reactivate_handler. open_handler.
    destruct (getAuthUser ctx) as [u|]; simpl; [|now left].
    destruct (ok (limit ctx "updateTask" (user_id u))); simpl; [|now left].
    destruct (Tasks.getTaskById db id) as [task|] eqn:Hg; simpl; [|now left].
    destruct (String.eqb _ _); simpl; [|now left].
    unfold Tasks.reactivateTask.
    rewrite (db_patch_tasks db id task) by exact Hg.
    right. right. left. exists id, task. repeat split; congruence.
  - (* remove *)
    unfold Endpoints_tasks.remove_handler. open_handler.
    destruct (getAuthUser ctx) as [u|]; simpl; [|now left].
    destruct (ok (limit ctx "deleteTask" (user_id u))); simpl; [|now left].
    destruct (Tasks.getTaskById db id) as [task|] eqn:Hg; simpl; [|now left].
    destruct (String.eqb _ _); simpl; [|now left].
    unfold Tasks.softDeleteTask.
    rewrite (db_patch_tasks db id task) by exact Hg.
    right. right. left. exists id, task. repeat split; congruence.
  - (* permanentlyDelete *)
    unfold Endpoints_tasks.permanentlyDelete_handler. open_handler.
    destruct (getAuthUser ctx) as [u|]; simpl; [|now left].
    destruct (ok (limit ctx "deleteTask" (user_id u))); simpl; [|now left].
    destruct (Tasks.getTaskById db id) as [task|] eqn:Hg; simpl; [|now left].
    destruct (String.eqb _ _); simpl; [|now left].
    unfold Tasks.hardDeleteTask.
    rewrite (db_delete_tasks db id task) by exact Hg.
    right. right. right. exists id, task. repeat split; congruence.
Qed.

Lemma get_insert_inv {A} (tbl : Table A) row id d :
  Store.get (tbl ++ [Some row]) id = Some d ->
  Store.get tbl id = Some d \/ d = mkDoc (length tbl) row.
Proof.
  intros H. destruct (decide (id < length tbl)%nat) as [Hlt|Hge].
  - left. now rewrite get_insert_old in H.
  - right. destruct (decide (id = length tbl)) as [->|Hne].
    + rewrite get_insert_new in H. congruence.
    + apply get_lt in H. rewrite length_app in H. simpl in H. lia.
Qed.

Lemma get_update_inv {A} (tbl : Table A) (x : option A) id j d :
  Store.get (<[id := x]> tbl) j = Some d ->
  (j = id /\ mkDoc id <$> x = Some d) \/ (j <> id /\ Store.get tbl j = Some d).
Proof.
  intros H. destruct (decide (id = j)) as [->|Hne].
  - left. split; [reflexivity|].
    rewrite get_update_eq in H; [exact H|].
    apply get_lt in H. now rewrite length_insert in H.
  - right. split; [congruence|]. now rewrite get_update_ne in H.
Qed.

(** A property of tasks that new tasks have and the patch of a call keeps
    holds of all tasks after the call. *)
Lemma call_preserves (P : Task.t -> Prop) ctx c db :
  (forall uid title description,
     P (Tasks.new_task (Date_now ctx) uid title description)) ->
  (forall t, P t -> P (patch_of ctx c t)) ->
  all_tasks P db -> all_tasks P (call ctx c db).
Proof.
  intros Hnew Hpatch Hall.
  destruct (call_cases ctx c db)
    as [->|[(uid & title & description & ->)
       |[(id & task & Hg & _ & _ & ->)|(id & task & Hg & _ & ->)]]];
    [exact Hall| | |]; intros j d Hj; unfold Tasks.getTaskById in Hj;
    simpl in Hj.
  - apply get_insert_inv in Hj as [Hj| ->]; [now apply (Hall j)|apply Hnew].
  - apply get_update_inv in Hj as [[-> Hj]|[_ Hj]]; [|now apply (Hall j)].
    simpl in Hj. injection Hj as <-. simpl. apply Hpatch. now apply (Hall id).
  - apply get_update_inv in Hj as [[-> Hj]|[_ Hj]]; [|now apply (Hall j)].
    discriminate.
Qed.

(** Every call other than the soft delete keeps "completed iff completedAt
    is set" on all tasks. *)
Lemma call_keeps_completedAt_iff_completed ctx c db :
  (forall id, c <> Remove id) ->
  all_tasks completedAt_iff_completed db ->
  all_tasks completedAt_iff_completed (call ctx c db).
Proof.
  intros Hc. apply call_preserves.
  - intros uid title description. unfold completedAt_iff_completed. simpl.
    split; [discriminate|congruence].
  - intros t Ht. unfold completedAt_iff_completed in *.
    destruct c; simpl; try exact Ht.
    + split; [discriminate|reflexivity].
    + split; [discriminate|congruence].
    + now destruct (Hc id).
Qed.

(** In every store the task endpoints can build, a completed task has its
    [completedAt] set. *)
Lemma reachable_completed_has_completedAt db :
  reachable db -> all_tasks completed_has_completedAt db.
Proof.
  induction 1 as [threads messages|ctx c db _ IH].
  - intros id d H. apply get_lt in H. simpl in H. lia.
  - apply call_preserves; [| |exact IH].
    + intros uid title description. unfold completed_has_completedAt. simpl.
      discriminate.
    + intros t Ht. unfold completed_has_completedAt in *.
      destruct c; simpl; try exact Ht; discriminate.
Qed.

(** ** C1: the soft delete and [completedAt] *)

(** C1 (the code at the failing input).  alice creates a task, completes it
    at time 2 and removes it at time 3: the stored task has status
    "deleted" while [completedAt] is still set, so a store the endpoints
    reach breaks "completed iff completedAt is set". *)
Theorem remove_keeps_completedAt :
  let db1 := call (request (Some alice) 1) (Create (js "Buy milk") None)
               empty_db in
  let db2 := call (request (Some alice) 2) (Complete 0%nat) db1 in
  let db3 := call (request (Some alice) 3) (Remove 0%nat) db2 in
  all_tasks completedAt_iff_completed db2 /\
  reachable db3 /\
  statusOf db3 0%nat = Some deleted /\
  completedAtOf db3 0%nat = Some (Some 2) /\
  ~ all_tasks completedAt_iff_completed db3.
Proof.
  intros db1 db2 db3. split; [|split; [|split; [|split]]].
  - subst db2. apply call_keeps_completedAt_iff_completed; [discriminate|].
    subst db1. apply call_keeps_completedAt_iff_completed; [discriminate|].
    intros id d H. apply get_lt in H. simpl in H. lia.
  - subst db3 db2 db1. repeat apply reach_call. apply reach_start.
  - reflexivity.
  - reflexivity.
  - intros Hall.
    assert (Hget : exists d, Tasks.getTaskById db3 0%nat = Some d /\
                     Task.status (fields d) = deleted /\
                     Task.completedAt (fields d) = Some 2).
    { eexists. split; [reflexivity|]. split; reflexivity. }
    destruct Hget as (d & Hd & Hs & Hc).
    apply Hall in Hd. unfold completedAt_iff_completed in Hd.
    rewrite Hs, Hc in Hd. destruct Hd as [_ Hd].
    assert (Hx : deleted = completed) by (apply Hd; discriminate).
    discriminate.
Qed.

(** ** C3: the status transitions *)

Lemma update_rejects_invalid ctx u id title description task db :
  getAuthUser ctx = Some u ->
  ok (limit ctx "updateTask" (user_id u)) = true ->
  Tasks.getTaskById db id = Some task ->
  Task.userId (fields task) = user_id u ->
  isDefined title || isDefined description = true ->
  valid (validateAndSanitizeTask
           {| in_title := default (Task.title (fields task)) title;
              in_description := description |}) = false ->
  snd (Endpoints_tasks.update ctx id title description db) = db.
Proof.
  intros Hauth Hrate Hget Hown Hgiven Hbad.
  unfold Endpoints_tasks.update, mutation, Endpoints_tasks.update_handler,
    bind.
  pass_checks. rewrite Hgiven, Hbad. reflexivity.
Qed.

Lemma statusOf_patched db id f task :
  Tasks.getTaskById db id = Some task ->
  statusOf (mkDB (<[id := Some (f (fields task))]> (tasks db)) (threads db)
                 (messages db)) id =
  Some (Task.status (f (fields task))).
Proof.
  intros H. unfold statusOf. now rewrite (getTaskById_patched db id _ task).
Qed.

(** C3 (as the code has it).  No endpoint looks at the current status.  For
    the owner of an existing task, in whatever status: complete leaves it
    completed, reactivate leaves it active, remove leaves it deleted,
    permanentlyDelete removes the row, and update and create leave its
    status as it was.  So reactivate and complete take a deleted task back
    to active and to completed. *)
Theorem status_transitions ctx u id task db :
  getAuthUser ctx = Some u ->
  ok (limit ctx "updateTask" (user_id u)) = true ->
  ok (limit ctx "deleteTask" (user_id u)) = true ->
  Tasks.getTaskById db id = Some task ->
  Task.userId (fields task) = user_id u ->
  statusOf (call ctx (Complete id) db) id = Some completed /\
  statusOf (call ctx (Reactivate id) db) id = Some active /\
  statusOf (call ctx (Remove id) db) id = Some deleted /\
  statusOf (call ctx (PermanentlyDelete id) db) id = None /\
  (forall title description,
     statusOf (call ctx (Update id title description) db) id =
       Some (Task.status (fields task))) /\
  (forall title description,
     statusOf (call ctx (Create title description) db) id =
       Some (Task.status (fields task))).
Proof.
  intros Hauth Hupd Hdel Hget Hown.
  assert (Hnow : statusOf db id = Some (Task.status (fields task))).
  { unfold statusOf. now rewrite Hget. }
  repeat split.
  - simpl. rewrite (complete_succeeds ctx u db Hauth id task) by assumption.
    simpl. now rewrite statusOf_patched.
  - simpl. rewrite (reactivate_succeeds ctx u db Hauth id task) by assumption.
    simpl. now rewrite statusOf_patched.
  - simpl. rewrite (remove_succeeds ctx u db Hauth id task) by assumption.
    simpl. now rewrite statusOf_patched.
  - simpl.
    rewrite (permanentlyDelete_succeeds ctx u db Hauth id task)
      by assumption.
    simpl. unfold statusOf. now rewrite (getTaskById_patched db id None task).
  - intros title description. simpl.
    destruct (isDefined title || isDefined description) eqn:Hgiven;
      [destruct (valid (validateAndSanitizeTask
         {| in_title := default (Task.title (fields task)) title;
            in_description := description |})) eqn:Hvalid|].
    + rewrite (update_succeeds ctx u db Hauth id task) by auto.
      simpl. now rewrite statusOf_patched.
    + now rewrite (update_rejects_invalid ctx u id title description task).
    + rewrite (update_succeeds ctx u db Hauth id task);
        [|assumption|assumption|assumption|intros Hx; congruence].
      simpl. now rewrite statusOf_patched.
  - intros title description.
    destruct (call_cases ctx (Create title description) db)
      as [->|[(uid & t & d & ->)
         |[(j & x & _ & Hc & _)|(j & x & _ & Hc & _)]]].
    + exact Hnow.
    + unfold statusOf, Tasks.getTaskById in *. simpl.
      rewrite get_insert_old; [exact Hnow|].
      destruct (Store.get (tasks db) id) eqn:Hg; [|discriminate].
      now apply get_lt in Hg.
    + now destruct (Hc title description).
    + discriminate.
Qed.

Lemma status_transitions_witness :
  statusOf (call (request (Some bob) 20) (Complete 0%nat) db_bob) 0%nat =
    Some completed.
Proof.
  refine (proj1 (status_transitions (request (Some bob) 20) bob 0%nat
                   (mkDoc 0%nat bobs_task) db_bob _ _ _ _ _));
    reflexivity.
Defined.

(** C3 fails as stated: alice creates a task and removes it; the deleted
    task is taken back to active by reactivate, and to completed by
    complete. *)
Lemma deleted_task_comes_back :
  let db1 := call (request (Some alice) 1) (Create (js "Buy milk") None)
               empty_db in
  let db2 := call (request (Some alice) 2) (Remove 0%nat) db1 in
  statusOf db2 0%nat = Some deleted /\
  Endpoints_tasks.reactivate (request (Some alice) 3) 0%nat db2 =
    (Return tt, call (request (Some alice) 3) (Reactivate 0%nat) db2) /\
  statusOf (call (request (Some alice) 3) (Reactivate 0%nat) db2) 0%nat =
    Some active /\
  statusOf (call (request (Some alice) 3) (Complete 0%nat) db2) 0%nat =
    Some completed.
Proof. vm_compute. repeat split. Qed.

(** ** The list queries *)

Lemma TaskStatus_eqb_eq a b : TaskStatus_eqb a b = true <-> a = b.
Proof. destruct a, b; simpl; split; congruence. Qed.

Lemma elem_of_getTasksByUserAndStatus db uid s d :
  d ∈ Tasks.getTasksByUserAndStatus db uid s <->
  Tasks.getTaskById db (_id d) = Some d /\
  Task.userId (fields d) = uid /\ Task.status (fields d) = s.
Proof.
  unfold Tasks.getTasksByUserAndStatus, Tasks.getTaskById.
  rewrite elem_of_collect, andb_true_iff, String.eqb_eq, TaskStatus_eqb_eq.
  reflexivity.
Qed.

Lemma elem_of_getTasksByUser db uid d :
  d ∈ Tasks.getTasksByUser db uid <->
  Tasks.getTaskById db (_id d) = Some d /\ Task.userId (fields d) = uid.
Proof.
  unfold Tasks.getTasksByUser, Tasks.getTaskById.
  rewrite elem_of_collect, String.eqb_eq. reflexivity.
Qed.

Lemma listed_by_status db uid s id d :
  Tasks.getTaskById db id = Some d ->
  Task.userId (fields d) = uid ->
  Task.status (fields d) = s ->
  listed (Return (Tasks.getTasksByUserAndStatus db uid s)) id.
Proof.
  intros Hget Hu Hs. exists (Tasks.getTasksByUserAndStatus db uid s), d.
  assert (Hid : _id d = id).
  { unfold Tasks.getTaskById in Hget. now apply get_Some in Hget as [? _]. }
  split; [reflexivity|]. split; [|exact Hid].
  apply elem_of_getTasksByUserAndStatus. now rewrite Hid.
Qed.

Lemma unlisted_by_status db uid s id d :
  Tasks.getTaskById db id = Some d ->
  Task.status (fields d) <> s ->
  unlisted (Return (Tasks.getTasksByUserAndStatus db uid s)) id.
Proof.
  intros Hget Hs. exists (Tasks.getTasksByUserAndStatus db uid s).
  split; [reflexivity|]. intros d' Hin Hid.
  apply elem_of_getTasksByUserAndStatus in Hin as (Hget' & _ & Hs').
  rewrite Hid, Hget in Hget'. congruence.
Qed.

(** ** C7: create, complete, reactivate *)

(** C7.  A task the authenticated user creates (valid input, no rate limit
    hit) is in listActive; after complete it is absent from listActive, in
    listCompleted, and its completedAt is set (to the time of the call);
    after reactivate it is back in listActive, absent from listCompleted,
    and its completedAt is cleared. *)
Theorem create_complete_reactivate ctx1 ctx2 ctx3 u title description db :
  getAuthUser ctx1 = Some u ->
  getAuthUser ctx2 = Some u ->
  getAuthUser ctx3 = Some u ->
  ok (limit ctx1 "createTask" (user_id u)) = true ->
  ok (limit ctx2 "updateTask" (user_id u)) = true ->
  ok (limit ctx3 "updateTask" (user_id u)) = true ->
  isValidTaskTitle title = true ->
  isValidTaskDescription description = true ->
  exists id db1 db2 db3,
    Endpoints_tasks.create ctx1 title description db = (Return id, db1) /\
    listed (Endpoints_tasks.listActive ctx1 db1) id /\
    completedAtOf db1 id = Some None /\
    Endpoints_tasks.complete ctx2 id db1 = (Return tt, db2) /\
    unlisted (Endpoints_tasks.listActive ctx2 db2) id /\
    listed (Endpoints_tasks.listCompleted ctx2 db2) id /\
    completedAtOf db2 id = Some (Some (Date_now ctx2)) /\
    Endpoints_tasks.reactivate ctx3 id db2 = (Return tt, db3) /\
    listed (Endpoints_tasks.listActive ctx3 db3) id /\
    unlisted (Endpoints_tasks.listCompleted ctx3 db3) id /\
    completedAtOf db3 id = Some None.
Proof.
  intros Hauth1 Hauth2 Hauth3 Hrate1 Hrate2 Hrate3 Htitle Hdesc.
  pose (t1 := Tasks.new_task (Date_now ctx1) (user_id u)
                (sanitizeTaskTitle title)
                (sanitizeTaskDescription description)).
  pose (id := length (tasks db)).
  pose (db1 := mkDB (tasks db ++ [Some t1]) (threads db) (messages db)).
  assert (Hget1 : Tasks.getTaskById db1 id = Some (mkDoc id t1)).
  { apply get_insert_new. }
  pose (t2 := Tasks.complete_patch (Date_now ctx2) t1).
  pose (db2 := mkDB (<[id := Some t2]> (tasks db1)) (threads db1)
                    (messages db1)).
  assert (Hget2 : Tasks.getTaskById db2 id = Some (mkDoc id t2)).
  { apply (getTaskById_patched db1 id (Some t2) _ Hget1). }
  pose (t3 := Tasks.reactivate_patch (Date_now ctx3) t2).
  pose (db3 := mkDB (<[id := Some t3]> (tasks db2)) (threads db2)
                    (messages db2)).
  assert (Hget3 : Tasks.getTaskById db3 id = Some (mkDoc id t3)).
  { apply (getTaskById_patched db2 id (Some t3) _ Hget2). }
  exists id, db1, db2, db3.
  unfold Endpoints_tasks.listActive, Endpoints_tasks.listCompleted,
    Tasks.getActiveTasksByUser, Tasks.getCompletedTasksByUser, completedAtOf.
  rewrite Hauth1, Hauth2, Hauth3, Hget1, Hget2, Hget3.
  repeat split.
  - now apply create_succeeds.
  - now apply (listed_by_status db1 _ _ id (mkDoc id t1)).
  - now apply (complete_succeeds ctx2 u db1 Hauth2 id (mkDoc id t1)).
  - now apply (unlisted_by_status db2 _ _ id (mkDoc id t2)).
  - now apply (listed_by_status db2 _ _ id (mkDoc id t2)).
  - now apply (reactivate_succeeds ctx3 u db2 Hauth3 id (mkDoc id t2)).
  - now apply (listed_by_status db3 _ _ id (mkDoc id t3)).
  - now apply (unlisted_by_status db3 _ _ id (mkDoc id t3)).
Qed.

Lemma create_complete_reactivate_witness :
  exists id db1 db2 db3,
    Endpoints_tasks.create (request (Some alice) 1) (js "Buy milk") None
      db_bob = (Return id, db1) /\
    listed (Endpoints_tasks.listActive (request (Some alice) 1) db1) id /\
    completedAtOf db1 id = Some None /\
    Endpoints_tasks.complete (request (Some alice) 2) id db1 =
      (Return tt, db2) /\
    unlisted (Endpoints_tasks.listActive (request (Some alice) 2) db2) id /\
    listed (Endpoints_tasks.listCompleted (request (Some alice) 2) db2) id /\
    completedAtOf db2 id = Some (Some 2) /\
    Endpoints_tasks.reactivate (request (Some alice) 3) id db2 =
      (Return tt, db3) /\
    listed (Endpoints_tasks.listActive (request (Some alice) 3) db3) id /\
    unlisted (Endpoints_tasks.listCompleted (request (Some alice) 3) db3) id /\
    completedAtOf db3 id = Some None.
Proof.
  apply (create_complete_reactivate (request (Some alice) 1)
           (request (Some alice) 2) (request (Some alice) 3) alice
           (js "Buy milk") None db_bob); reflexivity.
Defined.

(** ** C10: what create and update store *)

(** C10.  The create endpoint stores the sanitized title and description;
    the update endpoint, once its validation passes, stores the arguments as
    given.  For the valid title " Buy milk " a task made by create holds
    "Buy milk", and the same task after an update with that title holds
    " Buy milk ", spaces included. *)
Theorem create_sanitizes_update_does_not :
  (forall ctx u title description db,
     getAuthUser ctx = Some u ->
     ok (limit ctx "createTask" (user_id u)) = true ->
     isValidTaskTitle title = true ->
     isValidTaskDescription description = true ->
     exists id db',
       Endpoints_tasks.create ctx title description db = (Return id, db') /\
       exists d,
         Tasks.getTaskById db' id = Some d /\
         Task.title (fields d) = slice0 200 (trim title) /\
         Task.description (fields d) =
           (fun s => slice0 5000 (trim s)) <$> description) /\
  (forall ctx u id title description task db,
     getAuthUser ctx = Some u ->
     ok (limit ctx "updateTask" (user_id u)) = true ->
     Tasks.getTaskById db id = Some task ->
     Task.userId (fields task) = user_id u ->
     isValidTaskTitle title = true ->
     isValidTaskDescription description = true ->
     exists db',
       Endpoints_tasks.update ctx id (Some title) description db =
         (Return tt, db') /\
       exists d,
         Tasks.getTaskById db' id = Some d /\
         Task.title (fields d) = title /\
         Task.description (fields d) =
           match description with
           | Some s => Some s
           | None => Task.description (fields task)
           end) /\
  (let title := js " Buy milk " in
   let db1 := call (request (Some alice) 1) (Create title None) empty_db in
   let db2 := call (request (Some alice) 2) (Update 0%nat (Some title) None)
                db1 in
   isValidTaskTitle title = true /\
   (Task.title ∘ fields) <$> Tasks.getTaskById db1 0%nat =
     Some (js "Buy milk") /\
   Endpoints_tasks.update (request (Some alice) 2) 0%nat (Some title) None
     db1 = (Return tt, db2) /\
   (Task.title ∘ fields) <$> Tasks.getTaskById db2 0%nat =
     Some (js " Buy milk ")).
Proof.
  split; [|split].
  - intros ctx u title description db Hauth Hrate Ht Hd.
    eexists _, _. split; [now apply (create_succeeds ctx u)|].
    eexists. split; [apply get_insert_new|]. simpl.
    split; [reflexivity|]. now destruct description.
  - intros ctx u id title description task db Hauth Hrate Hget Hown Ht Hd.
    eexists. split.
    + apply (update_succeeds ctx u db Hauth id task Hget Hown); [exact Hrate|].
      intros _. now rewrite validateAndSanitizeTask_valid.
    + eexists. split.
      * rewrite (getTaskById_patched db id _ task Hget). reflexivity.
      * simpl. split; reflexivity.
  - vm_compute. repeat split.
Qed.

Lemma create_sanitizes_update_does_not_witness :
  (exists id db',
     Endpoints_tasks.create (request (Some alice) 1) (js " Buy milk ") None
       empty_db = (Return id, db') /\
     exists d,
       Tasks.getTaskById db' id = Some d /\
       Task.title (fields d) = slice0 200 (trim (js " Buy milk ")) /\
       Task.description (fields d) = None) /\
  (exists db',
     Endpoints_tasks.update (request (Some bob) 2) 0%nat
       (Some (js " Pay rent ")) None db_bob = (Return tt, db') /\
     exists d,
       Tasks.getTaskById db' 0%nat = Some d /\
       Task.title (fields d) = js " Pay rent " /\
       Task.description (fields d) = None).
Proof.
  split.
  - apply (proj1 create_sanitizes_update_does_not (request (Some alice) 1)
             alice (js " Buy milk ") None empty_db); reflexivity.
  - apply (proj1 (proj2 create_sanitizes_update_does_not)
             (request (Some bob) 2) bob 0%nat (js " Pay rent ") None
             (mkDoc 0%nat bobs_task) db_bob); reflexivity.
Defined.

(** ** C9: the order of the lists *)

Section Order.
Context {A : Type}.
Implicit Types (tbl : Table A) (l : list (Doc A)).

Lemma scan_oldest_first i tbl : oldest_first (Store.scan i tbl).
Proof.
  revert i. induction tbl as [|x tbl IH]; intros i; simpl.
  - constructor.
  - destruct x as [row|]; [|apply IH].
    apply StronglySorted_cons. split; [|apply IH].
    apply Forall_forall. intros d Hd.
    apply elem_of_scan in Hd as [Hd _]. simpl. lia.
Qed.

Lemma filter_sorted (R : relation (Doc A)) (p : Doc A -> bool) l :
  StronglySorted R l -> StronglySorted R (List.filter p l).
Proof.
  induction 1 as [|a l Hl IH Ha]; simpl; [constructor|].
  destruct (p a); [|exact IH].
  constructor; [exact IH|].
  rewrite Forall_forall in *. intros d Hd.
  apply Ha. apply list_elem_of_In in Hd. apply filter_In in Hd as [Hd _].
  now apply list_elem_of_In.
Qed.

Lemma rev_sorted (R : relation (Doc A)) l :
  StronglySorted R l -> StronglySorted (fun a b => R b a) (rev l).
Proof.
  induction 1 as [|a l Hl IH Ha]; simpl; [constructor|].
  apply StronglySorted_app. split; [|split].
  - intros x1 x2 H1 H2. apply list_elem_of_singleton in H2 as ->.
    rewrite Forall_forall in Ha. apply Ha.
    apply list_elem_of_In. apply in_rev. now apply list_elem_of_In.
  - exact IH.
  - repeat constructor.
Qed.

Lemma collect_asc_oldest_first tbl p :
  oldest_first (Store.collect tbl p Store.asc).
Proof. apply filter_sorted, scan_oldest_first. Qed.

Lemma collect_desc_newest_first tbl p :
  newest_first (Store.collect tbl p Store.desc).
Proof.
  unfold newest_first, Store.collect.
  apply (rev_sorted (fun a b => (_id a < _id b)%nat)).
  apply filter_sorted, scan_oldest_first.
Qed.

(** A query right after an insert: the new document is last in ascending
    order, first in descending order, when it matches; the query is as
    before when it does not. *)
Lemma collect_insert tbl p o row :
  Store.collect (tbl ++ [Some row]) p o =
  if p row then
    match o with
    | Store.asc => Store.collect tbl p o ++ [mkDoc (length tbl) row]
    | Store.desc => mkDoc (length tbl) row :: Store.collect tbl p o
    end
  else Store.collect tbl p o.
Proof.
  unfold Store.collect. rewrite scan_app, List.filter_app. simpl.
  destruct (p row); simpl.
  - destruct o; [reflexivity|]. now rewrite rev_app_distr.
  - now rewrite app_nil_r.
Qed.

End Order.

(** A create that returns has appended the sanitized task of the caller. *)
Lemma create_returns ctx title description db id db' :
  Endpoints_tasks.create ctx title description db = (Return id, db') ->
  exists u,
    getAuthUser ctx = Some u /\
    id = length (tasks db) /\
    db' = mkDB (tasks db ++
                  [Some (Tasks.new_task (Date_now ctx) (user_id u)
                           (sanitizeTaskTitle title)
                           (sanitizeTaskDescription description))])
               (threads db) (messages db).
Proof.
  unfold Endpoints_tasks.create, mutation, Endpoints_tasks.create_handler.
  open_handler.
  destruct (getAuthUser ctx) as [u|]; simpl; [|discriminate].
  destruct (ok (limit ctx "createTask" (user_id u))); simpl; [|discriminate].
  unfold validateAndSanitizeTask. simpl.
  destruct (isValidTaskTitle title); simpl; [|discriminate].
  destruct (isValidTaskDescription description); simpl; [|discriminate].
  intros H. injection H as <- <-. exists u. repeat split.
Qed.

(** C9.  For an authenticated user, list answers with exactly that user's
    stored tasks, listActive with exactly the active ones and listCompleted
    with exactly the completed ones, each in reverse order of creation (ids
    strictly decreasing, so no task twice); getThread answers, for the owner
    of the thread, with exactly the stored messages of that thread in order
    of creation.  In particular a task just created comes first in list,
    and a message just created comes last among the messages of its
    thread. *)
Theorem lists_follow_creation_order ctx u db :
  getAuthUser ctx = Some u ->
  (exists l, Endpoints_tasks.list ctx db = Return l /\ newest_first l /\
             forall d,
               d ∈ l <->
               Tasks.getTaskById db (_id d) = Some d /\
               Task.userId (fields d) = user_id u) /\
  (exists l, Endpoints_tasks.listActive ctx db = Return l /\
             newest_first l /\
             forall d,
               d ∈ l <->
               Tasks.getTaskById db (_id d) = Some d /\
               Task.userId (fields d) = user_id u /\
               Task.status (fields d) = active) /\
  (exists l, Endpoints_tasks.listCompleted ctx db = Return l /\
             newest_first l /\
             forall d,
               d ∈ l <->
               Tasks.getTaskById db (_id d) = Some d /\
               Task.userId (fields d) = user_id u /\
               Task.status (fields d) = completed) /\
  (forall id thread,
     Threads.getThreadById db id = Some thread ->
     Thread.userId (fields thread) = user_id u ->
     exists msgs,
       Endpoints_assistant.getThread ctx id db = Return (thread, msgs) /\
       oldest_first msgs /\
       forall m,
         m ∈ msgs <->
         Messages.getMessageById db (_id m) = Some m /\
         Message.threadId (fields m) = id) /\
  (forall title description id db' l,
     Endpoints_tasks.list ctx db = Return l ->
     Endpoints_tasks.create ctx title description db = (Return id, db') ->
     exists d,
       _id d = id /\ Endpoints_tasks.list ctx db' = Return (d :: l)) /\
  (forall ctx' threadId role content id db',
     Messages.createMessage ctx' threadId (user_id u) role content db =
       (Return id, db') ->
     exists d,
       _id d = id /\
       Messages.getMessagesByThread db' threadId =
         Messages.getMessagesByThread db threadId ++ [d]).
Proof.
  intros Hauth.
  unfold Endpoints_tasks.list, Endpoints_tasks.listActive,
    Endpoints_tasks.listCompleted, Endpoints_assistant.getThread.
  rewrite Hauth. split; [|split; [|split; [|split; [|split]]]].
  - eexists. split; [reflexivity|].
    split; [apply collect_desc_newest_first|].
    intros d. apply elem_of_getTasksByUser.
  - eexists. split; [reflexivity|].
    split; [apply collect_desc_newest_first|].
    intros d. apply elem_of_getTasksByUserAndStatus.
  - eexists. split; [reflexivity|].
    split; [apply collect_desc_newest_first|].
    intros d. apply elem_of_getTasksByUserAndStatus.
  - intros id thread Hget Hown. rewrite Hget.
    apply String.eqb_eq in Hown. rewrite Hown. simpl.
    eexists. split; [reflexivity|].
    split; [apply collect_asc_oldest_first|].
    intros m. unfold Messages.getMessagesByThread, Messages.getMessageById.
    rewrite elem_of_collect, Nat.eqb_eq. reflexivity.
  - intros title description id db' l Hl Hcreate.
    injection Hl as <-.
    apply create_returns in Hcreate as (u' & Hauth' & -> & ->).
    assert (u' = u) as -> by congruence.
    eexists. split; [|unfold Tasks.getTasksByUser; simpl;
                      rewrite collect_insert; simpl;
                      rewrite String.eqb_refl; reflexivity].
    reflexivity.
  - intros ctx' threadId role content id db' Hcreate.
    unfold Messages.createMessage, db_insert in Hcreate. simpl in Hcreate.
    injection Hcreate as <- <-.
    eexists. split; [|unfold Messages.getMessagesByThread; simpl;
                      rewrite collect_insert; simpl;
                      rewrite Nat.eqb_refl; reflexivity].
    reflexivity.
Qed.

Lemma lists_follow_creation_order_witness :
  (exists l, Endpoints_tasks.list (request (Some bob) 20) db_bob = Return l /\
             newest_first l /\
             forall d,
               d ∈ l <->
               Tasks.getTaskById db_bob (_id d) = Some d /\
               Task.userId (fields d) = user_id bob) /\
  (exists msgs,
     Endpoints_assistant.getThread (request (Some alice) 30) 0%nat db_chat =
       Return (mkDoc 0%nat alices_thread, msgs) /\
     oldest_first msgs /\
     forall m,
       m ∈ msgs <->
       Messages.getMessageById db_chat (_id m) = Some m /\
       Message.threadId (fields m) = 0%nat).
Proof.
  split.
  - apply (proj1 (lists_follow_creation_order (request (Some bob) 20) bob
                    db_bob eq_refl)).
  - apply (proj1 (proj2 (proj2 (proj2
             (lists_follow_creation_order (request (Some alice) 30) alice
                db_chat eq_refl))))); reflexivity.
Defined.

(** ** C8: what sendMessage persists *)

(** C8 (as the code has it).  On success sendMessage persists exactly two
    messages, in this order: the caller's message, with role "user" and the
    content given, then an assistant message whose content is the
    placeholder text with the caller's content quoted inside it.  Nothing
    else in the store changes, and no model is called. *)
Theorem sendMessage_persists_two ctx u threadId content thread db :
  getAuthUser ctx = Some u ->
  ok (limit ctx "sendMessage" (user_id u)) = true ->
  isValidMessageContent content = true ->
  Threads.getThreadById db threadId = Some thread ->
  Thread.userId (fields thread) = user_id u ->
  let n := length (messages db) in
  let userMsg :=
    {| Message.threadId := threadId;
       Message.userId := user_id u;
       Message.role := user;
       Message.content := content;
       Message.createdAt := Date_now ctx |} in
  let aiMsg :=
    {| Message.threadId := threadId;
       Message.userId := user_id u;
       Message.role := assistant;
       Message.content :=
         Endpoints_assistant.aiResponse_prefix ++ content
         ++ Endpoints_assistant.aiResponse_suffix;
       Message.createdAt := Date_now ctx |} in
  let db' := mkDB (tasks db) (threads db)
                  (messages db ++ [Some userMsg; Some aiMsg]) in
  Endpoints_assistant.sendMessage ctx threadId content db =
    (Return {| Endpoints_assistant.userMessage := n;
               Endpoints_assistant.aiMessage := S n |}, db') /\
  Messages.getMessagesByThread db' threadId =
    Messages.getMessagesByThread db threadId
    ++ [mkDoc n userMsg; mkDoc (S n) aiMsg].
Proof.
  intros Hauth Hrate Hvalid Hget Hown n userMsg aiMsg db'.
  apply String.eqb_eq in Hown. split.
  - unfold Endpoints_assistant.sendMessage, mutation,
      Endpoints_assistant.sendMessage_handler, bind.
    pass_checks. rewrite Hvalid. simpl. unfold read. rewrite Hget, Hown.
    simpl. unfold Messages.createMessage, db_insert, ret. simpl.
    rewrite length_app. simpl. rewrite Nat.add_1_r, <- app_assoc.
    reflexivity.
  - subst db'. unfold Messages.getMessagesByThread. simpl.
    change (messages db ++ [Some userMsg; Some aiMsg])
      with (messages db ++ [Some userMsg] ++ [Some aiMsg]).
    rewrite app_assoc, !collect_insert. simpl.
    rewrite Nat.eqb_refl, length_app. simpl.
    rewrite Nat.add_1_r, <- app_assoc. reflexivity.
Qed.

Lemma sendMessage_persists_two_witness :
  Messages.getMessagesByThread
    (snd (Endpoints_assistant.sendMessage (request (Some alice) 20) 0%nat
            (js "hi") db_thread)) 0%nat =
  [mkDoc 0%nat
     {| Message.threadId := 0%nat; Message.userId := "alice";
        Message.role := user; Message.content := js "hi";
        Message.createdAt := 20 |};
   mkDoc 1%nat
     {| Message.threadId := 0%nat; Message.userId := "alice";
        Message.role := assistant;
        Message.content :=
          Endpoints_assistant.aiResponse_prefix ++ js "hi"
          ++ Endpoints_assistant.aiResponse_suffix;
        Message.createdAt := 20 |}].
Proof.
  destruct (sendMessage_persists_two (request (Some alice) 20) alice 0%nat
              (js "hi") (mkDoc 0%nat alices_thread) db_thread
              eq_refl eq_refl eq_refl eq_refl eq_refl) as [Hsend Hlist].
  rewrite Hsend. exact Hlist.
Defined.

(** C8 fails as stated: the content of the assistant message depends on
    the input.  For the contents "a" and "b" the assistant messages differ
    (each quotes what was sent). *)
Lemma assistant_reply_quotes_input :
  let sent c := snd (Endpoints_assistant.sendMessage
                       (request (Some alice) 20) 0%nat (js c) db_thread) in
  let reply c :=
    (fun d => (Message.role (fields d), Message.content (fields d)))
      <$> Messages.getMessageById (sent c) 1%nat in
  reply "a" = Some (assistant, Endpoints_assistant.aiResponseContent (js "a"))
  /\ reply "b" =
       Some (assistant, Endpoints_assistant.aiResponseContent (js "b"))
  /\ reply "a" <> reply "b".
Proof. vm_compute. repeat split. discriminate. Qed.

(** ** C5: deleting a thread *)

Lemma sorted_ids_NoDup {A} (l : list (Doc A)) :
  oldest_first l -> NoDup (_id <$> l).
Proof.
  induction 1 as [|a l Hl IH Ha]; simpl; [constructor|].
  apply NoDup_cons. split; [|exact IH].
  intros Hin. apply list_elem_of_fmap in Hin as (b & Heq & Hb).
  rewrite Forall_forall in Ha. specialize (Ha b Hb). simpl in Ha. lia.
Qed.

(** The loop of [deleteMessagesByThread], run on live documents with
    distinct ids, does not throw; it empties their slots and no others. *)
Lemma deleteEach_spec (msgs : list (Doc Message.t)) db :
  NoDup (_id <$> msgs) ->
  (forall d, d ∈ msgs -> is_Some (Store.get (messages db) (_id d))) ->
  exists tbl',
    Messages.deleteEach msgs db =
      (Return tt, mkDB (tasks db) (threads db) tbl') /\
    (forall j, j ∈ _id <$> msgs -> Store.get tbl' j = None) /\
    (forall j, j ∉ _id <$> msgs ->
       Store.get tbl' j = Store.get (messages db) j).
Proof.
  revert db. induction msgs as [|m rest IH]; intros db Hnd Hlive.
  - exists (messages db). destruct db. simpl. repeat split.
    intros j Hj. inversion Hj.
  - rewrite fmap_cons in Hnd. apply NoDup_cons in Hnd as [Hm Hnd].
    destruct (Hlive m (list_elem_of_here _ _)) as [dm Hdm].
    pose (db1 := mkDB (tasks db) (threads db)
                      (<[_id m := None]> (messages db))).
    assert (Hstep : db_delete messages_table (_id m) db = (Return tt, db1)).
    { unfold db_delete, Store.delete. simpl. now rewrite Hdm. }
    destruct (IH db1 Hnd) as (tbl' & Hrun & Hgone & Hkept).
    { intros d Hd. simpl. rewrite get_update_ne.
      - apply Hlive. now apply list_elem_of_further.
      - intros Heq. apply Hm. rewrite Heq. now apply list_elem_of_fmap_2. }
    exists tbl'. simpl. unfold bind. rewrite Hstep, Hrun. simpl.
    split; [reflexivity|]. split.
    + intros j Hj. destruct (decide (j ∈ _id <$> rest)) as [Hin|Hout].
      * now apply Hgone.
      * rewrite ?fmap_cons in Hj. apply elem_of_cons in Hj as [->|Hj];
          [|contradiction].
        rewrite (Hkept _ Hout). simpl.
        rewrite get_update_eq; [reflexivity|]. now apply get_lt in Hdm.
    + intros j Hj. rewrite ?fmap_cons in Hj.
      apply not_elem_of_cons in Hj as [Hne Hout].
      rewrite (Hkept _ Hout). simpl. now apply get_update_ne.
Qed.

(** C5.  When the authenticated owner of a thread calls deleteThread, the
    call succeeds, no message with that thread's id is left in the messages
    table, and the thread's row is gone. *)
Theorem deleteThread_cascades ctx u id thread db :
  getAuthUser ctx = Some u ->
  Threads.getThreadById db id = Some thread ->
  Thread.userId (fields thread) = user_id u ->
  exists db',
    Endpoints_assistant.deleteThread ctx id db = (Return tt, db') /\
    Messages.getMessagesByThread db' id = [] /\
    (forall m, Messages.getMessageById db' (_id m) = Some m ->
               Message.threadId (fields m) <> id) /\
    Threads.getThreadById db' id = None.
Proof.
  intros Hauth Hget Hown. apply String.eqb_eq in Hown.
  pose (msgs := Store.collect (messages db)
                  (fun m => Nat.eqb (Message.threadId m) id) Store.asc).
  destruct (deleteEach_spec msgs db) as (tbl' & Hrun & Hgone & Hkept).
  { apply sorted_ids_NoDup, collect_asc_oldest_first. }
  { intros d Hd. apply elem_of_collect in Hd as [Hd _]. now rewrite Hd. }
  assert (Hnone : forall m, Store.get tbl' (_id m) = Some m ->
                            Message.threadId (fields m) <> id).
  { intros m Hm Hthread.
    destruct (decide (_id m ∈ _id <$> msgs)) as [Hin|Hout].
    - rewrite (Hgone _ Hin) in Hm. discriminate.
    - rewrite (Hkept _ Hout) in Hm. apply Hout.
      apply list_elem_of_fmap_2. apply elem_of_collect.
      split; [exact Hm|]. now apply Nat.eqb_eq. }
  exists (mkDB (tasks db) (<[id := None]> (threads db)) tbl').
  split; [|split; [|split]].
  - unfold Endpoints_assistant.deleteThread, mutation,
      Endpoints_assistant.deleteThread_handler, bind.
    pass_checks. unfold read. rewrite Hget, Hown. simpl.
    unfold Messages.deleteMessagesByThread, bind, read.
    fold msgs. rewrite Hrun.
    unfold Threads.deleteThread, db_delete, Store.delete. simpl.
    unfold Threads.getThreadById in Hget. now rewrite Hget.
  - unfold Messages.getMessagesByThread. simpl.
    destruct (Store.collect tbl' _ Store.asc) as [|m l] eqn:Hl;
      [reflexivity|].
    assert (Hm : m ∈ Store.collect tbl'
                   (fun m => Nat.eqb (Message.threadId m) id) Store.asc).
    { rewrite Hl. apply list_elem_of_here. }
    apply elem_of_collect in Hm as [Hm Hthread].
    apply Nat.eqb_eq in Hthread. now destruct (Hnone m Hm).
  - intros m Hm. now apply Hnone.
  - unfold Threads.getThreadById in *. simpl.
    rewrite get_update_eq; [reflexivity|]. now apply get_lt in Hget.
Qed.

Lemma deleteThread_cascades_witness :
  length (Messages.getMessagesByThread db_chat 0%nat) = 2%nat /\
  exists db',
    Endpoints_assistant.deleteThread (request (Some alice) 30) 0%nat db_chat =
      (Return tt, db') /\
    Messages.getMessagesByThread db' 0%nat = [] /\
    (forall m, Messages.getMessageById db' (_id m) = Some m ->
               Message.threadId (fields m) <> 0%nat) /\
    Threads.getThreadById db' 0%nat = None.
Proof.
  split; [reflexivity|].
  apply (deleteThread_cascades (request (Some alice) 30) alice 0%nat
           (mkDoc 0%nat alices_thread) db_chat); reflexivity.
Defined.

(** * Further properties of the code *)

(** ** Trimming and the validators *)

Lemma trimStart_split (s : jsstring) :
  exists p, s = p ++ trimStart s /\ forallb isWhiteSpace p = true.
Proof.
  induction s as [|a s (p & Hs & Hp)]; simpl.
  - now exists [].
  - destruct (isWhiteSpace a) eqn:Ha.
    + exists (a :: p). simpl. rewrite Ha, Hp. split; [congruence|reflexivity].
    + now exists [].
Qed.

Lemma trimStart_fixed (s : jsstring) :
  (forall a r, s = a :: r -> isWhiteSpace a = false) -> trimStart s = s.
Proof.
  destruct s as [|a r]; [reflexivity|]. intros H. simpl.
  now rewrite (H a r eq_refl).
Qed.

Lemma trimStart_idempotent (s : jsstring) :
  trimStart (trimStart s) = trimStart s.
Proof.
  apply trimStart_fixed. intros a r H.
  now apply trimStart_keeps_head in H as [H _].
Qed.

Lemma trimEnd_prefix (s : jsstring) :
  exists q, s = trimEnd s ++ q /\ forallb isWhiteSpace q = true.
Proof.
  unfold trimEnd. destruct (trimStart_split (rev s)) as (p & Hs & Hp).
  exists (rev p). split.
  - rewrite <- rev_app_distr, <- Hs. now rewrite rev_involutive.
  - rewrite forallb_forall in *. intros x Hx. apply Hp. now apply in_rev.
Qed.

Lemma trimEnd_idempotent (s : jsstring) : trimEnd (trimEnd s) = trimEnd s.
Proof.
  unfold trimEnd. now rewrite rev_involutive, trimStart_idempotent.
Qed.

Lemma jslength_trim_le (s : jsstring) : (jslength (trim s) <= jslength s)%Z.
Proof.
  unfold trim, jslength.
  destruct (trimStart_split s) as (p & Hs & _).
  destruct (trimEnd_prefix (trimStart s)) as (q & Ht & _).
  apply (f_equal (@length N)) in Hs, Ht. rewrite length_app in Hs, Ht. lia.
Qed.

Lemma trim_idempotent (s : jsstring) : trim (trim s) = trim s.
Proof.
  unfold trim at 1.
  assert (Hstart : trimStart (trim s) = trim s).
  { apply trimStart_fixed. intros a r Hu. unfold trim in Hu.
    destruct (trimEnd_prefix (trimStart s)) as (q & Ht & _).
    rewrite Hu in Ht. simpl in Ht.
    now apply trimStart_keeps_head in Ht as [Ha _]. }
  rewrite Hstart. unfold trim. apply trimEnd_idempotent.
Qed.

Lemma trim_nil_iff (s : jsstring) :
  trim s = [] <-> forallb isWhiteSpace s = true.
Proof.
  split.
  - intros Hnil. apply forallb_forall. intros c Hc.
    destruct (isWhiteSpace c) eqn:Hw; [reflexivity|].
    destruct (trim_nonempty s c); [now apply list_elem_of_In|exact Hw|].
    exact Hnil.
  - intros Hall. unfold trim. now rewrite trimStart_all_whitespace.
Qed.

Lemma forallb_false_ex (p : N -> bool) (s : jsstring) :
  forallb p s = false -> exists c, c ∈ s /\ p c = false.
Proof.
  induction s as [|a s IH]; simpl; [discriminate|].
  destruct (p a) eqn:Ha; simpl.
  - intros H. destruct (IH H) as (c & Hin & Hc). exists c.
    split; [now apply list_elem_of_further|exact Hc].
  - intros _. exists a. split; [apply list_elem_of_here|exact Ha].
Qed.

(** X1.  A title is valid exactly when it has at most 200 code units and
    holds a character that is not white space; a message content likewise
    with the bound 10000. *)
Theorem valid_text_characterised (s : jsstring) :
  (isValidTaskTitle s = true <->
   (exists c, c ∈ s /\ isWhiteSpace c = false) /\ (jslength s <= 200)%Z) /\
  (isValidMessageContent s = true <->
   (exists c, c ∈ s /\ isWhiteSpace c = false) /\ (jslength s <= 10000)%Z).
Proof.
  assert (Hblank : trim s <> [] <->
                   exists c, c ∈ s /\ isWhiteSpace c = false).
  { split.
    - intros Hne.
      destruct (forallb isWhiteSpace s) eqn:Hall.
      + now apply trim_nil_iff in Hall.
      + apply forallb_false_ex in Hall. exact Hall.
    - intros (c & Hin & Hw). now apply (trim_nonempty s c). }
  unfold isValidTaskTitle, isValidMessageContent.
  rewrite !andb_true_iff, !jslength_pos_iff, !Z.leb_le, Hblank.
  split; reflexivity.
Qed.

Lemma slice0_all (n : Z) (s : jsstring) :
  (jslength s <= n)%Z -> slice0 n s = s.
Proof.
  unfold slice0, jslength. intros H. apply take_ge. lia.
Qed.

Lemma sanitizeTaskTitle_valid (title : jsstring) :
  isValidTaskTitle title = true ->
  sanitizeTaskTitle title = trim title /\
  isValidTaskTitle (trim title) = true.
Proof.
  intros H. apply isValidTaskTitle_true_iff in H as [Hne Hlen].
  pose proof (jslength_trim_le title) as Hle. split.
  - apply slice0_all. lia.
  - apply isValidTaskTitle_true_iff. rewrite trim_idempotent.
    split; [exact Hne|lia].
Qed.

Lemma sanitizeTaskDescription_valid (description : option jsstring) :
  isValidTaskDescription description = true ->
  sanitizeTaskDescription description = trim <$> description /\
  isValidTaskDescription (trim <$> description) = true.
Proof.
  destruct description as [d|]; simpl; [|auto].
  intros H. apply Z.leb_le in H.
  pose proof (jslength_trim_le d) as Hle. split.
  - f_equal. apply slice0_all. lia.
  - apply Z.leb_le. lia.
Qed.

(** X2.  What validateAndSanitizeTask hands back as sanitized is the input
    with title and description trimmed (the truncation to 200 and 5000 never
    cuts an accepted input), and it is a fixed point: validating it again
    accepts it and returns it unchanged. *)
Theorem sanitized_is_trimmed_and_stable (args clean : TaskInput) :
  sanitized (validateAndSanitizeTask args) = Some clean ->
  in_title clean = trim (in_title args) /\
  in_description clean = trim <$> in_description args /\
  validateAndSanitizeTask clean =
    {| valid := true; error := None; sanitized := Some clean |}.
Proof.
  unfold validateAndSanitizeTask at 1.
  destruct (isValidTaskTitle (in_title args)) eqn:Ht; simpl; [|discriminate].
  destruct (isValidTaskDescription (in_description args)) eqn:Hd; simpl;
    [|discriminate].
  intros H. injection H as <-. simpl.
  destruct (sanitizeTaskTitle_valid _ Ht) as [Hst Hvt].
  destruct (sanitizeTaskDescription_valid _ Hd) as [Hsd Hvd].
  rewrite Hst, Hsd. repeat split.
  rewrite validateAndSanitizeTask_valid by assumption. simpl.
  destruct (sanitizeTaskTitle_valid _ Hvt) as [-> _].
  destruct (sanitizeTaskDescription_valid _ Hvd) as [-> _].
  rewrite trim_idempotent.
  destruct (in_description args) as [d|]; simpl; [|reflexivity].
  now rewrite trim_idempotent.
Qed.

Lemma sanitized_is_trimmed_and_stable_witness :
  in_title {| in_title := js "Buy milk"; in_description := Some (js "2%") |}
  = trim (js "  Buy milk ").
Proof.
  refine (proj1 (sanitized_is_trimmed_and_stable
            {| in_title := js "  Buy milk ";
               in_description := Some (js " 2% ") |}
            {| in_title := js "Buy milk";
               in_description := Some (js "2%") |} _)).
  reflexivity.
Defined.

(** ** The task endpoints, call by call *)

Lemma mutation_Throw {A} (h : Handler A) db msg db' :
  mutation h db = (Throw msg, db') -> db' = db.
Proof.
  unfold mutation. destruct (h db) as [[a|m] db1]; intros H; congruence.
Qed.

(** Passes the three guards of a mutating task endpoint; the cases in which
    a guard fails are closed by [tac]. *)
Ltac through_guards ctx name db id tac :=
  open_handler;
  destruct (getAuthUser ctx) as [?u|] eqn:?Hauth; simpl; [|tac];
  destruct (ok (limit ctx name (user_id u))) eqn:?Hrate; simpl; [|tac];
  destruct (Tasks.getTaskById db id) as [?task|] eqn:?Hget; simpl; [|tac];
  destruct (String.eqb (Task.userId (fields task)) (user_id u)) eqn:?Hown;
    simpl; [|tac].

(** A call aimed at [id] leaves the store as it was, or rewrites the slot
    [id] of an existing task of the caller. *)
Lemma call_at_target ctx c db id :
  target c = Some id ->
  call ctx c db = db \/
  exists u task,
    getAuthUser ctx = Some u /\
    Tasks.getTaskById db id = Some task /\
    Task.userId (fields task) = user_id u /\
    call ctx c db =
      mkDB (<[id := slot_after ctx c (fields task)]> (tasks db))
           (threads db) (messages db).
Proof.
  destruct c as [title description|i title description|i|i|i|i]; simpl;
    intros Ht; [discriminate|..]; injection Ht as ->;
    unfold Endpoints_tasks.update, Endpoints_tasks.complete,
      Endpoints_tasks.reactivate, Endpoints_tasks.remove,
      Endpoints_tasks.permanentlyDelete, mutation.
  - unfold Endpoints_tasks.update_handler.
    through_guards ctx "updateTask" db id ltac:(now left).
    match goal with
    | |- context [match (if ?b then _ else _) db with _ => _ end] =>
        destruct b
    end.
    + match goal with
      | |- context [valid ?v] => destruct (valid v)
      end; simpl; [|now left].
      unfold Tasks.updateTask. rewrite (db_patch_tasks db id task) by exact Hget.
      right. exists u, task. apply String.eqb_eq in Hown. auto.
    + simpl. unfold Tasks.updateTask.
      rewrite (db_patch_tasks db id task) by exact Hget.
      right. exists u, task. apply String.eqb_eq in Hown. auto.
  - unfold Endpoints_tasks.complete_handler.
    through_guards ctx "updateTask" db id ltac:(now left).
    unfold Tasks.completeTask. rewrite (db_patch_tasks db id task) by exact Hget.
    right. exists u, task. apply String.eqb_eq in Hown. auto.
  - unfold Endpoints_tasks.reactivate_handler.
    through_guards ctx "updateTask" db id ltac:(now left).
    unfold Tasks.reactivateTask.
    rewrite (db_patch_tasks db id task) by exact Hget.
    right. exists u, task. apply String.eqb_eq in Hown. auto.
  - unfold Endpoints_tasks.remove_handler.
    through_guards ctx "deleteTask" db id ltac:(now left).
    unfold Tasks.softDeleteTask.
    rewrite (db_patch_tasks db id task) by exact Hget.
    right. exists u, task. apply String.eqb_eq in Hown. auto.
  - unfold Endpoints_tasks.permanentlyDelete_handler.
    through_guards ctx "deleteTask" db id ltac:(now left).
    unfold Tasks.hardDeleteTask.
    rewrite (db_delete_tasks db id task) by exact Hget.
    right. exists u, task. apply String.eqb_eq in Hown. auto.
Qed.

(** A create leaves the store as it was or appends one task. *)
Lemma call_create ctx title description db :
  call ctx (Create title description) db = db \/
  exists u,
    getAuthUser ctx = Some u /\
    isValidTaskTitle title = true /\
    isValidTaskDescription description = true /\
    call ctx (Create title description) db =
      mkDB (tasks db ++
              [Some (Tasks.new_task (Date_now ctx) (user_id u)
                       (sanitizeTaskTitle title)
                       (sanitizeTaskDescription description))])
           (threads db) (messages db).
Proof.
  simpl.
  destruct (Endpoints_tasks.create ctx title description db)
    as [[id|msg] db'] eqn:Hc.
  - right. pose proof Hc as Hr.
    apply create_returns in Hr as (u & Hauth & _ & ->).
    exists u. split; [exact Hauth|].
    destruct (isValidTaskTitle title) eqn:Ht.
    + destruct (isValidTaskDescription description) eqn:Hd; [auto|].
      exfalso. revert Hc.
      unfold Endpoints_tasks.create, mutation,
        Endpoints_tasks.create_handler, bind, authenticate, rateLimit.
      rewrite Hauth. simpl.
      destruct (ok (limit ctx "createTask" (user_id u))); simpl;
        [|discriminate].
      unfold validateAndSanitizeTask. simpl. rewrite Ht, Hd. discriminate.
    + exfalso. revert Hc.
      unfold Endpoints_tasks.create, mutation,
        Endpoints_tasks.create_handler, bind, authenticate, rateLimit.
      rewrite Hauth. simpl.
      destruct (ok (limit ctx "createTask" (user_id u))); simpl;
        [|discriminate].
      unfold validateAndSanitizeTask. simpl. rewrite Ht. discriminate.
  - left. simpl. unfold Endpoints_tasks.create in Hc.
    now apply mutation_Throw in Hc.
Qed.

(** The slots of the tasks table after a call: the threads and messages
    tables are as before, no slot is taken away (a deleted task leaves an
    empty slot), and every task the call does not aim at is stored as
    before. *)
Lemma call_frame ctx c db :
  threads (call ctx c db) = threads db /\
  messages (call ctx c db) = messages db /\
  (length (tasks db) <= length (tasks (call ctx c db)))%nat /\
  forall j d,
    Tasks.getTaskById db j = Some d ->
    target c <> Some j ->
    Tasks.getTaskById (call ctx c db) j = Some d.
Proof.
  destruct (target c) as [id|] eqn:Ht.
  - destruct (call_at_target ctx c db id Ht)
      as [->|(u & task & _ & _ & _ & ->)]; simpl.
    + repeat split; auto.
    + rewrite length_insert. repeat split; [lia|].
      intros j d Hj Hne. unfold Tasks.getTaskById in *. simpl.
      rewrite get_update_ne; [exact Hj|congruence].
  - destruct c; try discriminate.
    destruct (call_create ctx title description db)
      as [->|(u & _ & _ & _ & ->)]; simpl.
    + repeat split; auto.
    + rewrite length_app. simpl. repeat split; [lia|].
      intros j d Hj _. unfold Tasks.getTaskById in *. simpl.
      rewrite get_insert_old; [exact Hj|]. now apply get_lt in Hj.
Qed.



(** X4.  No call hands a task to another user or changes its creation time:
    after any call an existing task is either gone (only through
    permanentlyDelete aimed at it) or stored with the same userId and
    createdAt; its title and description change only through update. *)
Theorem call_keeps_owner_and_text ctx c db j d :
  Tasks.getTaskById db j = Some d ->
  (c = PermanentlyDelete j /\ Tasks.getTaskById (call ctx c db) j = None) \/
  exists d',
    Tasks.getTaskById (call ctx c db) j = Some d' /\
    Task.userId (fields d') = Task.userId (fields d) /\
    Task.createdAt (fields d') = Task.createdAt (fields d) /\
    ((forall title description, c <> Update j title description) ->
     Task.title (fields d') = Task.title (fields d) /\
     Task.description (fields d') = Task.description (fields d)).
Proof.
  intros Hj.
  destruct (decide (target c = Some j)) as [Ht|Hne].
  - destruct (call_at_target ctx c db j Ht)
      as [->|(u & task & _ & Hget & _ & ->)].
    + right. exists d. auto.
    + assert (task = d) as -> by congruence.
      rewrite (getTaskById_patched db j _ d Hj).
      destruct c; simpl in Ht; try discriminate; injection Ht as ->; simpl.
      * right. eexists. split; [reflexivity|]. simpl. repeat split.
        all: now destruct (H title description).
      * right. eexists. split; [reflexivity|]. simpl. auto.
      * right. eexists. split; [reflexivity|]. simpl. auto.
      * right. eexists. split; [reflexivity|]. simpl. auto.
      * left. auto.
  - right. exists d.
    split; [now apply (proj2 (proj2 (proj2 (call_frame ctx c db))))|auto].
Qed.

Lemma call_keeps_owner_and_text_witness :
  exists d',
    Tasks.getTaskById
      (call (request (Some bob) 5) (Complete 0%nat) db_bob) 0%nat = Some d' /\
    Task.userId (fields d') = "bob" /\
    Task.title (fields d') = js "Pay rent".
Proof.
  destruct (call_keeps_owner_and_text (request (Some bob) 5)
              (Complete 0%nat) db_bob 0%nat (mkDoc 0%nat bobs_task) eq_refl)
    as [[Hc _]|(d' & Hget & Hu & _ & Htext)].
  - discriminate.
  - exists d'. split; [exact Hget|]. split; [exact Hu|].
    now apply Htext.
Defined.

(** ** Failures of the guards *)

Lemma authorize_missing u id denied db :
  Tasks.getTaskById db id = None ->
  Endpoints_tasks.authorize u id denied db = (Throw "Task not found", db).
Proof.
  intros Hget. unfold Endpoints_tasks.authorize, bind, read.
  now rewrite Hget.
Qed.

(** X5.  When [authComponent.getAuthUser] yields no user (it returns
    null), every task endpoint and every dashboard endpoint takes its
    [if (!user)] branch and fails with "Not authenticated", whatever the
    rate limiter would say and whatever the arguments; the mutations leave
    the store as it was.  (A [getAuthUser] that throws by itself ends the
    request with its own message before any of this code runs.) *)
Theorem unauthenticated_rejected ctx db :
  getAuthUser ctx = None ->
  (forall title description,
     Endpoints_tasks.create ctx title description db =
       (Throw "Not authenticated", db)) /\
  (forall id title description,
     Endpoints_tasks.update ctx id title description db =
       (Throw "Not authenticated", db)) /\
  (forall id,
     Endpoints_tasks.complete ctx id db = (Throw "Not authenticated", db) /\
     Endpoints_tasks.reactivate ctx id db = (Throw "Not authenticated", db) /\
     Endpoints_tasks.remove ctx id db = (Throw "Not authenticated", db) /\
     Endpoints_tasks.permanentlyDelete ctx id db =
       (Throw "Not authenticated", db) /\
     Endpoints_tasks.get ctx id db = Throw "Not authenticated") /\
  Endpoints_tasks.list ctx db = Throw "Not authenticated" /\
  Endpoints_tasks.listActive ctx db = Throw "Not authenticated" /\
  Endpoints_tasks.listCompleted ctx db = Throw "Not authenticated" /\
  Endpoints_dashboard.summary ctx db = Throw "Not authenticated" /\
  (forall limit,
     Endpoints_dashboard.recent ctx limit db = Throw "Not authenticated").
Proof.
  intros Hnone.
  unfold Endpoints_tasks.create, Endpoints_tasks.create_handler,
    Endpoints_tasks.update, Endpoints_tasks.update_handler,
    Endpoints_tasks.complete, Endpoints_tasks.complete_handler,
    Endpoints_tasks.reactivate, Endpoints_tasks.reactivate_handler,
    Endpoints_tasks.remove, Endpoints_tasks.remove_handler,
    Endpoints_tasks.permanentlyDelete,
    Endpoints_tasks.permanentlyDelete_handler,
    Endpoints_tasks.get, Endpoints_tasks.list, Endpoints_tasks.listActive,
    Endpoints_tasks.listCompleted, Endpoints_dashboard.summary,
    Endpoints_dashboard.recent, mutation, bind, authenticate.
  rewrite Hnone. simpl. repeat split.
Qed.

Lemma unauthenticated_rejected_witness :
  Endpoints_tasks.list (request None 5) db_bob = Throw "Not authenticated".
Proof.
  refine (proj1 (proj2 (proj2 (proj2
            (unauthenticated_rejected (request None 5) db_bob _))))).
  reflexivity.
Defined.

Lemma ceil_seconds_bounds (ms : Z) :
  (1000 * (ceil_seconds ms - 1) < ms <= 1000 * ceil_seconds ms)%Z.
Proof.
  unfold ceil_seconds.
  pose proof (Z.div_mod (- ms) 1000 ltac:(lia)) as Hdm.
  pose proof (Z.mod_pos_bound (- ms) 1000 ltac:(lia)) as Hm.
  lia.
Qed.

(** X6.  An authenticated caller whom the rate limiter refuses gets the
    retry-after failure before the task is even looked up, and the store is
    as before: create draws on the limit "createTask"; update, complete and
    reactivate share "updateTask"; remove and permanentlyDelete share
    "deleteTask".  The seconds quoted are the wait in milliseconds rounded
    up, so at least 1 for a positive wait. *)
Theorem rate_limited_rejected ctx u db :
  getAuthUser ctx = Some u ->
  (ok (limit ctx "createTask" (user_id u)) = false ->
   forall title description,
     Endpoints_tasks.create ctx title description db =
       (Throw (rateLimitMessage
                 (retryAfter (limit ctx "createTask" (user_id u)))), db)) /\
  (ok (limit ctx "updateTask" (user_id u)) = false ->
   forall id,
     (forall title description,
        Endpoints_tasks.update ctx id title description db =
          (Throw (rateLimitMessage
                    (retryAfter (limit ctx "updateTask" (user_id u)))),
           db)) /\
     Endpoints_tasks.complete ctx id db =
       (Throw (rateLimitMessage
                 (retryAfter (limit ctx "updateTask" (user_id u)))), db) /\
     Endpoints_tasks.reactivate ctx id db =
       (Throw (rateLimitMessage
                 (retryAfter (limit ctx "updateTask" (user_id u)))), db)) /\
  (ok (limit ctx "deleteTask" (user_id u)) = false ->
   forall id,
     Endpoints_tasks.remove ctx id db =
       (Throw (rateLimitMessage
                 (retryAfter (limit ctx "deleteTask" (user_id u)))), db) /\
     Endpoints_tasks.permanentlyDelete ctx id db =
       (Throw (rateLimitMessage
                 (retryAfter (limit ctx "deleteTask" (user_id u)))), db)) /\
  (forall ms,
     (0 < ms)%Z ->
     (1 <= ceil_seconds ms)%Z /\
     (1000 * (ceil_seconds ms - 1) < ms <= 1000 * ceil_seconds ms)%Z).
Proof.
  intros Hauth.
  unfold Endpoints_tasks.create, Endpoints_tasks.create_handler,
    Endpoints_tasks.update, Endpoints_tasks.update_handler,
    Endpoints_tasks.complete, Endpoints_tasks.complete_handler,
    Endpoints_tasks.reactivate, Endpoints_tasks.reactivate_handler,
    Endpoints_tasks.remove, Endpoints_tasks.remove_handler,
    Endpoints_tasks.permanentlyDelete,
    Endpoints_tasks.permanentlyDelete_handler, mutation, bind.
  pass_checks. unfold rateLimit.
  split; [|split; [|split]].
  - intros ->. reflexivity.
  - intros ->. repeat split.
  - intros ->. repeat split.
  - intros ms Hms. pose proof (ceil_seconds_bounds ms). repeat split; lia.
Qed.

Lemma rate_limited_rejected_witness :
  Endpoints_tasks.complete (limited_request (Some alice) 1500 5) 7%nat
    db_bob =
  (Throw "Rate limit exceeded. Please try again in 2 seconds.", db_bob).
Proof.
  refine (proj1 (proj2 (proj1 (proj2
            (rate_limited_rejected (limited_request (Some alice) 1500 5)
               alice db_bob _)) _ 7%nat))).
  - reflexivity.
  - reflexivity.
Defined.

(** X7.  For an authenticated caller whom the rate limiter lets through, a
    task id that is not in the store (never created, or permanently
    deleted) makes every mutating task endpoint and the get query fail with
    "Task not found"; the store is as before. *)
Theorem missing_task_not_found ctx u id db :
  getAuthUser ctx = Some u ->
  ok (limit ctx "updateTask" (user_id u)) = true ->
  ok (limit ctx "deleteTask" (user_id u)) = true ->
  Tasks.getTaskById db id = None ->
  (forall title description,
     Endpoints_tasks.update ctx id title description db =
       (Throw "Task not found", db)) /\
  Endpoints_tasks.complete ctx id db = (Throw "Task not found", db) /\
  Endpoints_tasks.reactivate ctx id db = (Throw "Task not found", db) /\
  Endpoints_tasks.remove ctx id db = (Throw "Task not found", db) /\
  Endpoints_tasks.permanentlyDelete ctx id db =
    (Throw "Task not found", db) /\
  Endpoints_tasks.get ctx id db = Throw "Task not found".
Proof.
  intros Hauth Hupd Hdel Hget.
  unfold Endpoints_tasks.update, Endpoints_tasks.update_handler,
    Endpoints_tasks.complete, Endpoints_tasks.complete_handler,
    Endpoints_tasks.reactivate, Endpoints_tasks.reactivate_handler,
    Endpoints_tasks.remove, Endpoints_tasks.remove_handler,
    Endpoints_tasks.permanentlyDelete,
    Endpoints_tasks.permanentlyDelete_handler, Endpoints_tasks.get,
    mutation, bind.
  pass_checks. rewrite !authorize_missing by exact Hget.
  rewrite Hauth, Hget. repeat split.
Qed.

Lemma missing_task_not_found_witness :
  Endpoints_tasks.complete (request (Some alice) 5) 3%nat db_bob =
  (Throw "Task not found", db_bob).
Proof.
  refine (proj1 (proj2 (missing_task_not_found (request (Some alice) 5)
            alice 3%nat db_bob _ _ _ _))); reflexivity.
Defined.

(** ** Hard delete is final *)

Lemma gone_stays_gone ctx c db id :
  (id < length (tasks db))%nat ->
  Tasks.getTaskById db id = None ->
  (id < length (tasks (call ctx c db)))%nat /\
  Tasks.getTaskById (call ctx c db) id = None.
Proof.
  intros Hlt Hnone.
  pose proof (call_frame ctx c db) as (_ & _ & Hlen & _).
  split; [lia|].
  destruct (target c) as [j|] eqn:Ht.
  - destruct (call_at_target ctx c db j Ht)
      as [->|(u & task & _ & Hget & _ & ->)]; [exact Hnone|].
    unfold Tasks.getTaskById in *. simpl.
    rewrite get_update_ne; [exact Hnone|congruence].
  - destruct c; try discriminate.
    destruct (call_create ctx title description db)
      as [->|(u & _ & _ & _ & ->)]; [exact Hnone|].
    unfold Tasks.getTaskById in *. simpl. now rewrite get_insert_old.
Qed.

Lemma gone_stays_gone_trace trace db id :
  (id < length (tasks db))%nat ->
  Tasks.getTaskById db id = None ->
  (id < length (tasks (run_calls trace db)))%nat /\
  Tasks.getTaskById (run_calls trace db) id = None.
Proof.
  revert db. induction trace as [|[ctx c] trace IH]; intros db Hlt Hnone.
  - auto.
  - simpl. destruct (gone_stays_gone ctx c db id Hlt Hnone) as [Hlt' Hnone'].
    now apply IH.
Qed.

(** X8.  Once its owner has permanently deleted a task, no sequence of
    later calls of the task endpoints, by anyone, brings a task back under
    that id, and no later create returns that id. *)
Theorem permanentlyDelete_is_final ctx u id task db trace :
  getAuthUser ctx = Some u ->
  ok (limit ctx "deleteTask" (user_id u)) = true ->
  Tasks.getTaskById db id = Some task ->
  Task.userId (fields task) = user_id u ->
  exists db',
    Endpoints_tasks.permanentlyDelete ctx id db = (Return tt, db') /\
    Tasks.getTaskById (run_calls trace db') id = None /\
    forall ctx' title description,
      fst (Endpoints_tasks.create ctx' title description
             (run_calls trace db')) <> Return id.
Proof.
  intros Hauth Hrate Hget Hown.
  eexists. split;
    [now apply (permanentlyDelete_succeeds ctx u db Hauth id task)|].
  match goal with |- context [run_calls trace ?d] => set (db' := d) end.
  assert (Hlt : (id < length (tasks db'))%nat).
  { subst db'. simpl. rewrite length_insert. apply (get_lt _ _ _ Hget). }
  assert (Hnone : Tasks.getTaskById db' id = None).
  { subst db'. now rewrite (getTaskById_patched db id None task). }
  destruct (gone_stays_gone_trace trace db' id Hlt Hnone) as [Hlt' Hnone'].
  split; [exact Hnone'|].
  intros ctx' title description Hret.
  destruct (Endpoints_tasks.create ctx' title description
              (run_calls trace db')) as [r db''] eqn:Hc.
  simpl in Hret. subst r.
  apply create_returns in Hc as (_ & _ & Hid & _). lia.
Qed.

Lemma permanentlyDelete_is_final_witness :
  exists db',
    Endpoints_tasks.permanentlyDelete (request (Some bob) 5) 0%nat db_bob =
      (Return tt, db') /\
    Tasks.getTaskById
      (run_calls [(request (Some bob) 6, Reactivate 0%nat);
                  (request (Some alice) 7, Create (js "Buy milk") None)]
         db') 0%nat = None /\
    forall ctx' title description,
      fst (Endpoints_tasks.create ctx' title description
             (run_calls [(request (Some bob) 6, Reactivate 0%nat);
                         (request (Some alice) 7,
                          Create (js "Buy milk") None)] db'))
      <> Return 0%nat.
Proof.
  apply (permanentlyDelete_is_final (request (Some bob) 5) bob 0%nat
           (mkDoc 0%nat bobs_task) db_bob); reflexivity.
Defined.

(** ** When create succeeds *)

(** X9.  The create endpoint returns exactly when the caller is
    authenticated, the rate limiter lets the call through, the title is
    valid and the description is valid.  When it returns, the store is the
    one before with one task appended: the caller's, active, without
    completedAt, created and updated now, holding the sanitized title and
    description; the id returned is that task's, had no document before and
    is larger than every id in use.  When both the title and the
    description are invalid the failure is the title one. *)
Theorem create_succeeds_iff ctx title description db :
  ((exists id db',
      Endpoints_tasks.create ctx title description db = (Return id, db')) <->
   (exists u, getAuthUser ctx = Some u /\
              ok (limit ctx "createTask" (user_id u)) = true) /\
   isValidTaskTitle title = true /\
   isValidTaskDescription description = true) /\
  (forall id db',
     Endpoints_tasks.create ctx title description db = (Return id, db') ->
     Tasks.getTaskById db id = None /\
     (forall j d, Tasks.getTaskById db j = Some d -> (j < id)%nat) /\
     exists u,
       getAuthUser ctx = Some u /\
       db' = mkDB (tasks db ++
                     [Some {| Task.userId := user_id u;
                              Task.title := sanitizeTaskTitle title;
                              Task.description :=
                                sanitizeTaskDescription description;
                              Task.status := active;
                              Task.completedAt := None;
                              Task.createdAt := Date_now ctx;
                              Task.updatedAt := Date_now ctx |}])
                  (threads db) (messages db) /\
       Tasks.getTaskById db' id =
         Some (mkDoc id
                 {| Task.userId := user_id u;
                    Task.title := sanitizeTaskTitle title;
                    Task.description := sanitizeTaskDescription description;
                    Task.status := active;
                    Task.completedAt := None;
                    Task.createdAt := Date_now ctx;
                    Task.updatedAt := Date_now ctx |})) /\
  (forall u,
     getAuthUser ctx = Some u ->
     ok (limit ctx "createTask" (user_id u)) = true ->
     (isValidTaskTitle title = false ->
      Endpoints_tasks.create ctx title description db =
        (Throw "Task title must be between 1 and 200 characters", db)) /\
     (isValidTaskTitle title = true ->
      isValidTaskDescription description = false ->
      Endpoints_tasks.create ctx title description db =
        (Throw "Task description must be less than 5000 characters", db))).
Proof.
  split; [|split].
  - split.
    + intros (id & db' & Hc).
      unfold Endpoints_tasks.create, mutation,
        Endpoints_tasks.create_handler in Hc.
      revert Hc. open_handler.
      destruct (getAuthUser ctx) as [u|]; simpl; [|discriminate].
      destruct (ok (limit ctx "createTask" (user_id u))) eqn:Hok; simpl;
        [|discriminate].
      unfold validateAndSanitizeTask. simpl.
      destruct (isValidTaskTitle title); simpl; [|discriminate].
      destruct (isValidTaskDescription description); simpl; [|discriminate].
      intros _. split; [exists u|]; auto.
    + intros ((u & Hauth & Hok) & Ht & Hd).
      eexists _, _. now apply (create_succeeds ctx u).
  - intros id db' Hc. apply create_returns in Hc as (u & Hauth & -> & ->).
    split; [|split].
    + apply get_None. left. apply lookup_ge_None. lia.
    + intros j d Hj. now apply get_lt in Hj.
    + exists u. split; [exact Hauth|]. split; [reflexivity|].
      apply get_insert_new.
  - intros u Hauth Hok.
    unfold Endpoints_tasks.create, mutation, Endpoints_tasks.create_handler,
      bind.
    pass_checks. split.
    + intros Ht. now rewrite validateAndSanitizeTask_bad_title.
    + intros Ht Hd. unfold validateAndSanitizeTask. simpl.
      now rewrite Ht, Hd.
Qed.

Lemma create_succeeds_iff_witness :
  Endpoints_tasks.create (request (Some alice) 5) []
    (Some (replicate (Z.to_nat 5001) 120%N)) db_bob =
  (Throw "Task title must be between 1 and 200 characters", db_bob).
Proof.
  refine (proj1 (proj2 (proj2 (create_succeeds_iff (request (Some alice) 5)
            [] (Some (replicate (Z.to_nat 5001) 120%N)) db_bob)) alice _ _) _);
    reflexivity.
Defined.

(** ** Handlers check before they write *)

(** Closes a goal whose premise says that a handler that has just thrown
    left another store. *)
Ltac thrown :=
  let H := fresh in intros H; cbv [throw ret] in H; congruence.

(** X10.  A task handler that throws has not written to the tasks, threads
    or messages tables: run without the transaction that would discard its
    writes, each of the six handlers leaves these three tables exactly as
    it found them whenever it throws.  (The token the rate limiter takes
    when it is consulted is bookkeeping of that component, kept outside
    these tables.) *)
Theorem task_handlers_throw_before_writing ctx db msg db' :
  (forall title description,
     Endpoints_tasks.create_handler ctx title description db =
       (Throw msg, db') -> db' = db) /\
  (forall id title description,
     Endpoints_tasks.update_handler ctx id title description db =
       (Throw msg, db') -> db' = db) /\
  (forall id,
     Endpoints_tasks.complete_handler ctx id db = (Throw msg, db') ->
     db' = db) /\
  (forall id,
     Endpoints_tasks.reactivate_handler ctx id db = (Throw msg, db') ->
     db' = db) /\
  (forall id,
     Endpoints_tasks.remove_handler ctx id db = (Throw msg, db') ->
     db' = db) /\
  (forall id,
     Endpoints_tasks.permanentlyDelete_handler ctx id db = (Throw msg, db') ->
     db' = db).
Proof.
  repeat split.
  - intros title description.
    unfold Endpoints_tasks.create_handler. open_handler.
    destruct (getAuthUser ctx) as [u|]; simpl; [|thrown].
    destruct (ok (limit ctx "createTask" (user_id u))); simpl;
      [|thrown].
    unfold validateAndSanitizeTask. simpl.
    destruct (isValidTaskTitle title); simpl; [|thrown].
    destruct (isValidTaskDescription description); simpl;
      [|thrown].
    discriminate.
  - intros id title description.
    unfold Endpoints_tasks.update_handler.
    through_guards ctx "updateTask" db id ltac:(thrown).
    match goal with
    | |- context [match (if ?b then _ else _) db with _ => _ end] =>
        destruct b
    end.
    + match goal with
      | |- context [valid ?v] => destruct (valid v)
      end; simpl; [|thrown].
      unfold Tasks.updateTask. rewrite (db_patch_tasks db id task) by exact Hget.
      discriminate.
    + simpl. unfold Tasks.updateTask.
      rewrite (db_patch_tasks db id task) by exact Hget. discriminate.
  - intros id. unfold Endpoints_tasks.complete_handler.
    through_guards ctx "updateTask" db id ltac:(thrown).
    unfold Tasks.completeTask. rewrite (db_patch_tasks db id task) by exact Hget.
    discriminate.
  - intros id. unfold Endpoints_tasks.reactivate_handler.
    through_guards ctx "updateTask" db id ltac:(thrown).
    unfold Tasks.reactivateTask.
    rewrite (db_patch_tasks db id task) by exact Hget. discriminate.
  - intros id. unfold Endpoints_tasks.remove_handler.
    through_guards ctx "deleteTask" db id ltac:(thrown).
    unfold Tasks.softDeleteTask.
    rewrite (db_patch_tasks db id task) by exact Hget. discriminate.
  - intros id. unfold Endpoints_tasks.permanentlyDelete_handler.
    through_guards ctx "deleteTask" db id ltac:(thrown).
    unfold Tasks.hardDeleteTask.
    rewrite (db_delete_tasks db id task) by exact Hget. discriminate.
Qed.

Lemma task_handlers_throw_before_writing_witness :
  snd (Endpoints_tasks.remove_handler (request (Some alice) 5) 0%nat db_bob)
  = db_bob.
Proof.
  refine (proj1 (proj2 (proj2 (proj2 (proj2
            (task_handlers_throw_before_writing (request (Some alice) 5)
               db_bob "Not authorized to delete this task"
               (snd (Endpoints_tasks.remove_handler
                       (request (Some alice) 5) 0%nat db_bob))))))) 0%nat _).
  reflexivity.
Defined.

(** ** Stored text is always valid *)

Lemma validateAndSanitizeTask_valid_iff (args : TaskInput) :
  valid (validateAndSanitizeTask args) = true <->
  isValidTaskTitle (in_title args) = true /\
  isValidTaskDescription (in_description args) = true.
Proof.
  unfold validateAndSanitizeTask.
  destruct (isValidTaskTitle (in_title args)),
    (isValidTaskDescription (in_description args)); simpl;
    split; intros H; try discriminate; auto; destruct H; discriminate.
Qed.

(** An update that returns has passed the validation of what it was
    given. *)
Lemma update_returns ctx id title description db db' :
  Endpoints_tasks.update ctx id title description db = (Return tt, db') ->
  exists task,
    Tasks.getTaskById db id = Some task /\
    (isDefined title || isDefined description = true ->
     valid (validateAndSanitizeTask
              {| in_title := default (Task.title (fields task)) title;
                 in_description := description |}) = true) /\
    db' = mkDB (<[id := Some (Tasks.update_patch title description
                                (Date_now ctx) (fields task))]> (tasks db))
               (threads db) (messages db).
Proof.
  unfold Endpoints_tasks.update, mutation, Endpoints_tasks.update_handler.
  through_guards ctx "updateTask" db id ltac:(discriminate).
  destruct (isDefined title || isDefined description) eqn:Hgiven.
  - destruct (valid (validateAndSanitizeTask
       {| in_title := default (Task.title (fields task)) title;
          in_description := description |})) eqn:Hvalid; simpl;
      [|discriminate].
    unfold Tasks.updateTask. rewrite (db_patch_tasks db id task) by exact Hget.
    intros H. injection H as <-. exists task. auto.
  - simpl. unfold Tasks.updateTask.
    rewrite (db_patch_tasks db id task) by exact Hget.
    intros H. injection H as <-. exists task. repeat split. discriminate.
Qed.

Lemma call_keeps_well_formed ctx c db :
  all_tasks well_formed_task db -> all_tasks well_formed_task (call ctx c db).
Proof.
  intros Hall j d Hj.
  destruct c as [title description|id title description|id|id|id|id].
  - destruct (call_create ctx title description db)
      as [Heq|(u & _ & Ht & Hd & Heq)]; rewrite Heq in Hj;
      [now apply (Hall j)|].
    unfold Tasks.getTaskById in Hj. simpl in Hj.
    apply get_insert_inv in Hj as [Hj| ->]; [now apply (Hall j)|].
    unfold well_formed_task. simpl.
    destruct (sanitizeTaskTitle_valid _ Ht) as [-> Hvt].
    destruct (sanitizeTaskDescription_valid _ Hd) as [-> Hvd]. auto.
  - simpl in Hj.
    destruct (Endpoints_tasks.update ctx id title description db)
      as [[[]|msg] db'] eqn:Hu; simpl in Hj.
    + apply update_returns in Hu as (task & Hget & Hvalid & ->).
      unfold Tasks.getTaskById in Hj. simpl in Hj.
      apply get_update_inv in Hj as [[-> Hj]|[_ Hj]]; [|now apply (Hall j)].
      simpl in Hj. injection Hj as <-. simpl.
      destruct (Hall id task Hget) as [Hwt Hwd].
      unfold well_formed_task. simpl.
      destruct title as [t|], description as [ds|]; simpl in *.
      * apply validateAndSanitizeTask_valid_iff in Hvalid; auto.
      * apply validateAndSanitizeTask_valid_iff in Hvalid as [Ht _]; auto.
      * apply validateAndSanitizeTask_valid_iff in Hvalid as [_ Hd]; auto.
      * auto.
    + unfold Endpoints_tasks.update in Hu. apply mutation_Throw in Hu as ->.
      now apply (Hall j).
  - destruct (call_at_target ctx (Complete id) db id eq_refl)
      as [Heq|(u & task & _ & Hget & _ & Heq)]; rewrite Heq in Hj;
      [now apply (Hall j)|].
    unfold Tasks.getTaskById in Hj. simpl in Hj.
    apply get_update_inv in Hj as [[-> Hj]|[_ Hj]]; [|now apply (Hall j)].
    injection Hj as <-. now apply (Hall id task).
  - destruct (call_at_target ctx (Reactivate id) db id eq_refl)
      as [Heq|(u & task & _ & Hget & _ & Heq)]; rewrite Heq in Hj;
      [now apply (Hall j)|].
    unfold Tasks.getTaskById in Hj. simpl in Hj.
    apply get_update_inv in Hj as [[-> Hj]|[_ Hj]]; [|now apply (Hall j)].
    injection Hj as <-. now apply (Hall id task).
  - destruct (call_at_target ctx (Remove id) db id eq_refl)
      as [Heq|(u & task & _ & Hget & _ & Heq)]; rewrite Heq in Hj;
      [now apply (Hall j)|].
    unfold Tasks.getTaskById in Hj. simpl in Hj.
    apply get_update_inv in Hj as [[-> Hj]|[_ Hj]]; [|now apply (Hall j)].
    injection Hj as <-. now apply (Hall id task).
  - destruct (call_at_target ctx (PermanentlyDelete id) db id eq_refl)
      as [Heq|(u & task & _ & Hget & _ & Heq)]; rewrite Heq in Hj;
      [now apply (Hall j)|].
    unfold Tasks.getTaskById in Hj. simpl in Hj.
    apply get_update_inv in Hj as [[-> Hj]|[_ Hj]]; [|now apply (Hall j)].
    discriminate.
Qed.

(** X11.  In every store that calls of the task endpoints build from one
    without tasks, each stored title passes isValidTaskTitle (it is not
    blank and has at most 200 code units) and each stored description
    passes isValidTaskDescription (at most 5000 code units). *)
Theorem reachable_tasks_well_formed db id d :
  reachable db ->
  Tasks.getTaskById db id = Some d ->
  isValidTaskTitle (Task.title (fields d)) = true /\
  isValidTaskDescription (Task.description (fields d)) = true.
Proof.
  intros Hreach. revert id d.
  change (all_tasks well_formed_task db).
  induction Hreach as [threads messages|ctx c db _ IH].
  - intros id d H. apply get_lt in H. simpl in H. lia.
  - now apply call_keeps_well_formed.
Qed.

Lemma reachable_tasks_well_formed_witness :
  isValidTaskTitle (js " Pay rent ") = true /\
  isValidTaskDescription None = true.
Proof.
  refine (reachable_tasks_well_formed
            (call (request (Some bob) 2)
               (Update 0%nat (Some (js " Pay rent ")) None)
               (call (request (Some bob) 1) (Create (js "Pay rent") None)
                  empty_db))
            0%nat
            (mkDoc 0%nat
               (Tasks.update_patch (Some (js " Pay rent ")) None 2
                  (Tasks.new_task 1 "bob" (js "Pay rent") None))) _ _).
  - repeat apply reach_call. apply reach_start.
  - reflexivity.
Defined.

(** ** What the queries return *)

Lemma filter_by_status_length (uid : string) (l : list (Doc Task.t)) :
  let by_user := fun d : Doc Task.t =>
    String.eqb (Task.userId (fields d)) uid in
  let by_status := fun s (d : Doc Task.t) =>
    by_user d && TaskStatus_eqb (Task.status (fields d)) s in
  length (List.filter by_user l) =
  (length (List.filter (by_status active) l)
   + length (List.filter (by_status completed) l)
   + length (List.filter (by_status deleted) l))%nat.
Proof.
  intros by_user by_status. induction l as [|d l IH]; [reflexivity|].
  subst by_status. simpl. destruct (by_user d); simpl; [|exact IH].
  destruct (Task.status (fields d)); simpl; rewrite IH; lia.
Qed.

(** X12.  For an authenticated user, list answers with every task of the
    user whatever its status, soft-deleted ones included: its documents are
    those of listActive, those of listCompleted and the user's deleted
    tasks, and its length is the sum of countTasksByStatus over the three
    statuses. *)
Theorem list_splits_by_status ctx u db :
  getAuthUser ctx = Some u ->
  exists l la lc,
    Endpoints_tasks.list ctx db = Return l /\
    Endpoints_tasks.listActive ctx db = Return la /\
    Endpoints_tasks.listCompleted ctx db = Return lc /\
    length la = Tasks.countTasksByStatus db (user_id u) active /\
    length lc = Tasks.countTasksByStatus db (user_id u) completed /\
    length l = (length la + length lc
                + Tasks.countTasksByStatus db (user_id u) deleted)%nat /\
    forall d,
      d ∈ l <->
      d ∈ la \/ d ∈ lc \/
      (Tasks.getTaskById db (_id d) = Some d /\
       Task.userId (fields d) = user_id u /\
       Task.status (fields d) = deleted).
Proof.
  intros Hauth.
  unfold Endpoints_tasks.list, Endpoints_tasks.listActive,
    Endpoints_tasks.listCompleted. rewrite Hauth.
  eexists _, _, _. repeat split; try reflexivity.
  - unfold Tasks.countTasksByStatus, Tasks.getActiveTasksByUser,
      Tasks.getCompletedTasksByUser, Tasks.getTasksByUser,
      Tasks.getTasksByUserAndStatus, Store.collect.
    rewrite !length_rev. apply filter_by_status_length.
  - rewrite elem_of_getTasksByUser.
    unfold Tasks.getActiveTasksByUser, Tasks.getCompletedTasksByUser.
    rewrite !elem_of_getTasksByUserAndStatus.
    intros [Hget Hu]. destruct (Task.status (fields d)) eqn:Hs; auto.
  - rewrite elem_of_getTasksByUser.
    unfold Tasks.getActiveTasksByUser, Tasks.getCompletedTasksByUser.
    rewrite !elem_of_getTasksByUserAndStatus.
    intros [(Hget & Hu & _)|[(Hget & Hu & _)|(Hget & Hu & _)]]; auto.
Qed.

Lemma list_splits_by_status_witness :
  exists l la lc,
    Endpoints_tasks.list (request (Some bob) 9)
      (call (request (Some bob) 8) (Remove 0%nat) db_bob) = Return l /\
    Endpoints_tasks.listActive (request (Some bob) 9)
      (call (request (Some bob) 8) (Remove 0%nat) db_bob) = Return la /\
    Endpoints_tasks.listCompleted (request (Some bob) 9)
      (call (request (Some bob) 8) (Remove 0%nat) db_bob) = Return lc /\
    length l = 1%nat /\ length la = 0%nat /\ length lc = 0%nat.
Proof.
  destruct (list_splits_by_status (request (Some bob) 9) bob
              (call (request (Some bob) 8) (Remove 0%nat) db_bob) eq_refl)
    as (l & la & lc & Hl & Hla & Hlc & Ha & Hc & Hlen & _).
  exists l, la, lc. rewrite Hlen, Ha, Hc. repeat split; assumption.
Defined.

(** X13.  The task queries never show another user's task: every document
    that list, listActive, listCompleted or getRecentTasks returns for the
    authenticated user is stored under its id and carries that user's id,
    and get returns a document exactly when it is stored under the id asked
    for and belongs to the caller (whatever its status). *)
Theorem queries_show_own_tasks_only ctx u db :
  getAuthUser ctx = Some u ->
  (forall l d,
     Endpoints_tasks.list ctx db = Return l \/
     Endpoints_tasks.listActive ctx db = Return l \/
     Endpoints_tasks.listCompleted ctx db = Return l \/
     (exists limit, Tasks.getRecentTasks db (user_id u) limit = l) ->
     d ∈ l ->
     Tasks.getTaskById db (_id d) = Some d /\
     Task.userId (fields d) = user_id u) /\
  (forall id d,
     Endpoints_tasks.get ctx id db = Return d <->
     Tasks.getTaskById db id = Some d /\
     Task.userId (fields d) = user_id u).
Proof.
  intros Hauth.
  unfold Endpoints_tasks.list, Endpoints_tasks.listActive,
    Endpoints_tasks.listCompleted, Endpoints_tasks.get.
  rewrite Hauth. split.
  - intros l d [Hl|[Hl|[Hl|[limit Hl]]]] Hd.
    + injection Hl as <-. now apply elem_of_getTasksByUser.
    + injection Hl as <-.
      apply elem_of_getTasksByUserAndStatus in Hd as (? & ? & _). auto.
    + injection Hl as <-.
      apply elem_of_getTasksByUserAndStatus in Hd as (? & ? & _). auto.
    + subst l. unfold Tasks.getRecentTasks in Hd.
      apply (subseteq_take _ _ d) in Hd.
      now apply (elem_of_getTasksByUser db (user_id u) d).
  - intros id d. destruct (Tasks.getTaskById db id) as [task|] eqn:Hget.
    + destruct (String.eqb (Task.userId (fields task)) (user_id u)) eqn:Hown;
        simpl.
      * apply String.eqb_eq in Hown. split.
        -- intros H. injection H as <-. auto.
        -- intros [H _]. congruence.
      * apply String.eqb_neq in Hown. split; [discriminate|].
        intros [H Hu]. congruence.
    + split; [discriminate|]. intros [H _]. discriminate.
Qed.

Lemma queries_show_own_tasks_only_witness :
  Endpoints_tasks.get (request (Some bob) 9) 0%nat db_bob =
  Return (mkDoc 0%nat bobs_task).
Proof.
  apply (proj2 (queries_show_own_tasks_only (request (Some bob) 9) bob
                  db_bob eq_refl) 0%nat (mkDoc 0%nat bobs_task)).
  split; reflexivity.
Defined.

(** X14.  getRecentMessagesByThread returns the last [limit] messages of
    the thread (50 when no limit is given), newest first: reversed, it is
    the tail of getMessagesByThread.  getRecentTasks returns the first
    [limit] documents of getTasksByUser (10 when no limit is given). *)
Theorem recent_is_a_page db :
  (forall threadId limit,
     let n := default 50%nat limit in
     let all := Messages.getMessagesByThread db threadId in
     rev (Messages.getRecentMessagesByThread db threadId limit) =
       drop (length all - n) all /\
     length (Messages.getRecentMessagesByThread db threadId limit) =
       Nat.min n (length all)) /\
  (forall userId limit,
     let n := default 10%nat limit in
     Tasks.getRecentTasks db userId limit =
       take n (Tasks.getTasksByUser db userId) /\
     length (Tasks.getRecentTasks db userId limit) =
       Nat.min n (length (Tasks.getTasksByUser db userId))).
Proof.
  split.
  - intros threadId limit n all.
    unfold Messages.getRecentMessagesByThread. fold n.
    change (Store.collect (messages db)
              (fun m => Nat.eqb (Message.threadId m) threadId) Store.desc)
      with (rev all).
    split.
    + rewrite firstn_rev. apply rev_involutive.
    + rewrite length_take, length_rev. reflexivity.
  - intros userId limit n. unfold Tasks.getRecentTasks. fold n.
    split; [reflexivity|]. apply length_take.
Qed.

(** ** Counting by status *)

Lemma count_after_update {A} (p : A -> bool) (tbl : Table A) id t
    (x : option A) i :
  tbl !! id = Some (Some t) ->
  (length (List.filter (fun d => p (fields d))
             (Store.scan i (<[id := x]> tbl)))
   + (if p t then 1 else 0)
   = length (List.filter (fun d => p (fields d)) (Store.scan i tbl))
     + match x with
       | Some t' => if p t' then 1 else 0
       | None => 0
       end)%nat.
Proof.
  revert id i. induction tbl as [|s tbl IH]; intros id i Hl; [discriminate|].
  destruct id as [|id]; simpl in Hl.
  - injection Hl as ->. simpl.
    destruct x as [t'|]; simpl; destruct (p t); try destruct (p t'); simpl;
      lia.
  - simpl. specialize (IH id (S i) Hl).
    destruct s as [r|]; simpl; [destruct (p r); simpl|]; lia.
Qed.

Lemma patch_of_keeps_userId ctx c t :
  Task.userId (patch_of ctx c t) = Task.userId t.
Proof. now destruct c. Qed.

(** X15.  countTasksByStatus follows the status of the task a call aims
    at: for the owner of that task and each status [s], the count after the
    call, plus one if the task was in [s] before, equals the count before,
    plus one if the task is in [s] after.  So complete moves one unit from
    the task's old status to completed, remove to deleted, reactivate to
    active, permanentlyDelete takes one away, and a failed call changes no
    count. *)
Theorem counts_follow_status ctx c db id task s :
  target c = Some id ->
  Tasks.getTaskById db id = Some task ->
  (Tasks.countTasksByStatus (call ctx c db) (Task.userId (fields task)) s
   + (if TaskStatus_eqb (Task.status (fields task)) s then 1 else 0)
   = Tasks.countTasksByStatus db (Task.userId (fields task)) s
     + match statusOf (call ctx c db) id with
       | Some s' => if TaskStatus_eqb s' s then 1 else 0
       | None => 0
       end)%nat.
Proof.
  intros Ht Hget.
  destruct (call_at_target ctx c db id Ht)
    as [->|(u & task' & _ & Hget' & _ & ->)].
  - unfold statusOf. now rewrite Hget.
  - assert (task' = task) as -> by congruence.
    unfold statusOf. rewrite (getTaskById_patched db id _ task Hget).
    unfold Tasks.countTasksByStatus, Tasks.getTasksByUserAndStatus,
      Store.collect. simpl. rewrite !length_rev.
    pose proof Hget as Hslot. unfold Tasks.getTaskById in Hslot.
    apply get_Some in Hslot as [_ Hslot].
    pose proof (count_after_update
                  (fun t => String.eqb (Task.userId t)
                              (Task.userId (fields task))
                            && TaskStatus_eqb (Task.status t) s)
                  (tasks db) id (fields task)
                  (slot_after ctx c (fields task)) 0%nat Hslot) as Hcnt.
    cbv beta in Hcnt. rewrite String.eqb_refl in Hcnt. simpl in Hcnt.
    destruct c; simpl in *; try discriminate;
      rewrite ?String.eqb_refl in Hcnt; simpl in Hcnt; exact Hcnt.
Qed.

Lemma counts_follow_status_witness :
  (Tasks.countTasksByStatus
     (call (request (Some bob) 5) (Complete 0%nat) db_bob) "bob" completed
   + 0 = Tasks.countTasksByStatus db_bob "bob" completed + 1)%nat.
Proof.
  apply (counts_follow_status (request (Some bob) 5) (Complete 0%nat) db_bob
           0%nat (mkDoc 0%nat bobs_task) completed); reflexivity.
Defined.

(** X16.  A create that succeeds adds one to the caller's count of active
    tasks and leaves the caller's counts of completed and deleted tasks,
    and every count of every other user, as they were. *)
Theorem create_counts ctx title description db id db' :
  Endpoints_tasks.create ctx title description db = (Return id, db') ->
  exists u,
    getAuthUser ctx = Some u /\
    forall uid s,
      Tasks.countTasksByStatus db' uid s =
        (Tasks.countTasksByStatus db uid s
         + if String.eqb uid (user_id u) && TaskStatus_eqb s active
           then 1 else 0)%nat.
Proof.
  intros Hc. apply create_returns in Hc as (u & Hauth & _ & ->).
  exists u. split; [exact Hauth|]. intros uid s.
  unfold Tasks.countTasksByStatus, Tasks.getTasksByUserAndStatus. simpl.
  rewrite collect_insert. simpl. rewrite (String.eqb_sym (user_id u) uid).
  destruct (String.eqb uid (user_id u)), s; simpl; lia.
Qed.

Lemma create_counts_witness :
  exists u,
    getAuthUser (request (Some bob) 5) = Some u /\
    forall uid s,
      Tasks.countTasksByStatus
        (call (request (Some bob) 5) (Create (js "Buy milk") None) db_bob)
        uid s =
        (Tasks.countTasksByStatus db_bob uid s
         + if String.eqb uid (user_id u) && TaskStatus_eqb s active
           then 1 else 0)%nat.
Proof.
  refine (create_counts (request (Some bob) 5) (js "Buy milk") None db_bob
            1%nat _ _).
  reflexivity.
Defined.

(** ** Completing and reactivating, on the stored fields *)

(** X17.  For the owner of a task: complete followed by reactivate gives
    back the task with every field as before except status (active),
    completedAt (cleared) and updatedAt (the time of the reactivate), so an
    active task is restored up to updatedAt; and completing a task that is
    already completed succeeds and overwrites completedAt with the time of
    the later call. *)
Theorem complete_reactivate_fields ctx1 ctx2 u id task db :
  getAuthUser ctx1 = Some u ->
  getAuthUser ctx2 = Some u ->
  ok (limit ctx1 "updateTask" (user_id u)) = true ->
  ok (limit ctx2 "updateTask" (user_id u)) = true ->
  Tasks.getTaskById db id = Some task ->
  Task.userId (fields task) = user_id u ->
  exists db1,
    Endpoints_tasks.complete ctx1 id db = (Return tt, db1) /\
    (exists db2,
       Endpoints_tasks.reactivate ctx2 id db1 = (Return tt, db2) /\
       Tasks.getTaskById db2 id =
         Some (mkDoc id
           {| Task.userId := Task.userId (fields task);
              Task.title := Task.title (fields task);
              Task.description := Task.description (fields task);
              Task.status := active;
              Task.completedAt := None;
              Task.createdAt := Task.createdAt (fields task);
              Task.updatedAt := Date_now ctx2 |})) /\
    (exists db2,
       Endpoints_tasks.complete ctx2 id db1 = (Return tt, db2) /\
       Tasks.getTaskById db2 id =
         Some (mkDoc id
           {| Task.userId := Task.userId (fields task);
              Task.title := Task.title (fields task);
              Task.description := Task.description (fields task);
              Task.status := completed;
              Task.completedAt := Some (Date_now ctx2);
              Task.createdAt := Task.createdAt (fields task);
              Task.updatedAt := Date_now ctx2 |})).
Proof.
  intros Hauth1 Hauth2 Hrate1 Hrate2 Hget Hown.
  pose (t1 := Tasks.complete_patch (Date_now ctx1) (fields task)).
  pose (db1 := mkDB (<[id := Some t1]> (tasks db)) (threads db)
                    (messages db)).
  assert (Hget1 : Tasks.getTaskById db1 id = Some (mkDoc id t1)).
  { apply (getTaskById_patched db id (Some t1) task Hget). }
  exists db1. split; [|split].
  - now apply (complete_succeeds ctx1 u db Hauth1 id task).
  - eexists. split.
    + now apply (reactivate_succeeds ctx2 u db1 Hauth2 id (mkDoc id t1)).
    + now rewrite (getTaskById_patched db1 id _ (mkDoc id t1) Hget1).
  - eexists. split.
    + now apply (complete_succeeds ctx2 u db1 Hauth2 id (mkDoc id t1)).
    + now rewrite (getTaskById_patched db1 id _ (mkDoc id t1) Hget1).
Qed.

Lemma complete_reactivate_fields_witness :
  exists db1,
    Endpoints_tasks.complete (request (Some bob) 20) 0%nat db_bob =
      (Return tt, db1) /\
    exists db2,
      Endpoints_tasks.reactivate (request (Some bob) 30) 0%nat db1 =
        (Return tt, db2) /\
      Tasks.getTaskById db2 0%nat =
        Some (mkDoc 0%nat
          {| Task.userId := "bob"; Task.title := js "Pay rent";
             Task.description := None; Task.status := active;
             Task.completedAt := None; Task.createdAt := 10;
             Task.updatedAt := 30 |}).
Proof.
  destruct (complete_reactivate_fields (request (Some bob) 20)
              (request (Some bob) 30) bob 0%nat (mkDoc 0%nat bobs_task)
              db_bob eq_refl eq_refl eq_refl eq_refl eq_refl eq_refl)
    as (db1 & Hc & Hr & _).
  exists db1. split; [exact Hc|exact Hr].
Defined.

(** ** Deleting the messages of a thread *)

(** X18.  deleteMessagesByThread never throws; it leaves the tasks and
    threads tables as they were, and afterwards a message is stored under
    an id exactly when it was stored there before and belongs to another
    thread. *)
Theorem deleteMessagesByThread_effect threadId db :
  exists db',
    Messages.deleteMessagesByThread threadId db = (Return tt, db') /\
    tasks db' = tasks db /\
    threads db' = threads db /\
    forall j,
      Messages.getMessageById db' j =
        match Messages.getMessageById db j with
        | Some m =>
            if Nat.eqb (Message.threadId (fields m)) threadId then None
            else Some m
        | None => None
        end.
Proof.
  pose (msgs := Store.collect (messages db)
                  (fun m => Nat.eqb (Message.threadId m) threadId)
                  Store.asc).
  destruct (deleteEach_spec msgs db) as (tbl' & Hrun & Hgone & Hkept).
  { apply sorted_ids_NoDup, collect_asc_oldest_first. }
  { intros d Hd. apply elem_of_collect in Hd as [Hd _]. now rewrite Hd. }
  exists (mkDB (tasks db) (threads db) tbl').
  split; [|split; [reflexivity|split; [reflexivity|]]].
  - unfold Messages.deleteMessagesByThread, bind, read. fold msgs.
    now rewrite Hrun.
  - intros j. unfold Messages.getMessageById. simpl.
    destruct (decide (j ∈ _id <$> msgs)) as [Hin|Hout].
    + rewrite (Hgone j Hin).
      apply list_elem_of_fmap in Hin as (m & -> & Hm).
      apply elem_of_collect in Hm as [Hget Hthread].
      now rewrite Hget, Hthread.
    + rewrite (Hkept j Hout).
      destruct (Store.get (messages db) j) as [m|] eqn:Hget; [|reflexivity].
      destruct (Nat.eqb (Message.threadId (fields m)) threadId) eqn:Hthread;
        [|reflexivity].
      destruct Hout. apply list_elem_of_fmap. exists m.
      assert (Hid : _id m = j) by now apply get_Some in Hget as [? _].
      split; [auto|]. apply elem_of_collect. now rewrite Hid.
Qed.

(** ** The dashboard *)

Lemma filter_true {A} (l : list A) : List.filter (fun _ => true) l = l.
Proof. induction l as [|a l IH]; simpl; congruence. Qed.

Lemma collect_all_scan {A} (tbl : Table A) :
  collect_all tbl = Store.scan 0%nat tbl.
Proof. unfold collect_all, Store.collect. apply filter_true. Qed.

Lemma scoped_tasks_length db uid :
  uid <> "" ->
  length (scoped Task.userId (Some uid) (collect_all (tasks db))) =
  length (Tasks.getTasksByUser db uid).
Proof.
  intros Hne. apply String.eqb_neq in Hne.
  unfold scoped. rewrite Hne, collect_all_scan.
  unfold Tasks.getTasksByUser, Store.collect. now rewrite length_rev.
Qed.

(** X19.  For an authenticated user (with a non-empty id) the dashboard
    summary counts that user's records in the three tables: the task count
    is the length of what list returns, hence the sum of the counts of
    active, completed and deleted tasks (soft-deleted tasks are counted),
    and totalRecords is the sum of the three per-table counts. *)
Theorem dashboard_summary_counts ctx u db :
  getAuthUser ctx = Some u ->
  user_id u <> "" ->
  exists s n_threads n_messages,
    Endpoints_dashboard.summary ctx db = Return s /\
    Dashboard.perTable s =
      [("tasks", Dashboard.primaryTableCount s); ("threads", n_threads);
       ("messages", n_messages)] /\
    Dashboard.totalRecords s =
      (Dashboard.primaryTableCount s + n_threads + n_messages)%nat /\
    Dashboard.primaryTableCount s =
      length (Tasks.getTasksByUser db (user_id u)) /\
    Dashboard.primaryTableCount s =
      (Tasks.countTasksByStatus db (user_id u) active
       + Tasks.countTasksByStatus db (user_id u) completed
       + Tasks.countTasksByStatus db (user_id u) deleted)%nat /\
    n_threads =
      length (List.filter
                (fun d => String.eqb (Thread.userId (fields d)) (user_id u))
                (Store.scan 0%nat (threads db))) /\
    n_messages =
      length (List.filter
                (fun d => String.eqb (Message.userId (fields d)) (user_id u))
                (Store.scan 0%nat (messages db))).
Proof.
  intros Hauth Hne.
  unfold Endpoints_dashboard.summary. rewrite Hauth.
  eexists _, _, _. split; [reflexivity|].
  unfold Dashboard.loadSummary, Dashboard.PRIMARY_TABLE. simpl.
  pose proof Hne as Hne'. apply String.eqb_neq in Hne'.
  rewrite Hne', !collect_all_scan. repeat split.
  - unfold Tasks.getTasksByUser, Store.collect. now rewrite length_rev.
  - unfold Tasks.countTasksByStatus, Tasks.getTasksByUserAndStatus,
      Store.collect.
    rewrite !length_rev. apply filter_by_status_length.
Qed.

Lemma dashboard_summary_counts_witness :
  exists s n_threads n_messages,
    Endpoints_dashboard.summary (request (Some alice) 40) db_chat =
      Return s /\
    Dashboard.perTable s =
      [("tasks", Dashboard.primaryTableCount s); ("threads", n_threads);
       ("messages", n_messages)] /\
    Dashboard.totalRecords s = 3%nat.
Proof.
  destruct (dashboard_summary_counts (request (Some alice) 40) alice db_chat
              eq_refl ltac:(discriminate))
    as (s & nt & nm & Hs & Hp & Ht & Hc & _ & -> & ->).
  exists s. eexists _, _. split; [exact Hs|]. split; [exact Hp|].
  rewrite Ht, Hc. reflexivity.
Defined.

(** X20.  loadSummary called without a user id, or with the empty string
    (which is falsy), does not scope anything: it counts every live
    document of each table, whoever owns it. *)
Theorem loadSummary_unscoped db :
  Dashboard.loadSummary db (Some "") = Dashboard.loadSummary db None /\
  Dashboard.perTable (Dashboard.loadSummary db None) =
    [("tasks", length (Store.scan 0%nat (tasks db)));
     ("threads", length (Store.scan 0%nat (threads db)));
     ("messages", length (Store.scan 0%nat (messages db)))] /\
  Dashboard.primaryTableCount (Dashboard.loadSummary db None) =
    length (Store.scan 0%nat (tasks db)) /\
  forall uid,
    (Dashboard.primaryTableCount (Dashboard.loadSummary db (Some uid))
     <= Dashboard.primaryTableCount (Dashboard.loadSummary db None))%nat.
Proof.
  split; [reflexivity|].
  unfold Dashboard.loadSummary, Dashboard.PRIMARY_TABLE. simpl.
  rewrite !collect_all_scan. repeat split.
  intros uid. unfold scoped. destruct (String.eqb uid ""); [lia|].
  induction (Store.scan 0%nat (tasks db)) as [|d l IH]; simpl; [lia|].
  destruct (String.eqb (Task.userId (fields d)) uid); simpl; lia.
Qed.

Section StableSort.
Context {A : Type} (before : A -> A -> bool).

Lemma elem_of_sort_insert x l z :
  z ∈ sort_insert before x l <-> z = x \/ z ∈ l.
Proof.
  induction l as [|y l IH]; simpl.
  - rewrite list_elem_of_singleton. split; [auto|].
    intros [H|H]; [exact H|inversion H].
  - destruct (before x y).
    + now rewrite elem_of_cons.
    + rewrite !elem_of_cons, IH. tauto.
Qed.

Lemma elem_of_stable_sort l z : z ∈ stable_sort before l <-> z ∈ l.
Proof.
  induction l as [|x l IH]; simpl; [reflexivity|].
  now rewrite elem_of_sort_insert, elem_of_cons, IH.
Qed.

Lemma length_sort_insert x l :
  length (sort_insert before x l) = S (length l).
Proof.
  induction l as [|y l IH]; simpl; [reflexivity|].
  destruct (before x y); simpl; congruence.
Qed.

Lemma length_stable_sort l : length (stable_sort before l) = length l.
Proof.
  induction l as [|x l IH]; simpl; [reflexivity|].
  now rewrite length_sort_insert, IH.
Qed.

End StableSort.

Lemma sort_insert_more_recent (x : Doc Task.t) l :
  StronglySorted more_recent l ->
  Forall (fun y => (_id x < _id y)%nat) l ->
  StronglySorted more_recent
    (sort_insert
       (fun a b => (Task.updatedAt (fields b) - Task.updatedAt (fields a)
                    <=? 0)%Z) x l).
Proof.
  induction 1 as [|y l Hl IH Hy]; intros Hx; simpl.
  - repeat constructor.
  - apply Forall_cons in Hx as [Hxy Hx].
    destruct (Task.updatedAt (fields y) - Task.updatedAt (fields x) <=? 0)%Z
      eqn:Hb.
    + apply Z.leb_le in Hb. constructor; [now constructor|].
      assert (Hfirst : more_recent x y) by (unfold more_recent; lia).
      constructor; [exact Hfirst|].
      rewrite Forall_forall in *. intros z Hz.
      specialize (Hy z Hz). specialize (Hx z Hz).
      unfold more_recent in *. lia.
    + apply Z.leb_gt in Hb. constructor; [now apply IH|].
      apply Forall_forall. intros z Hz.
      apply elem_of_sort_insert in Hz as [->|Hz].
      * unfold more_recent. lia.
      * rewrite Forall_forall in Hy. now apply Hy.
Qed.

Lemma stable_sort_more_recent (l : list (Doc Task.t)) :
  oldest_first l ->
  StronglySorted more_recent
    (stable_sort
       (fun a b => (Task.updatedAt (fields b) - Task.updatedAt (fields a)
                    <=? 0)%Z) l).
Proof.
  induction 1 as [|x l Hl IH Hx]; simpl; [constructor|].
  apply sort_insert_more_recent; [exact IH|].
  rewrite Forall_forall in *. intros z Hz.
  apply elem_of_stable_sort in Hz. now apply Hx.
Qed.

Lemma sorted_take {A} (R : relation A) n (l : list A) :
  StronglySorted R l -> StronglySorted R (take n l).
Proof.
  intros H. rewrite <- (take_drop n l) in H.
  now apply StronglySorted_app_1_l in H.
Qed.

Lemma sorted_map {A B} (R1 : relation A) (R2 : relation B) (f : A -> B) l :
  (forall x y, R1 x y -> R2 (f x) (f y)) ->
  StronglySorted R1 l -> StronglySorted R2 (map f l).
Proof.
  intros Hf. induction 1 as [|a l Hl IH Ha]; simpl; constructor; [exact IH|].
  apply Forall_forall. intros b Hb.
  apply list_elem_of_In, in_map_iff in Hb as (y & <- & Hy).
  rewrite Forall_forall in Ha. apply Hf, Ha. now apply list_elem_of_In.
Qed.

(** The number of elements [a.slice(0, end)] keeps of an array of length
    [total]. *)
Lemma Array_slice0_take {A} (n : jsnumber) (l : list A) :
  exists k, Array_slice0 n l = take k l /\
            length (Array_slice0 n l) =
              match ToIntegerOrInfinity n with
              | MinusInf => 0%nat
              | PlusInf => length l
              | Int e =>
                  if (e <? 0)%Z then Z.to_nat (Z.of_nat (length l) + e)
                  else Nat.min (Z.to_nat e) (length l)
              end.
Proof.
  unfold Array_slice0. eexists. split; [reflexivity|].
  rewrite length_take.
  destruct (ToIntegerOrInfinity n) as [e| |]; [|lia|simpl; lia].
  destruct (e <? 0)%Z eqn:He; [apply Z.ltb_lt in He|apply Z.ltb_ge in He];
    lia.
Qed.

(** X21.  For an authenticated user (with a non-empty id) the dashboard's
    recent rows are cut from the list of all that user's stored tasks
    (soft-deleted included) ordered most recently updated first, tasks
    updated at the same time in order of creation: the rows are the first
    ones of that list, so every task left out was updated no later than
    every task shown, and each row shows the id, title, status and
    updatedAt of its task.  The limit [n] (10 when none is given) is
    truncated toward zero, NaN counting as 0: there are [min n total] rows
    when [n >= 0], [total + n] rows (none if that is negative) when
    [n < 0], all for plus infinity and none for minus infinity. *)
Theorem dashboard_recent_rows ctx u db limit :
  getAuthUser ctx = Some u ->
  user_id u <> "" ->
  exists all kept,
    StronglySorted more_recent all /\
    (forall d,
       d ∈ all <->
       Tasks.getTaskById db (_id d) = Some d /\
       Task.userId (fields d) = user_id u) /\
    kept = Array_slice0 (default (Finite 10) limit) all /\
    (exists k, kept = take k all) /\
    (forall r d, r ∈ kept -> d ∈ all -> d ∉ kept -> more_recent r d) /\
    length kept =
      match ToIntegerOrInfinity (default (Finite 10) limit) with
      | MinusInf => 0%nat
      | PlusInf => length all
      | Int e =>
          if (e <? 0)%Z then Z.to_nat (Z.of_nat (length all) + e)
          else Nat.min (Z.to_nat e) (length all)
      end /\
    length all = length (Tasks.getTasksByUser db (user_id u)) /\
    Endpoints_dashboard.recent ctx limit db =
      Return
        (map (fun d =>
                {| Dashboard.row_id := _id d;
                   Dashboard.name := Task.title (fields d);
                   Dashboard.row_status := Task.status (fields d);
                   Dashboard.row_updatedAt := Task.updatedAt (fields d) |})
           kept) /\
    StronglySorted row_more_recent
      (map (fun d =>
              {| Dashboard.row_id := _id d;
                 Dashboard.name := Task.title (fields d);
                 Dashboard.row_status := Task.status (fields d);
                 Dashboard.row_updatedAt := Task.updatedAt (fields d) |})
         kept).
Proof.
  intros Hauth Hne. pose proof Hne as Hne'. apply String.eqb_neq in Hne'.
  set (before := fun a b : Doc Task.t =>
         (Task.updatedAt (fields b) - Task.updatedAt (fields a) <=? 0)%Z).
  set (mine := scoped Task.userId (Some (user_id u))
                 (collect_all (tasks db))).
  assert (Hmine : mine =
            List.filter
              (fun d => String.eqb (Task.userId (fields d)) (user_id u))
              (Store.scan 0%nat (tasks db))).
  { subst mine. unfold scoped. now rewrite Hne', collect_all_scan. }
  set (all := stable_sort before mine).
  assert (Hsorted : StronglySorted more_recent all).
  { apply stable_sort_more_recent. rewrite Hmine.
    apply filter_sorted, scan_oldest_first. }
  destruct (Array_slice0_take (default (Finite 10) limit) all)
    as (k & Hk & Hlen).
  exists all, (Array_slice0 (default (Finite 10) limit) all).
  split; [exact Hsorted|]. split; [|split; [reflexivity|]].
  { intros d. subst all. rewrite elem_of_stable_sort, Hmine.
    rewrite list_elem_of_In, filter_In, <- list_elem_of_In, elem_of_scan.
    unfold Tasks.getTaskById.
    rewrite Nat.sub_0_r, get_Some, String.eqb_eq. intuition lia. }
  split; [now exists k|]. split; [|split; [exact Hlen|split; [|split]]].
  - rewrite Hk. intros r d Hr Hd Hout.
    rewrite <- (take_drop k all) in Hd, Hsorted.
    apply elem_of_app in Hd as [Hd|Hd]; [contradiction|].
    now apply (StronglySorted_app_1_elem_of _ _ _ _ _ Hsorted).
  - subst all. rewrite length_stable_sort, Hmine.
    unfold Tasks.getTasksByUser, Store.collect. now rewrite length_rev.
  - unfold Endpoints_dashboard.recent. rewrite Hauth. reflexivity.
  - rewrite Hk. apply (sorted_map more_recent); [intros x y Hxy; exact Hxy|].
    now apply sorted_take.
Qed.

Lemma dashboard_recent_rows_witness :
  exists all kept,
    length all = 2%nat /\
    kept = Array_slice0 (Finite (-3 # 2)) all /\
    length kept = 1%nat /\
    Endpoints_dashboard.recent (request (Some bob) 40)
      (Some (Finite (-3 # 2)))
      (call (request (Some bob) 30) (Create (js "Buy milk") None) db_bob) =
    Return
      (map (fun d =>
              {| Dashboard.row_id := _id d;
                 Dashboard.name := Task.title (fields d);
                 Dashboard.row_status := Task.status (fields d);
                 Dashboard.row_updatedAt := Task.updatedAt (fields d) |})
         kept).
Proof.
  destruct (dashboard_recent_rows (request (Some bob) 40) bob
              (call (request (Some bob) 30) (Create (js "Buy milk") None)
                 db_bob)
              (Some (Finite (-3 # 2))) eq_refl ltac:(discriminate))
    as (all & kept & _ & _ & Hkept & _ & _ & Hlen & Hall & Hrows & _).
  exists all, kept. rewrite Hall in Hlen |- *.
  split; [reflexivity|]. split; [exact Hkept|].
  split; [rewrite Hlen; reflexivity|exact Hrows].
Defined.

Example recent_drops_the_oldest_update :
  Endpoints_dashboard.recent (request (Some bob) 40) (Some (Finite (-1)))
    (call (request (Some bob) 30) (Create (js "Buy milk") None) db_bob) =
  Return [{| Dashboard.row_id := 1%nat; Dashboard.name := js "Buy milk";
             Dashboard.row_status := active;
             Dashboard.row_updatedAt := 30 |}].
Proof. reflexivity. Qed.

Example recent_truncates_a_fractional_limit :
  Endpoints_dashboard.recent (request (Some bob) 40)
    (Some (Finite (-1 # 2))) db_bob = Return [] /\
  Endpoints_dashboard.recent (request (Some bob) 40)
    (Some (Finite (3 # 2))) db_bob =
  Return [{| Dashboard.row_id := 0%nat; Dashboard.name := js "Pay rent";
             Dashboard.row_status := active;
             Dashboard.row_updatedAt := 10 |}].
Proof. split; reflexivity. Qed.

(** ** The data-access layer trusts its caller *)

(** X22.  createTask and createMessage never fail and never check what they
    are given: the document they return the id of is stored exactly as
    passed (a new task active, without completedAt, created and updated
    now), under an id no document had, and every document stored before is
    still stored. *)
Theorem create_then_get ctx db :
  (forall userId title description,
     exists id db',
       Tasks.createTask ctx userId title description db = (Return id, db') /\
       Tasks.getTaskById db id = None /\
       Tasks.getTaskById db' id =
         Some (mkDoc id
           {| Task.userId := userId;
              Task.title := title;
              Task.description := description;
              Task.status := active;
              Task.completedAt := None;
              Task.createdAt := Date_now ctx;
              Task.updatedAt := Date_now ctx |}) /\
       (forall j d, Tasks.getTaskById db j = Some d ->
                    Tasks.getTaskById db' j = Some d) /\
       threads db' = threads db /\ messages db' = messages db) /\
  (forall threadId userId role content,
     exists id db',
       Messages.createMessage ctx threadId userId role content db =
         (Return id, db') /\
       Messages.getMessageById db id = None /\
       Messages.getMessageById db' id =
         Some (mkDoc id
           {| Message.threadId := threadId;
              Message.userId := userId;
              Message.role := role;
              Message.content := content;
              Message.createdAt := Date_now ctx |}) /\
       (forall j d, Messages.getMessageById db j = Some d ->
                    Messages.getMessageById db' j = Some d) /\
       tasks db' = tasks db /\ threads db' = threads db).
Proof.
  split.
  - intros userId title description. eexists _, _.
    split; [reflexivity|]. simpl. repeat split.
    + apply get_None. left. now apply lookup_ge_None.
    + apply get_insert_new.
    + intros j d Hj. unfold Tasks.getTaskById in *. simpl.
      rewrite get_insert_old; [exact Hj|]. now apply get_lt in Hj.
  - intros threadId userId role content. eexists _, _.
    split; [reflexivity|]. simpl. repeat split.
    + apply get_None. left. now apply lookup_ge_None.
    + apply get_insert_new.
    + intros j d Hj. unfold Messages.getMessageById in *. simpl.
      rewrite get_insert_old; [exact Hj|]. now apply get_lt in Hj.
Qed.

Lemma create_then_get_witness :
  exists id db',
    Tasks.createTask (request None 7) "carol" [] None db_bob =
      (Return id, db') /\
    Tasks.getTaskById db' 0%nat = Some (mkDoc 0%nat bobs_task).
Proof.
  destruct (proj1 (create_then_get (request None 7) db_bob) "carol" [] None)
    as (id & db' & Hc & _ & _ & Hold & _).
  exists id, db'. split; [exact Hc|]. now apply Hold.
Defined.

(** ** C2: the order of the checks *)

(** C2 (as the code has it).  Every mutating endpoint authenticates first
    and hands over to the data-access layer last, with its other checks in
    between in a fixed order, which is not the same for all:
    - create: rate limit, validation (title, then description);
    - update: rate limit, ownership (the task is looked up, "Task not
      found", then its owner compared), and only then validation;
    - complete, reactivate, remove, permanentlyDelete: rate limit,
      ownership;
    - sendMessage: rate limit, validation, ownership;
    - createThread: rate limit;
    - updateThread, archiveThread, deleteThread: ownership only, without
      rate limit or validation.
    Each failing check throws its message and leaves the store as it was;
    when all pass, the result is that of the data-access call.  So a caller
    who is authenticated and not rate limited and aims update at a foreign
    task gets "Not authorized to update this task" whatever the input,
    valid or not; the validation failure is for the owner. *)
Theorem update_checks_ownership_before_validation ctx db :
  (forall title description,
     Endpoints_tasks.create ctx title description db =
     check_authenticated ctx db (fun u =>
     check_rate_limit ctx "createTask" u db
       (check_valid (isValidTaskTitle title)
          "Task title must be between 1 and 200 characters" db
       (check_valid (isValidTaskDescription description)
          "Task description must be less than 5000 characters" db
          (Return (length (tasks db)),
           mkDB (tasks db ++
                   [Some (Tasks.new_task (Date_now ctx) (user_id u)
                            (sanitizeTaskTitle title)
                            (sanitizeTaskDescription description))])
                (threads db) (messages db)))))) /\
  (forall id title description,
     Endpoints_tasks.update ctx id title description db =
     check_authenticated ctx db (fun u =>
     check_rate_limit ctx "updateTask" u db
       (check_owns_task u id "Not authorized to update this task" db
          (fun task =>
           let v := validateAndSanitizeTask
                      {| in_title := default (Task.title (fields task)) title;
                         in_description := description |} in
           check_valid
             (negb (isDefined title || isDefined description) || valid v)
             (default "" (error v)) db
             (Return tt,
              with_task_slot db id
                (Some (Tasks.update_patch title description (Date_now ctx)
                         (fields task)))))))) /\
  (forall id,
     Endpoints_tasks.complete ctx id db =
     check_authenticated ctx db (fun u =>
     check_rate_limit ctx "updateTask" u db
       (check_owns_task u id "Not authorized to complete this task" db
          (fun task =>
           (Return tt,
            with_task_slot db id
              (Some (Tasks.complete_patch (Date_now ctx) (fields task)))))))
     /\
     Endpoints_tasks.reactivate ctx id db =
     check_authenticated ctx db (fun u =>
     check_rate_limit ctx "updateTask" u db
       (check_owns_task u id "Not authorized to reactivate this task" db
          (fun task =>
           (Return tt,
            with_task_slot db id
              (Some (Tasks.reactivate_patch (Date_now ctx)
                       (fields task)))))))
     /\
     Endpoints_tasks.remove ctx id db =
     check_authenticated ctx db (fun u =>
     check_rate_limit ctx "deleteTask" u db
       (check_owns_task u id "Not authorized to delete this task" db
          (fun task =>
           (Return tt,
            with_task_slot db id
              (Some (Tasks.softDelete_patch (Date_now ctx)
                       (fields task)))))))
     /\
     Endpoints_tasks.permanentlyDelete ctx id db =
     check_authenticated ctx db (fun u =>
     check_rate_limit ctx "deleteTask" u db
       (check_owns_task u id
          "Not authorized to permanently delete this task" db
          (fun task => (Return tt, with_task_slot db id None))))) /\
  (forall threadId content,
     Endpoints_assistant.sendMessage ctx threadId content db =
     check_authenticated ctx db (fun u =>
     check_rate_limit ctx "sendMessage" u db
       (check_valid (isValidMessageContent content)
          "Message content must be between 1 and 10,000 characters" db
       (check_owns_thread u threadId
          "Not authorized to send messages in this thread" db
          (fun _ =>
           (Return
              {| Endpoints_assistant.userMessage := length (messages db);
                 Endpoints_assistant.aiMessage :=
                   S (length (messages db)) |},
            mkDB (tasks db) (threads db)
              (messages db ++
                 [Some {| Message.threadId := threadId;
                          Message.userId := user_id u;
                          Message.role := user;
                          Message.content := content;
                          Message.createdAt := Date_now ctx |};
                  Some {| Message.threadId := threadId;
                          Message.userId := user_id u;
                          Message.role := assistant;
                          Message.content :=
                            Endpoints_assistant.aiResponseContent content;
                          Message.createdAt := Date_now ctx |}]))))))) /\
  (forall id,
     Endpoints_assistant.deleteThread ctx id db =
     check_authenticated ctx db (fun u =>
     check_owns_thread u id "Not authorized to delete this thread" db
       (fun _ =>
        mutation (Messages.deleteMessagesByThread id ;;;
                  Threads.deleteThread id) db))) /\
  (forall (Created : Type)
          (createThread_db : Ctx -> string -> option jsstring ->
                             Handler Created) title,
     Endpoints_assistant.createThread createThread_db ctx title db =
     check_authenticated ctx db (fun u =>
     check_rate_limit ctx "createThread" u db
       (mutation (createThread_db ctx (user_id u) title) db))) /\
  (forall (Updated : Type)
          (updateThread_db : Ctx -> Id -> jsstring -> Handler Updated)
          id title,
     Endpoints_assistant.updateThread updateThread_db ctx id title db =
     check_authenticated ctx db (fun u =>
     check_owns_thread u id "Not authorized to update this thread" db
       (fun _ => mutation (updateThread_db ctx id title) db))) /\
  (forall (Archived : Type)
          (archiveThread_db : Ctx -> Id -> Handler Archived) id,
     Endpoints_assistant.archiveThread archiveThread_db ctx id db =
     check_authenticated ctx db (fun u =>
     check_owns_thread u id "Not authorized to archive this thread" db
       (fun _ => mutation (archiveThread_db ctx id) db))) /\
  (forall u id title description task,
     getAuthUser ctx = Some u ->
     ok (limit ctx "updateTask" (user_id u)) = true ->
     Tasks.getTaskById db id = Some task ->
     (Task.userId (fields task) <> user_id u ->
      Endpoints_tasks.update ctx id title description db =
        (Throw "Not authorized to update this task", db)) /\
     (Task.userId (fields task) = user_id u ->
      isDefined title || isDefined description = true ->
      forall v,
      v = validateAndSanitizeTask
            {| in_title := default (Task.title (fields task)) title;
               in_description := description |} ->
      valid v = false ->
      Endpoints_tasks.update ctx id title description db =
        (Throw (default "" (error v)), db))).
Proof.
  assert (Hupdate : forall id title description,
     Endpoints_tasks.update ctx id title description db =
     check_authenticated ctx db (fun u =>
     check_rate_limit ctx "updateTask" u db
       (check_owns_task u id "Not authorized to update this task" db
          (fun task =>
           let v := validateAndSanitizeTask
                      {| in_title := default (Task.title (fields task)) title;
                         in_description := description |} in
           check_valid
             (negb (isDefined title || isDefined description) || valid v)
             (default "" (error v)) db
             (Return tt,
              with_task_slot db id
                (Some (Tasks.update_patch title description (Date_now ctx)
                         (fields task)))))))).
  { intros id title description.
    unfold Endpoints_tasks.update, mutation, Endpoints_tasks.update_handler,
      check_authenticated, check_rate_limit, check_owns_task, check_valid,
      with_task_slot.
    through_guards ctx "updateTask" db id ltac:(reflexivity).
    destruct (isDefined title || isDefined description); simpl.
    - destruct (valid _); simpl; [|reflexivity].
      unfold Tasks.updateTask.
      now rewrite (db_patch_tasks db id task _ Hget).
    - unfold Tasks.updateTask.
      now rewrite (db_patch_tasks db id task _ Hget). }
  split; [|split; [exact Hupdate|split; [|split; [|split; [|split;
    [|split; [|split]]]]]]].
  - intros title description.
    unfold Endpoints_tasks.create, mutation, Endpoints_tasks.create_handler,
      check_authenticated, check_rate_limit, check_valid.
    open_handler.
    destruct (getAuthUser ctx) as [u|]; simpl; [|reflexivity].
    destruct (ok (limit ctx "createTask" (user_id u))); simpl;
      [|reflexivity].
    unfold validateAndSanitizeTask. simpl.
    destruct (isValidTaskTitle title); simpl; [|reflexivity].
    destruct (isValidTaskDescription description); reflexivity.
  - intros id.
    unfold check_authenticated, check_rate_limit, check_owns_task,
      with_task_slot.
    split; [|split; [|split]].
    + unfold Endpoints_tasks.complete, mutation,
        Endpoints_tasks.complete_handler.
      through_guards ctx "updateTask" db id ltac:(reflexivity).
      unfold Tasks.completeTask.
      now rewrite (db_patch_tasks db id task _ Hget).
    + unfold Endpoints_tasks.reactivate, mutation,
        Endpoints_tasks.reactivate_handler.
      through_guards ctx "updateTask" db id ltac:(reflexivity).
      unfold Tasks.reactivateTask.
      now rewrite (db_patch_tasks db id task _ Hget).
    + unfold Endpoints_tasks.remove, mutation,
        Endpoints_tasks.remove_handler.
      through_guards ctx "deleteTask" db id ltac:(reflexivity).
      unfold Tasks.softDeleteTask.
      now rewrite (db_patch_tasks db id task _ Hget).
    + unfold Endpoints_tasks.permanentlyDelete, mutation,
        Endpoints_tasks.permanentlyDelete_handler.
      through_guards ctx "deleteTask" db id ltac:(reflexivity).
      unfold Tasks.hardDeleteTask.
      now rewrite (db_delete_tasks db id task Hget).
  - intros threadId content.
    unfold Endpoints_assistant.sendMessage, mutation,
      Endpoints_assistant.sendMessage_handler, check_authenticated,
      check_rate_limit, check_valid, check_owns_thread.
    open_handler.
    destruct (getAuthUser ctx) as [u|]; simpl; [|reflexivity].
    destruct (ok (limit ctx "sendMessage" (user_id u))); simpl;
      [|reflexivity].
    destruct (isValidMessageContent content); simpl; [|reflexivity].
    destruct (Threads.getThreadById db threadId) as [thread|]; simpl;
      [|reflexivity].
    destruct (String.eqb (Thread.userId (fields thread)) (user_id u)); simpl;
      [|reflexivity].
    unfold Messages.createMessage, db_insert, ret,
      Endpoints_assistant.aiResponseContent. simpl.
    rewrite length_app. simpl. rewrite Nat.add_1_r, <- app_assoc.
    reflexivity.
  - intros id.
    unfold Endpoints_assistant.deleteThread, mutation,
      Endpoints_assistant.deleteThread_handler, check_authenticated,
      check_owns_thread.
    open_handler.
    destruct (getAuthUser ctx) as [u|]; simpl; [|reflexivity].
    destruct (Threads.getThreadById db id) as [thread|]; simpl;
      [|reflexivity].
    destruct (String.eqb (Thread.userId (fields thread)) (user_id u)); simpl;
      reflexivity.
  - intros Created createThread_db title.
    unfold Endpoints_assistant.createThread, mutation,
      Endpoints_assistant.createThread_handler, check_authenticated,
      check_rate_limit.
    open_handler.
    destruct (getAuthUser ctx) as [u|]; simpl; [|reflexivity].
    destruct (ok (limit ctx "createThread" (user_id u))); simpl;
      reflexivity.
  - intros Updated updateThread_db id title.
    unfold Endpoints_assistant.updateThread, mutation,
      Endpoints_assistant.updateThread_handler, check_authenticated,
      check_owns_thread.
    open_handler.
    destruct (getAuthUser ctx) as [u|]; simpl; [|reflexivity].
    destruct (Threads.getThreadById db id) as [thread|]; simpl;
      [|reflexivity].
    destruct (String.eqb (Thread.userId (fields thread)) (user_id u)); simpl;
      reflexivity.
  - intros Archived archiveThread_db id.
    unfold Endpoints_assistant.archiveThread, mutation,
      Endpoints_assistant.archiveThread_handler, check_authenticated,
      check_owns_thread.
    open_handler.
    destruct (getAuthUser ctx) as [u|]; simpl; [|reflexivity].
    destruct (Threads.getThreadById db id) as [thread|]; simpl;
      [|reflexivity].
    destruct (String.eqb (Thread.userId (fields thread)) (user_id u)); simpl;
      reflexivity.
  - intros u id title description task Hauth Hok Hget.
    rewrite Hupdate.
    unfold check_authenticated, check_rate_limit, check_owns_task,
      check_valid.
    rewrite Hauth, Hok, Hget. split.
    + intros Hne. apply String.eqb_neq in Hne. now rewrite Hne.
    + intros Hown Hgiven v -> Hbad. apply String.eqb_eq in Hown.
      rewrite Hown. simpl. now rewrite Hgiven, Hbad.
Qed.

Lemma update_checks_ownership_before_validation_witness :
  Endpoints_tasks.update (request (Some alice) 20) 0%nat (Some []) None
    db_bob =
  (Throw "Not authorized to update this task", db_bob).
Proof.
  destruct (update_checks_ownership_before_validation
              (request (Some alice) 20) db_bob)
    as (_ & _ & _ & _ & _ & _ & _ & _ & Hso).
  refine (proj1 (Hso alice 0%nat (Some []) None (mkDoc 0%nat bobs_task)
                   _ _ _) _).
  - reflexivity.
  - reflexivity.
  - reflexivity.
  - simpl. discriminate.
Defined.

(** C2 fails as stated.  alice, authenticated and not rate limited, sends
    the empty title (invalid) for bob's task: the failure is the ownership
    one, not the validation one.  And deleteThread applies no rate limit:
    alice deletes her thread while the limiter refuses every request. *)
Lemma update_foreign_invalid_input :
  let r := Endpoints_tasks.update (request (Some alice) 20) 0%nat (Some [])
             None db_bob in
  getAuthUser (request (Some alice) 20) = Some alice /\
  ok (limit (request (Some alice) 20) "updateTask" (user_id alice)) = true /\
  valid (validateAndSanitizeTask
           {| in_title := []; in_description := None |}) = false /\
  Tasks.getTaskById db_bob 0%nat = Some (mkDoc 0%nat bobs_task) /\
  Task.userId bobs_task <> user_id alice /\
  fst r = Throw "Not authorized to update this task" /\
  fst r <> Throw "Task title must be between 1 and 200 characters" /\
  (forall name,
     ok (limit (limited_request (Some alice) 1500 30) name (user_id alice))
     = false) /\
  fst (Endpoints_assistant.deleteThread (limited_request (Some alice) 1500 30)
         0%nat db_chat) = Return tt.
Proof. vm_compute. repeat split; discriminate. Qed.
